(** * The time-series cache-and-fetch engine of news-investor

    A shallow embedding of the Python backend's price pipeline:
    - [utils/validation.py]       the two request patterns,
    - [utils/transform.py]        normalisation of upstream rows,
    - [repositories/stocks_cache.py]  the TTL policy and the DynamoDB writes,
    - [services/yfinance_service.py]  the upstream fetch with its retry loop,
    - [handlers/stocks.py]        the single-symbol pipeline,
    - [handlers/batch.py]         the multi-symbol coordinator.

    Conventions of the model.
    - Python [str] values are modelled by ASCII [string]s.
    - Python [float] values are modelled by exact rationals ([Q]); [round(x, 4)]
      is round-half-even at four decimals on the exact value. The source
      rounds with two routines, the built-in [round] on a [float] and numpy's
      on a [float64] (the adjusted products); on exact values they are the
      same function, on binary floats they can differ in the last digit kept
      when the value lies half-way (0.12345), which the model does not show.
    - [datetime] values are microsecond counts on the proleptic Gregorian
      calendar, [timedelta] values are microsecond differences. Dates are
      written as text for the years 1000 to 9999, where [%Y] has four digits.
    - A call to the table fails as a whole or is carried out as a whole.
      Whether it fails is the environment's: every refusal of the service is
      covered, the refusal of a batch that names one key twice included. The
      partial answers of the service are not modelled: a [Query] answer cut
      at one page, the [UnprocessedItems] of a batch write.
    - The DynamoDB table, the wall clock and the two external services
      (DynamoDB transport, yfinance) are explicit: the table and the clock are
      part of the state, the services are oracles indexed by the number of
      external calls made so far, so that every behaviour of the environment
      (including answers that change between two identical calls) is covered. *)

From Stdlib Require Import ZArith QArith String Ascii List Lia Permutation.
From stdpp Require Import gmap strings list pretty.

Open Scope Z_scope.

(** ** Strings: case folding and the request patterns *)

Module Str.

Definition code (c : ascii) : Z := Z.of_N (N_of_ascii c).

Definition is_digit (c : ascii) : bool := (48 <=? code c) && (code c <=? 57).
Definition is_upper (c : ascii) : bool := (65 <=? code c) && (code c <=? 90).
Definition is_lower (c : ascii) : bool := (97 <=? code c) && (code c <=? 122).

Definition upper_char (c : ascii) : ascii :=
  if is_lower c then ascii_of_N (N_of_ascii c - 32) else c.

(** [str.upper()] *)
Fixpoint upper (s : string) : string :=
  match s with
  | EmptyString => EmptyString
  | String c r => String (upper_char c) (upper r)
  end.

Fixpoint forallb (p : ascii -> bool) (s : string) : bool :=
  match s with
  | EmptyString => true
  | String c r => p c && forallb p r
  end.

Definition newline : ascii := ascii_of_N 10.

(** What [$] leaves to be matched: Python's [$] matches at the end of the
    string and also just before one final line feed. *)
Fixpoint chomp (s : string) : string :=
  match s with
  | EmptyString => EmptyString
  | String c EmptyString => if Ascii.eqb c newline then EmptyString else s
  | String c r => String c (chomp r)
  end.

Definition nonempty (s : string) : bool :=
  match s with EmptyString => false | _ => true end.

(** The first [n] characters, [s[:n]]. *)
Fixpoint take (n : nat) (s : string) : string :=
  match n, s with
  | O, _ => EmptyString
  | S _, EmptyString => EmptyString
  | S k, String c r => String c (take k r)
  end.

(** Python's [a > b] on strings: code point order, a proper prefix first. *)
Definition gt (a b : string) : bool := String.ltb b a.

End Str.

(** [utils/validation.py] *)

Definition ticker_char (c : ascii) : bool :=
  Str.is_upper c || Str.is_digit c
  || Ascii.eqb c "."%char || Ascii.eqb c "-"%char.

(** [TICKER_PATTERN.match(s)] for [^[A-Z0-9.\-]+$] *)
Definition TICKER_PATTERN_match (s : string) : bool :=
  let b := Str.chomp s in
  Str.nonempty b && Str.forallb ticker_char b.

(** [DATE_PATTERN.match(s)] for [^\d{4}-\d{2}-\d{2}$] *)
Definition DATE_PATTERN_match (s : string) : bool :=
  match Str.chomp s with
  | String y1 (String y2 (String y3 (String y4 (String h1
      (String m1 (String m2 (String h2 (String d1 (String d2
      EmptyString))))))))) =>
      Str.is_digit y1 && Str.is_digit y2 && Str.is_digit y3 && Str.is_digit y4
      && Ascii.eqb h1 "-"%char
      && Str.is_digit m1 && Str.is_digit m2
      && Ascii.eqb h2 "-"%char
      && Str.is_digit d1 && Str.is_digit d2
  | _ => false
  end.

(** ** The calendar: [datetime], [timedelta], [strptime], [strftime] *)

Module Calendar.

Definition is_leap (y : Z) : bool :=
  (y mod 4 =? 0) && (negb (y mod 100 =? 0) || (y mod 400 =? 0)).

Definition days_before_year (y : Z) : Z :=
  let p := y - 1 in p * 365 + p / 4 - p / 100 + p / 400.

Definition days_in_month (y m : Z) : Z :=
  if m =? 2 then (if is_leap y then 29 else 28)
  else if (m =? 4) || (m =? 6) || (m =? 9) || (m =? 11) then 30
  else 31.

(** The table [_DAYS_BEFORE_MONTH] of a common year. *)
Definition DAYS_BEFORE_MONTH (m : Z) : Z :=
  nth (Z.to_nat m)
      [0; 0; 31; 59; 90; 120; 151; 181; 212; 243; 273; 304; 334] 0.

Definition DAYS_IN_MONTH (m : Z) : Z :=
  nth (Z.to_nat m) [0; 31; 28; 31; 30; 31; 30; 31; 31; 30; 31; 30; 31] 0.

Definition days_before_month (y m : Z) : Z :=
  DAYS_BEFORE_MONTH m + (if (2 <? m) && is_leap y then 1 else 0).

(** [date.toordinal]: 0001-01-01 is day 1. *)
Definition ymd2ord (y m d : Z) : Z :=
  days_before_year y + days_before_month y m + d.

(** [date.fromordinal], as the standard library computes it. *)
Definition ord2ymd (n0 : Z) : Z * Z * Z :=
  let n := n0 - 1 in
  let n400 := n / 146097 in let n := n mod 146097 in
  let n100 := n / 36524 in let n := n mod 36524 in
  let n4 := n / 1461 in let n := n mod 1461 in
  let n1 := n / 365 in let n := n mod 365 in
  let year := n400 * 400 + 1 + n100 * 100 + n4 * 4 + n1 in
  if (n1 =? 4) || (n100 =? 4) then (year - 1, 12, 31)
  else
    let leapyear := (n1 =? 3) && (negb (n4 =? 24) || (n100 =? 3)) in
    let month := Z.shiftr (n + 50) 5 in
    let preceding :=
      DAYS_BEFORE_MONTH month + (if (2 <? month) && leapyear then 1 else 0) in
    if n <? preceding then
      let month' := month - 1 in
      let preceding' :=
        preceding
        - (DAYS_IN_MONTH month' + (if (month' =? 2) && leapyear then 1 else 0)) in
      (year, month', n - preceding' + 1)
    else (year, month, n - preceding + 1).

Definition us_per_day : Z := 86400 * 1000000.

(** A [datetime] is its number of microseconds since the midnight that
    starts ordinal day 0; a [timedelta] is a difference of two of them. *)
Definition datetime := Z.
Definition timedelta := Z.

Definition midnight (ordinal : Z) : datetime := ordinal * us_per_day.
Definition toordinal (t : datetime) : Z := t / us_per_day.

Definition sub (a b : datetime) : timedelta := a - b.

(** [timedelta.days]: the normalised day count (floor, seconds stay >= 0). *)
Definition days (d : timedelta) : Z := d / us_per_day.

Definition digit_val (c : ascii) : Z := Str.code c - 48.

(** The [%m] field: [1[0-2]|0[1-9]|[1-9]]. *)
Definition parse_month (s : string) : option Z :=
  match s with
  | String a (String b EmptyString) =>
      if Ascii.eqb a "1"%char && Str.is_digit b && (digit_val b <=? 2)
      then Some (10 + digit_val b)
      else if Ascii.eqb a "0"%char && Str.is_digit b && (1 <=? digit_val b)
      then Some (digit_val b)
      else None
  | String a EmptyString =>
      if Str.is_digit a && (1 <=? digit_val a) then Some (digit_val a) else None
  | _ => None
  end.

(** The [%d] field: [3[0-1]|[1-2]\d|0[1-9]|[1-9]| [1-9]]. *)
Definition parse_day (s : string) : option Z :=
  match s with
  | String a (String b EmptyString) =>
      if Ascii.eqb a "3"%char && Str.is_digit b && (digit_val b <=? 1)
      then Some (30 + digit_val b)
      else if (Ascii.eqb a "1"%char || Ascii.eqb a "2"%char) && Str.is_digit b
      then Some (10 * digit_val a + digit_val b)
      else if (Ascii.eqb a "0"%char || Ascii.eqb a " "%char)
              && Str.is_digit b && (1 <=? digit_val b)
      then Some (digit_val b)
      else None
  | String a EmptyString =>
      if Str.is_digit a && (1 <=? digit_val a) then Some (digit_val a) else None
  | _ => None
  end.

(** Splits at the first hyphen. *)
Fixpoint split_hyphen (s : string) : option (string * string) :=
  match s with
  | EmptyString => None
  | String c r =>
      if Ascii.eqb c "-"%char then Some (EmptyString, r)
      else match split_hyphen r with
           | Some (a, b) => Some (String c a, b)
           | None => None
           end
  end.

(** [datetime.strptime(s, "%Y-%m-%d")]; [None] stands for [ValueError]
    (no match, unconverted data, or a date that does not exist). *)
Definition strptime_ymd (s : string) : option datetime :=
  match s with
  | String y1 (String y2 (String y3 (String y4 (String h r)))) =>
      if Str.is_digit y1 && Str.is_digit y2 && Str.is_digit y3
         && Str.is_digit y4 && Ascii.eqb h "-"%char
      then
        match split_hyphen r with
        | Some (ms, ds) =>
            match parse_month ms, parse_day ds with
            | Some m, Some d =>
                let y := 1000 * digit_val y1 + 100 * digit_val y2
                         + 10 * digit_val y3 + digit_val y4 in
                if (1 <=? y) && (d <=? days_in_month y m)
                then Some (midnight (ymd2ord y m d))
                else None
            | _, _ => None
            end
        | None => None
        end
      else None
  | _ => None
  end.

Definition digit_char (d : Z) : ascii := ascii_of_N (Z.to_N (48 + d mod 10)).

Definition two_digits (n : Z) : string :=
  String (digit_char (n / 10)) (String (digit_char n) EmptyString).

Definition four_digits (n : Z) : string :=
  String (digit_char (n / 1000)) (String (digit_char (n / 100))
    (two_digits n)).

(** [t.strftime("%Y-%m-%d")] for the years 1000 to 9999, the years of the
    clock and of the index of a price frame. Below year 1000 the platform
    writes [%Y] without leading zeros, which this definition does not
    follow. *)
Definition strftime_ymd (t : datetime) : string :=
  let '(y, m, d) := ord2ymd (toordinal t) in
  (four_digits y ++ "-" ++ two_digits m ++ "-" ++ two_digits d)%string.

End Calendar.


(** ** Numbers: Python's [int], [round] and [max] on exact values *)

Module Num.

(** [int(x)]: truncation towards zero. *)
Definition py_int (q : Q) : Z := Z.quot (Qnum q) (Zpos (Qden q)).

(** Nearest integer, ties to even. *)
Definition round_half_even (q : Q) : Z :=
  let n := Qnum q in
  let d := Zpos (Qden q) in
  let f := n / d in
  let r2 := 2 * (n mod d) in
  if r2 <? d then f
  else if d <? r2 then f + 1
  else if Z.even f then f else f + 1.

(** [round(x, 4)], in lowest terms: the built-in on a [float] and numpy's on
    a [float64], which agree on exact values. *)
Definition round4 (q : Q) : Q :=
  Qred (round_half_even (q * inject_Z 10000)%Q # 10000).

Definition is_zero (q : Q) : bool := Qeq_bool q 0%Q.

End Num.

(** ** [utils/transform.py] *)

(** One row of the upstream history frame; an absent column is [None]
    ([row.get(name, default)] supplies the default). *)
Record Row := {
  Open : option Q;
  High : option Q;
  Low : option Q;
  Close : option Q;
  Adj_Close : option Q;
  Volume : option Q;
  Dividends : option Q;
  Stock_Splits : option Q;
}.

(** The frame: its index (a timestamp per row) and its rows, in order. *)
Definition DataFrame := list (Calendar.datetime * Row).

Definition df_empty (df : DataFrame) : bool :=
  match df with [] => true | _ => false end.

(** A normalised price record (the Tiingo format). *)
Record PriceRecord := {
  date : string;
  open : Q;
  high : Q;
  low : Q;
  close : Q;
  volume : Z;
  adjOpen : Q;
  adjHigh : Q;
  adjLow : Q;
  adjClose : Q;
  adjVolume : Z;
  divCash : Q;
  splitFactor : Q;
}.

Definition row_get (field : option Q) (default : Q) : Q :=
  match field with Some v => v | None => default end.

(** The adjustment ratio of a row: [adj_close / close if close != 0 else 1.0]. *)
Definition adj_ratio_of (row : Row) : Q :=
  let close := row_get (Close row) 0%Q in
  let adj_close := row_get (Adj_Close row) close in
  if negb (Num.is_zero close) then (adj_close / close)%Q else 1%Q.

(** The body of the loop of [transform_history_to_tiingo]. *)
Definition transform_row (idx : Calendar.datetime) (row : Row) : PriceRecord :=
  let date_str := (Calendar.strftime_ymd idx ++ "T00:00:00.000Z")%string in
  let close := row_get (Close row) 0%Q in
  let adj_close := row_get (Adj_Close row) close in
  let adj_ratio := adj_ratio_of row in
  let open_price := row_get (Open row) 0%Q in
  let high_price := row_get (High row) 0%Q in
  let low_price := row_get (Low row) 0%Q in
  let close_price := row_get (Close row) 0%Q in
  let volume := Num.py_int (row_get (Volume row) 0%Q) in
  let adj_open := Num.round4 (open_price * adj_ratio)%Q in
  let adj_high := Num.round4 (high_price * adj_ratio)%Q in
  let adj_low := Num.round4 (low_price * adj_ratio)%Q in
  {| date := date_str;
     open := Num.round4 open_price;
     high := Num.round4 high_price;
     low := Num.round4 low_price;
     close := Num.round4 close_price;
     volume := volume;
     adjOpen := adj_open;
     adjHigh := adj_high;
     adjLow := adj_low;
     adjClose := Num.round4 adj_close;
     adjVolume := volume;
     divCash := Num.round4 (row_get (Dividends row) 0%Q);
     splitFactor :=
       let s := Num.round4 (row_get (Stock_Splits row) 0%Q) in
       if Num.is_zero s then 1%Q else s |}.

Definition transform_history_to_tiingo (df : DataFrame) (ticker : string)
  : list PriceRecord :=
  if df_empty df then []
  else map (fun '(idx, row) => transform_row idx row) df.


(** ** Exceptions, state and the monad of the effectful code *)

Inductive exn :=
| APIError (message : string) (status_code : Z)
| StoreError (detail : string)   (* whatever the DynamoDB client raises *)
| ValueError (detail : string).

(** [str(e)]; [APIError] overrides [__str__]. *)
Definition exn_str (e : exn) : string :=
  match e with
  | APIError m c => ("APIError(" ++ pretty c ++ "): " ++ m)%string
  | StoreError d => d
  | ValueError d => d
  end.

Definition is_APIError (e : exn) : bool :=
  match e with APIError _ _ => true | _ => false end.

(** The wall clock: [datetime.now()] and [time.time()] in milliseconds. *)
Record Clock := {
  now : Calendar.datetime;
  time_ms : Z;
}.

(** [int(time.time())] *)
Definition int_time (c : Clock) : Z := Z.quot (time_ms c) 1000.

(** What a caller hands to the repository: ticker, date, priceData and an
    optional metadata entry. *)
Record Item := {
  item_ticker : string;
  item_date : string;
  item_priceData : list (string * Q);
  item_metadata : option (list (string * Q));
}.

(** What the table stores. Its primary key is (ticker, date). *)
Record CacheItem := {
  ci_ticker : string;
  ci_date : string;
  priceData : list (string * Q);
  ttl : Z;
  fetchedAt : Z;
  metadata : option (list (string * Q));
}.

(** The calls that leave the process, in the order they are made. *)
Inductive Event :=
| EvQuery (ticker start_date end_date : string)
| EvPutItem (it : CacheItem)
| EvBatchWriteItem (chunk : list CacheItem)
| EvHistory (ticker start_date end_date : string)
| EvSleep (seconds : Z).

Record State := {
  table : list CacheItem;
  clock : Clock;
  trace : list Event;
}.

Inductive yf_outcome :=
| YfFrame (hist : DataFrame)
| YfRaises (detail : string).

(** The environment: what yfinance answers to the call made as the [n]-th
    external call, and whether the DynamoDB transport fails on it. *)
Record Env := {
  yf_history : nat -> string -> string -> string -> yf_outcome;
  store_fault : nat -> option string;
}.

Inductive result (A : Type) :=
| Ok (a : A)
| Raise (e : exn).
Arguments Ok {A} a.
Arguments Raise {A} e.

Definition M (A : Type) : Type := State -> State * result A.

#[global] Instance M_ret : MRet M := fun A a st => (st, Ok a).
#[global] Instance M_bind : MBind M := fun A B f m st =>
  match m st with
  | (st', Ok a) => f a st'
  | (st', Raise e) => (st', Raise e)
  end.

Definition raise {A} (e : exn) : M A := fun st => (st, Raise e).
Definition get_state : M State := fun st => (st, Ok st).

(** [try: m except Exception as e: h e] *)
Definition try_except {A} (m : M A) (h : exn -> M A) : M A := fun st =>
  match m st with
  | (st', Ok a) => (st', Ok a)
  | (st', Raise e) => h e st'
  end.

(** Records an external call; returns its index. *)
Definition emit (ev : Event) : M nat := fun st =>
  ({| table := table st; clock := clock st; trace := trace st ++ [ev] |},
   Ok (length (trace st))).

Definition set_table (t : list CacheItem) : M unit := fun st =>
  ({| table := t; clock := clock st; trace := trace st |}, Ok tt).

(** [time.sleep(seconds)] *)
Definition time_sleep (seconds : Z) : M unit := fun st =>
  ({| table := table st;
      clock := {| now := now (clock st) + seconds * 1000000;
                  time_ms := time_ms (clock st) + seconds * 1000 |};
      trace := trace st ++ [EvSleep seconds] |}, Ok tt).

(** ** The DynamoDB table *)

Definition same_key (a b : CacheItem) : bool :=
  String.eqb (ci_ticker a) (ci_ticker b) && String.eqb (ci_date a) (ci_date b).

(** [PutItem]: the new item replaces the item with the same primary key. *)
Definition table_put (it : CacheItem) (t : list CacheItem) : list CacheItem :=
  it :: List.filter (fun x => negb (same_key x it)) t.

(** A sequence of puts, in order. *)
Definition put_all (l : list CacheItem) (t : list CacheItem) : list CacheItem :=
  fold_left (fun t it => table_put it t) l t.

Fixpoint insert_by_date (it : CacheItem) (l : list CacheItem) : list CacheItem :=
  match l with
  | [] => [it]
  | x :: r =>
      if String.leb (ci_date it) (ci_date x) then it :: l
      else x :: insert_by_date it r
  end.

(** A stable sort on the date, ascending ([sorted(.., key=date)] and the
    order in which a query returns the items of one partition). *)
Fixpoint sort_by_date (l : list CacheItem) : list CacheItem :=
  match l with
  | [] => []
  | x :: r => insert_by_date x (sort_by_date r)
  end.

(** [Key("ticker").eq(t) & Key("date").between(lo, hi)] *)
Definition key_condition (t lo hi : string) (it : CacheItem) : bool :=
  String.eqb (ci_ticker it) t
  && String.leb lo (ci_date it) && String.leb (ci_date it) hi.

(** [Query]: the items of the partition in the range, in ascending order of
    the sort key. The answer is taken to be complete, that is to fit the one
    page that [query_stocks_by_date_range] reads. *)
Definition table_query (t lo hi : string) (tbl : list CacheItem)
  : list CacheItem :=
  sort_by_date (List.filter (key_condition t lo hi) tbl).

(** Splits a list into groups of at most [n + 1] elements. *)
Fixpoint chunks_aux {A} (n : nat) (cur : list A) (room : nat) (l : list A)
  : list (list A) :=
  match l with
  | [] => match cur with [] => [] | _ => [rev cur] end
  | x :: r =>
      match room with
      | O => rev (x :: cur) :: chunks_aux n [] n r
      | S k => chunks_aux n (x :: cur) k r
      end
  end.

Definition flush_amount : nat := 25.

Definition chunks {A} (l : list A) : list (list A) :=
  chunks_aux (pred flush_amount) [] (pred flush_amount) l.

(** ** [repositories/stocks_cache.py] *)

Definition TTL_HISTORICAL : Z := 90 * 24 * 60 * 60.
Definition TTL_CURRENT : Z := 1 * 24 * 60 * 60.

(** [_float_to_decimal]: a change of representation that keeps the value. *)
Definition float_to_decimal (d : list (string * Q)) : list (string * Q) := d.

Definition calculate_ttl (c : Clock) (date_str : string) : Z :=
  match Calendar.strptime_ymd date_str with
  | Some data_date =>
      let age_days := Calendar.days (Calendar.sub (now c) data_date) in
      let ttl_seconds :=
        if 7 <? age_days then TTL_HISTORICAL else TTL_CURRENT in
      int_time c + ttl_seconds
  | None =>
      (* ValueError: default to the one-day TTL *)
      int_time c + TTL_CURRENT
  end.

(** The item both writers build from a caller's item. *)
Definition make_cache_item (c : Clock) (item : Item) : CacheItem :=
  {| ci_ticker := Str.upper (item_ticker item);
     ci_date := item_date item;
     priceData := float_to_decimal (item_priceData item);
     ttl := calculate_ttl c (item_date item);
     fetchedAt := time_ms c;
     metadata := option_map float_to_decimal (item_metadata item) |}.

Section Services.

Variable env : Env.

(** One call to the table: recorded, then failed by the transport or
    carried out. *)
Definition store_call {A} (ev : Event) (k : M A) : M A :=
  i ← emit ev;
  match store_fault env i with
  | Some detail => raise (StoreError detail)
  | None => k
  end.

(** [table.put_item(Item=it)] *)
Definition put_item (it : CacheItem) : M unit :=
  store_call (EvPutItem it)
    (st ← get_state; set_table (table_put it (table st))).

(** One flush of the batch writer: a [BatchWriteItem] of one group. A call
    that is not failed stores all its items ([UnprocessedItems] is empty);
    the service refuses a group that names one key twice, which is one of
    the failures of [store_fault]. *)
Definition batch_write_item (chunk : list CacheItem) : M unit :=
  store_call (EvBatchWriteItem chunk)
    (st ← get_state;
     set_table (put_all chunk (table st))).

(** [with table.batch_writer() as batch: for item in items:
    batch.put_item(Item=item)]: the items leave in groups of 25, in order;
    a failing group ends the write. *)
Fixpoint flush_all (groups : list (list CacheItem)) : M unit :=
  match groups with
  | [] => mret tt
  | g :: rest => _ ← batch_write_item g; flush_all rest
  end.

Definition batch_writer (items : list CacheItem) : M unit :=
  flush_all (chunks items).

(** The repository functions log and re-raise, which leaves the outcome as
    it is. *)
Definition log_and_reraise {A} (m : M A) : M A :=
  try_except m (fun e => raise e).

Definition put_stock (item : Item) : M unit :=
  log_and_reraise
    (st ← get_state;
     put_item (make_cache_item (clock st) item)).

Definition batch_put_stocks (items : list Item) : M unit :=
  match items with
  | [] => mret tt
  | _ =>
      log_and_reraise
        (st ← get_state;
         let cache_items := map (make_cache_item (clock st)) items in
         batch_writer cache_items)
  end.

Definition query_stocks_by_date_range (ticker start_date end_date : string)
  : M (list CacheItem) :=
  log_and_reraise
    (store_call (EvQuery (Str.upper ticker) start_date end_date)
       (st ← get_state;
        mret (table_query (Str.upper ticker) start_date end_date (table st)))).

(** ** [services/yfinance_service.py] *)

Definition MAX_RETRIES : Z := 3.
Definition BACKOFF_BASE : Z := 2.

(** The body of [fetch_stock_prices], before the decorator. *)
Definition fetch_stock_prices_once (ticker start_date end_date : string)
  : M DataFrame :=
  i ← emit (EvHistory ticker start_date end_date);
  match yf_history env i ticker start_date end_date with
  | YfFrame hist =>
      if df_empty hist
      then raise (APIError
                    ("Ticker '" ++ ticker ++ "' not found or no data available")
                    404)
      else mret hist
  | YfRaises detail =>
      raise (APIError ("Failed to fetch stock prices: " ++ detail) 500)
  end.

(** Client errors (4xx other than 429) are not retried. *)
Definition no_retry (e : exn) : bool :=
  match e with
  | APIError _ c => negb (c =? 0) && (400 <=? c) && (c <? 500) && negb (c =? 429)
  | _ => false
  end.

(** The loop of [retry_with_backoff]: [left] iterations remain, the next
    one is number [attempt]. *)
Fixpoint retry_loop {A} (func : M A) (left : nat) (attempt : Z)
  (last_error : option exn) : M A :=
  match left with
  | O =>
      raise (match last_error with
             | Some e => e
             | None => APIError "Unknown error" 500
             end)
  | S k =>
      try_except func (fun e =>
        if no_retry e then raise e
        else
          _ ← (if attempt <? MAX_RETRIES
               then time_sleep (BACKOFF_BASE ^ (attempt + 1))
               else mret tt);
          retry_loop func k (attempt + 1) (Some e))
  end.

Definition retry_with_backoff {A} (func : M A) : M A :=
  retry_loop func (Z.to_nat (MAX_RETRIES + 1)) 0 None.

Definition fetch_stock_prices (ticker start_date end_date : string)
  : M DataFrame :=
  retry_with_backoff (fetch_stock_prices_once ticker start_date end_date).

End Services.

(** ** [handlers/stocks.py] *)

(** A record rebuilt from a cached item: the date with its time suffix and
    the stored price fields. *)
Record CachedRecord := {
  cr_date : string;
  cr_values : list (string * Q);
}.

(** The [data] of a result: either freshly normalised records or records
    rebuilt from the cache. *)
Inductive PricesData :=
| Fresh (records : list PriceRecord)
| FromCache (records : list CachedRecord).

Record PricesResult := {
  data : PricesData;
  cached : bool;
  cacheHitRate : Q;
}.

(** [x or default] on an optional string: [None] and the empty string are
    falsy. *)
Definition str_or (x : option string) (default : string) : string :=
  match x with
  | Some s => if Str.nonempty s then s else default
  | None => default
  end.

(** [max(1, int(calendar_days * 5 / 7))] *)
Definition expected_trading_days (calendar_days : Z) : Z :=
  Z.max 1 (Num.py_int (inject_Z (calendar_days * 5) / inject_Z 7)%Q).

(** [len(cached_data) / expected_trading_days if expected_trading_days > 0
    else 0] *)
Definition cache_hit_rate (n : nat) (expected : Z) : Q :=
  if 0 <? expected then (inject_Z (Z.of_nat n) / inject_Z expected)%Q else 0%Q.

(** [cache_hit_rate > 0.8 and cached_data] *)
Definition sufficient (rate : Q) (cached_data : list CacheItem) : bool :=
  negb (Qle_bool rate (8 # 10)) && negb (Nat.eqb (length cached_data) 0).

Definition cached_record (item : CacheItem) : CachedRecord :=
  {| cr_date := (ci_date item ++ "T00:00:00.000Z")%string;
     cr_values := priceData item |}.

(** The cache item the handler builds from a normalised record. *)
Definition cache_item_of (ticker : string) (record : PriceRecord) : Item :=
  {| item_ticker := ticker;
     item_date := Str.take 10 (date record);
     item_priceData :=
       [ ("open"%string, open record); ("high"%string, high record);
         ("low"%string, low record); ("close"%string, close record);
         ("volume"%string, inject_Z (volume record));
         ("adjOpen"%string, adjOpen record); ("adjHigh"%string, adjHigh record);
         ("adjLow"%string, adjLow record); ("adjClose"%string, adjClose record);
         ("adjVolume"%string, inject_Z (adjVolume record));
         ("divCash"%string, divCash record);
         ("splitFactor"%string, splitFactor record) ];
     item_metadata := None |}.

Definition strptime (s : string) : M Calendar.datetime :=
  match Calendar.strptime_ymd s with
  | Some t => mret t
  | None => raise (ValueError ("time data '" ++ s ++ "' does not match format"))
  end.

Section Handlers.

Variable env : Env.

(** The write-back of the fetched records; a failure is logged and
    dropped. *)
Definition write_back (ticker : string) (records : list PriceRecord) : M unit :=
  match records with
  | [] => mret tt
  | _ =>
      try_except
        (batch_put_stocks env (map (cache_item_of ticker) records))
        (fun _ => mret tt)
  end.

Definition handle_prices_request (ticker start_date : string)
  (end_date : option string) : M PricesResult :=
  st0 ← get_state;
  let effective_end_date :=
    str_or end_date (Calendar.strftime_ymd (now (clock st0))) in
  try_except
    (cached_data ← query_stocks_by_date_range env ticker start_date
                     effective_end_date;
     start ← strptime start_date;
     end_ ← strptime effective_end_date;
     let calendar_days := Calendar.days (Calendar.sub end_ start) + 1 in
     let expected := expected_trading_days calendar_days in
     let rate := cache_hit_rate (length cached_data) expected in
     if sufficient rate cached_data then
       mret {| data := FromCache (map cached_record (sort_by_date cached_data));
               cached := true;
               cacheHitRate := rate |}
     else
       df ← fetch_stock_prices env ticker start_date effective_end_date;
       let records := transform_history_to_tiingo df ticker in
       _ ← write_back ticker records;
       mret {| data := Fresh records; cached := false; cacheHitRate := rate |})
    (fun e =>
       if is_APIError e then raise e
       else
         df ← fetch_stock_prices env ticker start_date effective_end_date;
         mret {| data := Fresh (transform_history_to_tiingo df ticker);
                 cached := false;
                 cacheHitRate := 0 |}).

End Handlers.

(** ** [handlers/batch.py] *)

(** Decoded JSON. *)
#[local] Unset Elimination Schemes.
Inductive json :=
| JNull
| JBool (b : bool)
| JNum (q : Q)
| JStr (s : string)
| JArr (items : list json)
| JObj (fields : list (string * json)).
#[local] Set Elimination Schemes.

(** The [body] of the event: text that [json.loads] rejects, or a decoded
    value (an absent body decodes to the empty object). *)
Inductive Body :=
| BodyInvalidJson
| BodyJson (j : json).

(** Python's truth value. *)
Definition truthy (j : json) : bool :=
  match j with
  | JNull => false
  | JBool b => b
  | JNum q => negb (Num.is_zero q)
  | JStr s => Str.nonempty s
  | JArr l => match l with [] => false | _ => true end
  | JObj f => match f with [] => false | _ => true end
  end.

(** [dict.get(key)]; of two entries with one key the later one counts. *)
Fixpoint dict_get (key : string) (fields : list (string * json)) : option json :=
  match fields with
  | [] => None
  | (k, v) :: r =>
      match dict_get key r with
      | Some w => Some w
      | None => if String.eqb k key then Some v else None
      end
  end.

Definition MAX_TICKERS : nat := 10.

(** What [fetch_ticker] returns: ticker, data, error, was_cached. *)
Record Outcome := {
  oc_ticker : string;
  oc_data : option PricesData;
  oc_error : option string;
  oc_cached : bool;
}.

Record BatchBody := {
  results : gmap string (option PricesData);
  errors : gmap string string;
  cached_flags : gmap string bool;
  successCount : nat;
  errorCount : nat;
}.

Inductive Response :=
| error_response (message : string) (status_code : Z)
| batch_response (body : BatchBody).

Definition statusCode (r : Response) : Z :=
  match r with
  | error_response _ c => c
  | batch_response _ => 200
  end.

(** The loop that validates and normalises the tickers; [inl] is the
    error response that ends it. *)
Fixpoint normalize_tickers (tickers : list json) : Response + list string :=
  match tickers with
  | [] => inr []
  | JStr t :: rest =>
      let ticker := Str.upper t in
      if negb (TICKER_PATTERN_match ticker) then
        inl (error_response
               ("Invalid ticker format: " ++ ticker
                ++ ". Must contain only letters, numbers, dots, and hyphens.")
               400)
      else
        match normalize_tickers rest with
        | inl r => inl r
        | inr l => inr (ticker :: l)
        end
  | _ :: _ => inl (error_response "Each ticker must be a string" 400)
  end.

Definition internal_server_error : Response :=
  error_response "Internal server error" 500.

(** Everything the handler checks before it starts any work: the
    normalised tickers and the dates, or the response that rejects the
    request. A value that is not a string where the pattern is applied
    raises [TypeError], which the outer handler turns into a 500. *)
Definition validate_batch (body : Body)
  : Response + (list string * string * option string) :=
  match body with
  | BodyInvalidJson => inl (error_response "Invalid JSON in request body" 400)
  | BodyJson (JObj fields) =>
      let tickers := default (JArr []) (dict_get "tickers" fields) in
      let start_date := default JNull (dict_get "startDate" fields) in
      let end_date := default JNull (dict_get "endDate" fields) in
      if negb (truthy tickers) then
        inl (error_response "Missing required field: tickers" 400)
      else
        match tickers with
        | JArr l =>
            if (MAX_TICKERS <? length l)%nat then
              inl (error_response
                     ("Too many tickers. Maximum is " ++ pretty MAX_TICKERS ++ ".")
                     400)
            else
              match normalize_tickers l with
              | inl r => inl r
              | inr normalized_tickers =>
                  if negb (truthy start_date) then
                    inl (error_response "Missing required field: startDate" 400)
                  else
                    match start_date with
                    | JStr s =>
                        if negb (DATE_PATTERN_match s) then
                          inl (error_response
                                 "Invalid startDate format. Must be YYYY-MM-DD."
                                 400)
                        else if negb (truthy end_date) then
                          inr (normalized_tickers, s, None)
                        else
                          match end_date with
                          | JStr e =>
                              if negb (DATE_PATTERN_match e) then
                                inl (error_response
                                       "Invalid endDate format. Must be YYYY-MM-DD."
                                       400)
                              else if Str.gt s e then
                                inl (error_response
                                       "Invalid date range. startDate must be before or equal to endDate."
                                       400)
                              else inr (normalized_tickers, s, Some e)
                          | _ => inl internal_server_error
                          end
                    | _ => inl internal_server_error
                    end
              end
        | _ => inl (error_response "tickers must be an array" 400)
        end
  | BodyJson _ => inl internal_server_error
  end.

(** The loop over the completed futures. *)
Definition collect (acc : BatchBody) (o : Outcome) : BatchBody :=
  match oc_error o with
  | Some e =>
      if Str.nonempty e then
        {| results := results acc;
           errors := <[oc_ticker o := e]> (errors acc);
           cached_flags := cached_flags acc;
           successCount := successCount acc;
           errorCount := errorCount acc |}
      else
        {| results := <[oc_ticker o := oc_data o]> (results acc);
           errors := errors acc;
           cached_flags := <[oc_ticker o := oc_cached o]> (cached_flags acc);
           successCount := successCount acc;
           errorCount := errorCount acc |}
  | None =>
      {| results := <[oc_ticker o := oc_data o]> (results acc);
         errors := errors acc;
         cached_flags := <[oc_ticker o := oc_cached o]> (cached_flags acc);
         successCount := successCount acc;
         errorCount := errorCount acc |}
  end.

Definition empty_batch : BatchBody :=
  {| results := ∅; errors := ∅; cached_flags := ∅;
     successCount := 0; errorCount := 0 |}.

(** The response body: the three maps and the two counts taken from them. *)
Definition aggregate (outcomes : list Outcome) : BatchBody :=
  let acc := fold_left collect outcomes empty_batch in
  {| results := results acc;
     errors := errors acc;
     cached_flags := cached_flags acc;
     successCount := size (results acc);
     errorCount := size (errors acc) |}.

Section Batch.

Variable env : Env.

Definition fetch_ticker (start_date : string) (end_date : option string)
  (ticker : string) : M Outcome :=
  try_except
    (r ← handle_prices_request env ticker start_date end_date;
     mret {| oc_ticker := ticker; oc_data := Some (data r);
             oc_error := None; oc_cached := cached r |})
    (fun e =>
       match e with
       | APIError message _ =>
           mret {| oc_ticker := ticker; oc_data := None;
                   oc_error := Some message; oc_cached := false |}
       | _ =>
           mret {| oc_ticker := ticker; oc_data := None;
                   oc_error := Some (exn_str e); oc_cached := false |}
       end).

(** The worker pool. The workers are modelled as running one after the
    other in the order of submission, and the futures as completing in
    that order. *)
Fixpoint run_pool (start_date : string) (end_date : option string)
  (tickers : list string) : M (list Outcome) :=
  match tickers with
  | [] => mret []
  | t :: rest =>
      o ← fetch_ticker start_date end_date t;
      os ← run_pool start_date end_date rest;
      mret (o :: os)
  end.

Definition handle_batch_stocks_request (body : Body) : M Response :=
  match validate_batch body with
  | inl r => mret r
  | inr (normalized_tickers, start_date, end_date) =>
      outcomes ← run_pool start_date end_date normalized_tickers;
      mret (batch_response (aggregate outcomes))
  end.

End Batch.

(** ** Notions used to state the properties *)

(** Lines 43 to 46 of [handle_prices_request]: the expected count of the
    request range. *)
Definition expected_for_range (start end_ : Calendar.datetime) : Z :=
  expected_trading_days (Calendar.days (Calendar.sub end_ start) + 1).

(** The primary key of a stored item. *)
Definition key_of (it : CacheItem) : string * string := (ci_ticker it, ci_date it).

Definition has_key (k : string * string) (it : CacheItem) : bool :=
  String.eqb (ci_ticker it) (fst k) && String.eqb (ci_date it) (snd k).

(** How many stored items carry the key. *)
Definition count_key (k : string * string) (t : list CacheItem) : nat :=
  length (List.filter (has_key k) t).

(** No two stored items share a primary key. *)
Definition keys_unique (t : list CacheItem) : Prop := NoDup (map key_of t).

(** The passing of time between two calls. *)
Definition set_clock (c : Clock) (st : State) : State :=
  {| table := table st; clock := c; trace := trace st |}.

(** The row with close = 100, adjClose = 95 and open = 50. *)
Definition row_100_95_50 : Row :=
  {| Open := Some 50%Q; High := Some 60%Q; Low := Some 40%Q;
     Close := Some 100%Q; Adj_Close := Some 95%Q; Volume := Some 1000%Q;
     Dividends := None;
     Stock_Splits := None |}.

(** A row whose adjusted close is a third of its close. *)
Definition row_third : Row :=
  {| Open := Some 1%Q; High := Some 1%Q; Low := Some 1%Q; Close := Some 3%Q;
     Adj_Close := Some 1%Q; Volume := Some 10%Q; Dividends := None;
     Stock_Splits := None |}.

(** The row with close = 100, adjClose = 95 and open = 50, with the given
    entry in its Stock Splits column. *)
Definition row_with_split (v : Q) : Row :=
  {| Open := Some 50%Q; High := Some 60%Q; Low := Some 40%Q;
     Close := Some 100%Q; Adj_Close := Some 95%Q; Volume := Some 1000%Q;
     Dividends := None;
     Stock_Splits := Some v |}.

(** Noon of 2024-01-15, with [time.time()] at 1705320000 seconds. *)
Definition noon_2024_01_15 : Clock :=
  {| now := Calendar.midnight 738900 + 12 * 3600 * 1000000;
     time_ms := 1705320000 * 1000 |}.

(** Noon of 2024-01-16. *)
Definition noon_2024_01_16 : Clock :=
  {| now := Calendar.midnight 738901 + 12 * 3600 * 1000000;
     time_ms := 1705406400 * 1000 |}.

(** An environment in which the table never fails and yfinance is down. *)
Definition env_store_up : Env :=
  {| yf_history := fun _ _ _ _ => YfRaises "connection refused";
     store_fault := fun _ => None |}.

(** An empty table at noon of 2024-01-15, nothing called yet. *)
Definition st_empty : State :=
  {| table := []; clock := noon_2024_01_15; trace := [] |}.

Definition item_aapl_jan_08 : Item :=
  {| item_ticker := "aapl"; item_date := "2024-01-08";
     item_priceData := [("close"%string, 185 # 1)]; item_metadata := None |}.

Definition item_AAPL_jan_08 : Item :=
  {| item_ticker := "AAPL"; item_date := "2024-01-08";
     item_priceData := [("close"%string, 185 # 1)]; item_metadata := None |}.

(** What the upstream code raises: an [APIError] with a message. *)
Definition upstream_error (e : exn) : Prop :=
  exists message status_code,
    e = APIError message status_code /\ Str.nonempty message = true.

(** The state once one more external call has been recorded. *)
Definition after_call (ev : Event) (st : State) : State :=
  {| table := table st; clock := clock st; trace := trace st ++ [ev] |}.

Definition cached_close (d : string) (c : Q) : CacheItem :=
  {| ci_ticker := "AAPL"; ci_date := d; priceData := [("close"%string, c)];
     ttl := 1705320000 + 86400; fetchedAt := 1705320000000; metadata := None |}.

(** A table that holds AAPL for the five days 2024-01-15 to 2024-01-19. *)
Definition st_five_cached : State :=
  {| table := [ cached_close "2024-01-17" (152 # 1);
                cached_close "2024-01-15" (150 # 1);
                cached_close "2024-01-16" (151 # 1);
                cached_close "2024-01-19" (154 # 1);
                cached_close "2024-01-18" (153 # 1) ];
     clock := noon_2024_01_15;
     trace := [] |}.

(** One upstream row for 2024-01-15. *)
Definition frame_jan_15 : DataFrame := [(Calendar.midnight 738900, row_100_95_50)].

(** yfinance answers; the third external call (the write-back) fails. *)
Definition env_write_fails : Env :=
  {| yf_history := fun _ _ _ _ => YfFrame frame_jan_15;
     store_fault := fun i =>
       if Nat.eqb i 2 then Some "ProvisionedThroughputExceededException"%string
       else None |}.

(** yfinance answers; the table cannot be reached at all. *)
Definition env_store_down : Env :=
  {| yf_history := fun _ _ _ _ => YfFrame frame_jan_15;
     store_fault := fun _ => Some "EndpointConnectionError"%string |}.

(** A batch for one ticker whose end date is the empty string. *)
Definition body_empty_end_date : Body :=
  BodyJson (JObj [ ("tickers"%string, JArr [JStr "AAPL"]);
                   ("startDate"%string, JStr "2024-01-01");
                   ("endDate"%string, JStr "") ]).

(** A batch of eleven tickers. *)
Definition body_eleven_tickers : Body :=
  BodyJson (JObj [ ("tickers"%string,
                    JArr [ JStr "T0"; JStr "T1"; JStr "T2"; JStr "T3";
                           JStr "T4"; JStr "T5"; JStr "T6"; JStr "T7";
                           JStr "T8"; JStr "T9"; JStr "T10" ]);
                   ("startDate"%string, JStr "2024-01-01") ]).

(** [if error:] in the loop over the futures: an outcome counts as failed
    when it carries an error message that is not empty. *)
Definition is_failure (o : Outcome) : bool :=
  match oc_error o with
  | Some e => Str.nonempty e
  | None => false
  end.

(** A batch that names one symbol twice, in two spellings. *)
Definition body_same_symbol_twice : Body :=
  BodyJson (JObj [ ("tickers"%string, JArr [JStr "AAPL"; JStr "aapl"]);
                   ("startDate"%string, JStr "2024-01-15");
                   ("endDate"%string, JStr "2024-01-19") ]).

(** yfinance has no data at the second external call and answers on every
    other one; the table is empty and never fails. *)
Definition env_flaky : Env :=
  {| yf_history := fun i _ _ _ =>
       if Nat.eqb i 1 then YfFrame [] else YfFrame frame_jan_15;
     store_fault := fun _ => None |}.

(** yfinance knows every ticker but "NOPE". *)
Definition env_nope_unknown : Env :=
  {| yf_history := fun _ ticker _ _ =>
       if String.eqb ticker "NOPE" then YfFrame [] else YfFrame frame_jan_15;
     store_fault := fun _ => None |}.

Definition body_three_symbols : Body :=
  BodyJson (JObj [ ("tickers"%string,
                    JArr [JStr "AAPL"; JStr "NOPE"; JStr "MSFT"]);
                   ("startDate"%string, JStr "2024-01-15");
                   ("endDate"%string, JStr "2024-01-19") ]).

(** What the response holds for a ticker: its entry in the success map, in
    the error map and in the map of cached flags. *)
Definition entry (t : string) (b : BatchBody)
  : option (option PricesData) * option string * option bool :=
  (results b !! t, errors b !! t, cached_flags b !! t).

(** yfinance answers and the table never fails. *)
Definition env_all_up : Env :=
  {| yf_history := fun _ _ _ _ => YfFrame frame_jan_15;
     store_fault := fun _ => None |}.

(** * The rest of the backend *)

From Stdlib Require Import Sorted.

(** ** More of [utils/validation.py] *)

(** The ASCII characters for which [str.isspace()] holds. *)
Definition is_space (c : ascii) : bool :=
  let n := Str.code c in
  ((9 <=? n) && (n <=? 13)) || ((28 <=? n) && (n <=? 32)).

Fixpoint lstrip (s : string) : string :=
  match s with
  | EmptyString => EmptyString
  | String c r => if is_space c then lstrip r else s
  end.

Fixpoint rstrip (s : string) : string :=
  match s with
  | EmptyString => EmptyString
  | String c r =>
      match rstrip r with
      | EmptyString => if is_space c then EmptyString else String c EmptyString
      | r' => String c r'
      end
  end.

(** [str.strip()] *)
Definition strip (s : string) : string := rstrip (lstrip s).

Definition MAX_QUERY_LENGTH : nat := 100.

Definition validate_ticker (raw : string) : option string :=
  if negb (Str.nonempty raw) then None
  else
    let normalized := strip (Str.upper raw) in
    if TICKER_PATTERN_match normalized then Some normalized else None.

Definition validate_date (raw : option string) : option string :=
  match raw with
  | None => None
  | Some s =>
      if negb (Str.nonempty s) || negb (DATE_PATTERN_match s) then None
      else Some s
  end.

(** ** More of [utils/transform.py] *)

(** [a or b] *)
Definition py_or (a b : json) : json := if truthy a then a else b.

(** [d.get(key)]: an absent key reads as [None]. *)
Definition get_or_null (key : string) (d : list (string * json)) : json :=
  default JNull (dict_get key d).

(** Company metadata in the Tiingo format. *)
Record Metadata := {
  md_ticker : string;
  md_name : json;
  md_exchangeCode : json;
  md_startDate : string;
  md_endDate : string;
  md_description : json;
}.

Definition transform_info_to_metadata (info : list (string * json))
  (ticker : string) : Metadata :=
  {| md_ticker := Str.upper ticker;
     md_name := py_or (get_or_null "shortName" info)
                  (py_or (get_or_null "longName" info) (JStr ticker));
     md_exchangeCode := default (JStr "") (dict_get "exchange" info);
     md_startDate := "";
     md_endDate := "";
     md_description := default (JStr "") (dict_get "longBusinessSummary" info) |}.

(** One quote of the Yahoo search answer; a field the answer lacks is
    [None]. *)
Record Quote := {
  q_symbol : option string;
  q_shortname : option string;
  q_longname : option string;
  q_quoteType : option string;
}.

(** One search result in the Tiingo format. *)
Record SearchResult := {
  sr_ticker : string;
  sr_name : string;
  sr_assetType : string;
  sr_isActive : bool;
}.

Definition asset_type_map : list (string * string) :=
  [ ("EQUITY", "Stock"); ("ETF", "ETF"); ("MUTUALFUND", "Mutual Fund");
    ("INDEX", "Index"); ("CURRENCY", "Currency");
    ("CRYPTOCURRENCY", "Cryptocurrency"); ("FUTURE", "Future");
    ("OPTION", "Option") ]%string.

Fixpoint assoc (key : string) (l : list (string * string)) : option string :=
  match l with
  | [] => None
  | (k, v) :: r => if String.eqb k key then Some v else assoc key r
  end.

Definition transform_quote (item : Quote) : SearchResult :=
  let quote_type := default "EQUITY"%string (q_quoteType item) in
  let asset_type := default quote_type (assoc quote_type asset_type_map) in
  {| sr_ticker := default ""%string (q_symbol item);
     sr_name :=
       match q_shortname item with
       | Some n => if Str.nonempty n then n
                   else default ""%string (q_longname item)
       | None => default ""%string (q_longname item)
       end;
     sr_assetType := asset_type;
     sr_isActive := true |}.

Definition transform_search_to_tiingo (results : list Quote)
  : list SearchResult :=
  map transform_quote results.

(** ** A second layer of effects

    The reads of single items, the metadata lookup and the ticker search
    leave the process too. They are recorded beside the calls of the price
    pipeline, and their outcomes come from oracles indexed by the number of
    such calls made so far. *)

Inductive Call :=
| CallGetItem (ticker date : string)
| CallBatchGetItem (keys : list (string * string))
| CallInfo (ticker : string)
| CallSearch (query : string).

Record Session := {
  core : State;
  calls : list Call;
}.

Inductive info_outcome :=
| InfoDict (info : list (string * json))
| InfoRaises (detail : string).

(** What [requests.get] followed by [raise_for_status] and [json] gives:
    the quotes of the answer, an HTTP error status, a timeout, or any other
    failure. *)
Inductive http_outcome :=
| HttpQuotes (quotes : list Quote)
| HttpError (status : Z) (detail : string)
| HttpTimeout
| HttpFails (detail : string).

Record Services := {
  prices_env : Env;
  read_fault : nat -> option string;
  yf_info : nat -> string -> info_outcome;
  http_search : nat -> string -> http_outcome;
}.

Definition M2 (A : Type) : Type := Session -> Session * result A.

#[global] Instance M2_ret : MRet M2 := fun A a s => (s, Ok a).
#[global] Instance M2_bind : MBind M2 := fun A B f m s =>
  match m s with
  | (s', Ok a) => f a s'
  | (s', Raise e) => (s', Raise e)
  end.

(** Runs a computation of the price pipeline inside a session. *)
Definition lift {A} (m : M A) : M2 A := fun s =>
  let '(st', r) := m (core s) in
  ({| core := st'; calls := calls s |}, r).

Definition raise2 {A} (e : exn) : M2 A := fun s => (s, Raise e).
Definition get_session : M2 Session := fun s => (s, Ok s).

Definition try_except2 {A} (m : M2 A) (h : exn -> M2 A) : M2 A := fun s =>
  match m s with
  | (s', Ok a) => (s', Ok a)
  | (s', Raise e) => h e s'
  end.

Definition emit2 (c : Call) : M2 nat := fun s =>
  ({| core := core s; calls := calls s ++ [c] |}, Ok (length (calls s))).

(** ** More of [repositories/stocks_cache.py] *)

(** [GetItem]: the item with the key, if the table holds one. *)
Definition table_get (k : string * string) (t : list CacheItem)
  : option CacheItem :=
  List.find (has_key k) t.

(** [BatchGetItem]: the stored items among the requested keys. The service
    refuses a call that names one key twice, which is one of the failures of
    [read_fault]; a call that is not failed answers for all its keys
    ([UnprocessedKeys] is empty). *)
Definition table_batch_get (keys : list (string * string))
  (t : list CacheItem) : list CacheItem :=
  omap (fun k => table_get k t) keys.

(** Groups of at most 100, as [range(0, len(dates), 100)] slices them. *)
Definition chunks100 {A} (l : list A) : list (list A) :=
  chunks_aux 99 [] 99 l.

Section Reads.

Variable sv : Services.

Definition get_stock (ticker date : string) : M2 (option CacheItem) :=
  try_except2
    (i ← emit2 (CallGetItem (Str.upper ticker) date);
     match read_fault sv i with
     | Some detail => raise2 (StoreError detail)
     | None =>
         s ← get_session;
         mret (table_get (Str.upper ticker, date) (table (core s)))
     end)
    (fun e => raise2 e).

(** The loop over the groups of dates; [results] collects the items. *)
Fixpoint batch_get_loop (ticker : string) (groups : list (list string))
  (results : list CacheItem) : M2 (list CacheItem) :=
  match groups with
  | [] => mret results
  | batch_dates :: rest =>
      let keys := map (fun d => (Str.upper ticker, d)) batch_dates in
      i ← emit2 (CallBatchGetItem keys);
      match read_fault sv i with
      | Some detail => raise2 (StoreError detail)
      | None =>
          s ← get_session;
          batch_get_loop ticker rest
            (results ++ table_batch_get keys (table (core s)))
      end
  end.

Definition batch_get_stocks (ticker : string) (dates : list string)
  : M2 (list CacheItem) :=
  match dates with
  | [] => mret []
  | _ =>
      try_except2 (batch_get_loop ticker (chunks100 dates) [])
        (fun e => raise2 e)
  end.

End Reads.

(** ** More of [services/yfinance_service.py] *)

Section MoreServices.

Variable sv : Services.

(** The loop of [retry_with_backoff], for the calls of this layer. *)
Fixpoint retry_loop2 {A} (func : M2 A) (left : nat) (attempt : Z)
  (last_error : option exn) : M2 A :=
  match left with
  | O =>
      raise2 (match last_error with
              | Some e => e
              | None => APIError "Unknown error" 500
              end)
  | S k =>
      try_except2 func (fun e =>
        if no_retry e then raise2 e
        else
          _ ← (if attempt <? MAX_RETRIES
               then lift (time_sleep (BACKOFF_BASE ^ (attempt + 1)))
               else mret tt);
          retry_loop2 func k (attempt + 1) (Some e))
  end.

Definition retry_with_backoff2 {A} (func : M2 A) : M2 A :=
  retry_loop2 func (Z.to_nat (MAX_RETRIES + 1)) 0 None.

(** [info.get("regularMarketPrice") is None] *)
Definition lacks_market_price (info : list (string * json)) : bool :=
  match dict_get "regularMarketPrice" info with
  | None | Some JNull => true
  | Some _ => false
  end.

(** The body of [fetch_symbol_metadata], before the decorator. *)
Definition fetch_symbol_metadata_once (ticker : string)
  : M2 (list (string * json)) :=
  i ← emit2 (CallInfo ticker);
  match yf_info sv i ticker with
  | InfoDict info =>
      if negb (truthy (JObj info)) || lacks_market_price info
      then raise2 (APIError ("Ticker '" ++ ticker ++ "' not found") 404)
      else mret info
  | InfoRaises detail =>
      raise2 (APIError ("Failed to fetch metadata: " ++ detail) 500)
  end.

Definition fetch_symbol_metadata (ticker : string) : M2 (list (string * json)) :=
  retry_with_backoff2 (fetch_symbol_metadata_once ticker).

(** The body of [search_tickers], before the decorator. *)
Definition search_tickers_once (query : string) : M2 (list Quote) :=
  i ← emit2 (CallSearch (strip query));
  match http_search sv i (strip query) with
  | HttpQuotes quotes => mret quotes
  | HttpError status detail =>
      if status =? 404 then mret []
      else raise2 (APIError ("Search failed: " ++ detail) status)
  | HttpTimeout => raise2 (APIError "Search request timed out" 504)
  | HttpFails detail => raise2 (APIError ("Search failed: " ++ detail) 500)
  end.

Definition search_tickers (query : string) : M2 (list Quote) :=
  retry_with_backoff2 (search_tickers_once query).

End MoreServices.

(** ** [utils/response.py] and the single-symbol endpoints *)

(** The [_meta] entry of a stocks response. *)
Record Meta := {
  meta_cached : bool;
  meta_cacheHitRate : option Q;
  meta_timestamp : Calendar.datetime;
}.

(** An API Gateway response: [error_response] or [success_response] with
    its data and, where the handler adds one, its [_meta]. *)
Inductive ApiResponse (A : Type) :=
| api_error (message : string) (status_code : Z)
| api_success (payload : A) (meta : option Meta).
Arguments api_error {A} message status_code.
Arguments api_success {A} payload meta.

Definition api_status {A} (r : ApiResponse A) : Z :=
  match r with
  | api_error _ c => c
  | api_success _ _ => 200
  end.

(** The [data] of a stocks response. *)
Inductive StocksData :=
| PricesPayload (d : PricesData)
| MetadataPayload (m : Metadata).

(** What [handle_prices_request] and [handle_metadata_request] return. *)
Record HandlerResult := {
  hr_data : StocksData;
  hr_cached : bool;
  hr_cacheHitRate : option Q;
}.

(** The double quote, as a one-character string. *)
Definition dquote : string := String (ascii_of_N 34) EmptyString.

Section Endpoints.

Variable sv : Services.

Definition handle_metadata_request (ticker : string) : M2 HandlerResult :=
  info ← fetch_symbol_metadata sv ticker;
  mret {| hr_data := MetadataPayload (transform_info_to_metadata info ticker);
          hr_cached := false;
          hr_cacheHitRate := None |}.

(** The date checks of a prices request; [Some] is the response that
    rejects it. *)
Definition check_price_dates (start_date end_date : option string)
  : option (ApiResponse StocksData) :=
  match start_date with
  | None => Some (api_error "Missing required parameter for prices: startDate" 400)
  | Some s =>
      if negb (Str.nonempty s) then
        Some (api_error "Missing required parameter for prices: startDate" 400)
      else if negb (DATE_PATTERN_match s) then
        Some (api_error "Invalid startDate format. Must be YYYY-MM-DD." 400)
      else
        match end_date with
        | None => None
        | Some e =>
            if negb (Str.nonempty e) then None
            else if negb (DATE_PATTERN_match e) then
              Some (api_error "Invalid endDate format. Must be YYYY-MM-DD." 400)
            else if Str.gt s e then
              Some (api_error
                      "Invalid date range. startDate must be before or equal to endDate."
                      400)
            else None
        end
  end.

(** [handle_stocks_request], from the query string parameters of the
    event. *)
Definition handle_stocks_request (params : gmap string string)
  : M2 (ApiResponse StocksData) :=
  try_except2
    (let ticker := Str.upper (default ""%string (params !! "ticker"%string)) in
     let start_date := params !! "startDate"%string in
     let end_date := params !! "endDate"%string in
     let request_type := default "prices"%string (params !! "type"%string) in
     if negb (Str.nonempty ticker) then
       mret (api_error "Missing required parameter: ticker" 400)
     else if negb (TICKER_PATTERN_match ticker) then
       mret (api_error
               "Invalid ticker format. Must contain only letters, numbers, dots, and hyphens."
               400)
     else if negb (String.eqb request_type "prices"
                   || String.eqb request_type "metadata") then
       mret (api_error
               ("Invalid type. Must be " ++ dquote ++ "prices" ++ dquote
                ++ " or " ++ dquote ++ "metadata" ++ dquote ++ ".")
               400)
     else
       match (if String.eqb request_type "prices"
              then check_price_dates start_date end_date else None) with
       | Some rejected => mret rejected
       | None =>
           result ←
             (if String.eqb request_type "metadata" then
                handle_metadata_request ticker
              else
                r ← lift (handle_prices_request (prices_env sv) ticker
                            (default ""%string start_date) end_date);
                mret {| hr_data := PricesPayload (data r);
                        hr_cached := cached r;
                        hr_cacheHitRate := Some (cacheHitRate r) |});
           s ← get_session;
           mret (api_success (hr_data result)
                   (Some {| meta_cached := hr_cached result;
                            meta_cacheHitRate := hr_cacheHitRate result;
                            meta_timestamp := now (clock (core s)) |}))
       end)
    (fun e =>
       match e with
       | APIError message status_code => mret (api_error message status_code)
       | _ => mret (api_error "Internal server error" 500)
       end).

(** [handle_search_request], from the query string parameters. *)
Definition handle_search_request (params : gmap string string)
  : M2 (ApiResponse (list SearchResult)) :=
  try_except2
    (let query := strip (default ""%string (params !! "query"%string)) in
     if negb (Str.nonempty query) then
       mret (api_error "Missing required parameter: query" 400)
     else if (MAX_QUERY_LENGTH <? String.length query)%nat then
       mret (api_error
               ("Query too long. Maximum length is " ++ pretty MAX_QUERY_LENGTH
                ++ " characters.")
               400)
     else
       results ← search_tickers sv query;
       mret (api_success (transform_search_to_tiingo results) None))
    (fun e =>
       match e with
       | APIError message status_code => mret (api_error message status_code)
       | _ => mret (api_error "Internal server error" 500)
       end).

End Endpoints.

(** ** Notions used to state the further properties *)

(** Every price of the record is a whole number of ten-thousandths:
    rounding it to four decimals again gives it back. *)
Definition four_decimals (r : PriceRecord) : Prop :=
  Num.round4 (open r) = open r /\ Num.round4 (high r) = high r
  /\ Num.round4 (low r) = low r /\ Num.round4 (close r) = close r
  /\ Num.round4 (adjOpen r) = adjOpen r /\ Num.round4 (adjHigh r) = adjHigh r
  /\ Num.round4 (adjLow r) = adjLow r /\ Num.round4 (adjClose r) = adjClose r
  /\ Num.round4 (divCash r) = divCash r
  /\ Num.round4 (splitFactor r) = splitFactor r.

(** The dates of the items do not decrease along the list. *)
Definition dates_nondecreasing (l : list CacheItem) : Prop :=
  Sorted (fun a b => String.leb (ci_date a) (ci_date b) = true) l.

(** The dates of the items increase strictly along the list. *)
Definition dates_increasing (l : list CacheItem) : Prop :=
  Sorted (fun a b => String.ltb (ci_date a) (ci_date b) = true) l.

(** A session around a state, with no call of the second layer made. *)
Definition session_of (st : State) : Session := {| core := st; calls := [] |}.

(** Services around an environment of the price pipeline, whose reads
    never fail, with no metadata and an empty search answer. *)
Definition services_of (env : Env) : Services :=
  {| prices_env := env;
     read_fault := fun _ => None;
     yf_info := fun _ _ => InfoDict [];
     http_search := fun _ _ => HttpQuotes [] |}.

(** Twenty-six items, one per day from 2024-01-01 to 2024-01-26. *)
Definition january_items : list Item :=
  map (fun d => {| item_ticker := "AAPL";
                   item_date := ("2024-01-" ++ Calendar.two_digits (Z.of_nat d))%string;
                   item_priceData := [("close"%string, inject_Z (Z.of_nat d))];
                   item_metadata := None |})
      (seq 1 26).

(** The table fails on the second external call. *)
Definition env_second_call_fails : Env :=
  {| yf_history := fun _ _ _ _ => YfRaises "connection refused";
     store_fault := fun i =>
       if Nat.eqb i 1 then Some "ProvisionedThroughputExceededException"%string
       else None |}.

(** The events of a call that is tried four times: the call, then a sleep
    of 2, 4 and 8 seconds before each further try. *)
Definition retry_schedule (call : Event) : list Event :=
  [call; EvSleep 2; call; EvSleep 4; call; EvSleep 8; call].

(** What the pipeline does when the cache cannot be evaluated: the
    upstream fetch alone, reported with a hit rate of 0. *)
Definition fallback (env : Env) (ticker start_date eff : string) (st1 : State)
  : State * result PricesResult :=
  match fetch_stock_prices env ticker start_date eff st1 with
  | (st2, Ok df) =>
      (st2, Ok {| data := Fresh (transform_history_to_tiingo df ticker);
                  cached := false; cacheHitRate := 0%Q |})
  | (st2, Raise ex) => (st2, Raise ex)
  end.

(** The session once one more call of the second layer has been recorded. *)
Definition add_call (c : Call) (s : Session) : Session :=
  {| core := core s; calls := calls s ++ [c] |}.

(** The ordinal passes the check of [ord2ymd]: it comes back through
    [ymd2ord], from a date of the calendar. *)
Definition ord2ymd_ok (n : Z) : bool :=
  let '(y, m, d) := Calendar.ord2ymd n in
  (Calendar.ymd2ord y m d =? n) && (1 <=? y)
  && (1 <=? m) && (m <=? 12) && (1 <=? d) && (d <=? Calendar.days_in_month y m).

(** One step of the check of a range of ordinals: the next ordinal, and
    whether all ordinals so far passed. *)
Definition check_next (st : Z * bool) : Z * bool :=
  (st.1 + 1, st.2 && ord2ymd_ok st.1).

(** The check of the [count] ordinals from 1 on. *)
Definition check_ordinals (count : positive) : Z * bool :=
  Pos.iter check_next (1, true) count.

(** [p] holds for the [n] integers from [lo] on. *)
Definition holds_from (p : Z -> bool) (lo : Z) (n : nat) : bool :=
  List.forallb (fun i => p (lo + Z.of_nat i)) (seq 0 n).

Definition month_round_trip (m : Z) : bool :=
  match Calendar.parse_month (Calendar.two_digits m) with
  | Some x => x =? m
  | None => false
  end.

Definition day_round_trip (d : Z) : bool :=
  match Calendar.parse_day (Calendar.two_digits d) with
  | Some x => x =? d
  | None => false
  end.

(** The record a cache hit rebuilds for a record that was written back:
    the same date and the same twelve values. *)
Definition served_from_cache (ticker : string) (r : PriceRecord)
  : CachedRecord :=
  {| cr_date := date r; cr_values := item_priceData (cache_item_of ticker r) |}.

(** The days of the records increase strictly along the list. *)
Definition days_increasing (records : list PriceRecord) : Prop :=
  Sorted (fun r1 r2 =>
            String.ltb (Str.take 10 (date r1)) (Str.take 10 (date r2)) = true)
         records.

(** ** [services/etf_holdings_service.py] and [handlers/etf_holdings.py]

    The holdings of an ETF are kept under the key [pk = "ETF#" + ticker],
    [sk = "HOLDINGS"]: of the table, the model keeps the items of this
    kind, by ticker. The [holdings] attribute is text written by
    [json.dumps] and read by [json.loads]; it is modelled by the value it
    decodes to. The table, the clock and yfinance are again explicit, with
    oracles indexed by the number of calls made so far. *)

Module Etf.

(** The [holdings] attribute of a stored item: text that [json.loads]
    decodes to a value, or something it rejects. *)
Inductive holdings_attr :=
| Encoded (value : json)
| Garbled.

Record Item := {
  holdings : option holdings_attr;
  ttl : option Z;
}.

Inductive call :=
| GetItem (etf : string)
| PutItem (etf : string) (item : Item)
| TopHoldings (etf : string).

Record state := {
  table : gmap string Item;
  clock : Clock;
  calls : list call;
}.

(** What [yf.Ticker(etf).funds_data.top_holdings] gives: a frame with its
    index labels, no frame, an exception of [funds_data], or an exception
    of [yf.Ticker] itself. *)
Inductive upstream :=
| Frame (labels : list string)
| NoFrame
| FundsRaises
| TickerRaises.

Record env := {
  table_handle : option string;
  fault : nat -> option string;
  top_holdings : nat -> string -> upstream;
}.

Inductive exn :=
| ConfigError (detail : string)
| TableError (detail : string)
| DecodeError
| UpstreamError.

Inductive result (A : Type) :=
| Ok (a : A)
| Raise (e : exn).
Arguments Ok {A} a.
Arguments Raise {A} e.

Definition M (A : Type) : Type := state -> state * result A.

#[global] Instance M_ret : MRet M := fun A a s => (s, Ok a).
#[global] Instance M_bind : MBind M := fun A B f m s =>
  match m s with
  | (s', Ok a) => f a s'
  | (s', Raise e) => (s', Raise e)
  end.

Definition raise {A} (e : exn) : M A := fun s => (s, Raise e).
Definition get_state : M state := fun s => (s, Ok s).

Definition try_except {A} (m : M A) (h : exn -> M A) : M A := fun s =>
  match m s with
  | (s', Ok a) => (s', Ok a)
  | (s', Raise e) => h e s'
  end.

Definition emit (c : call) : M nat := fun s =>
  ({| table := table s; clock := clock s; calls := calls s ++ [c] |},
   Ok (length (calls s))).

Definition set_table (t : gmap string Item) : M unit := fun s =>
  ({| table := t; clock := clock s; calls := calls s |}, Ok tt).

Definition CACHE_TTL_SECONDS : Z := 7 * 24 * 60 * 60.

(** [constants/etf_holdings.py] *)
Definition ETF_TOP_HOLDINGS : list (string * list string) :=
  [ ("XLK", ["AAPL"; "MSFT"; "NVDA"; "AVGO"; "CRM"; "ADBE"; "AMD"; "CSCO"; "ACN"; "ORCL"]);
    ("XLF", ["BRK-B"; "JPM"; "V"; "MA"; "BAC"; "WFC"; "GS"; "MS"; "SPGI"; "AXP"]);
    ("XLE", ["XOM"; "CVX"; "COP"; "EOG"; "SLB"; "MPC"; "PSX"; "PXD"; "VLO"; "OXY"]);
    ("XLV", ["UNH"; "JNJ"; "LLY"; "ABBV"; "MRK"; "PFE"; "TMO"; "ABT"; "DHR"; "AMGN"]);
    ("XLI", ["GE"; "CAT"; "RTX"; "HON"; "UNP"; "BA"; "DE"; "LMT"; "UPS"; "ADP"]);
    ("XLC", ["META"; "GOOGL"; "GOOG"; "NFLX"; "T"; "CMCSA"; "DIS"; "TMUS"; "VZ"; "EA"]);
    ("XLY", ["AMZN"; "TSLA"; "HD"; "MCD"; "NKE"; "LOW"; "SBUX"; "TJX"; "BKNG"; "CMG"]);
    ("XLP", ["PG"; "PEP"; "KO"; "COST"; "WMT"; "PM"; "MDLZ"; "CL"; "MO"; "GIS"]);
    ("XLU", ["NEE"; "SO"; "DUK"; "SRE"; "AEP"; "D"; "EXC"; "XEL"; "PCG"; "ED"]);
    ("XLRE", ["PLD"; "AMT"; "EQIX"; "SPG"; "CCI"; "O"; "PSA"; "DLR"; "WELL"; "VICI"]);
    ("XLB", ["LIN"; "APD"; "SHW"; "ECL"; "FCX"; "NEM"; "NUE"; "DD"; "DOW"; "VMC"]) ]%string.

(** [ETF_TOP_HOLDINGS.get(etf, [])] *)
Fixpoint static_of (etf : string) (l : list (string * list string))
  : list string :=
  match l with
  | [] => []
  | (k, v) :: r => if String.eqb k etf then v else static_of etf r
  end.

(** A list of symbols as the JSON value it is written as. *)
Definition symbols (l : list string) : json := JArr (map JStr l).

(** [_ETF_PATTERN.match(s)] for [^[A-Z]{1,6}$] *)
Definition ETF_PATTERN_match (s : string) : bool :=
  let b := Str.chomp s in
  Str.nonempty b && (String.length b <=? 6)%nat && Str.forallb Str.is_upper b.

Section Service.

Variable ev : env.

(** [_get_cached_holdings]: [None] on a miss, on expiry and on any error. *)
Definition get_cached_holdings (etf : string) : M (option json) :=
  try_except
    (i ← emit (GetItem etf);
     match fault ev i with
     | Some detail => raise (TableError detail)
     | None =>
         s ← get_state;
         match table s !! etf with
         | None => mret None
         | Some item =>
             if default 0 (ttl item) <? int_time (clock s) then mret None
             else
               match default (Encoded (JArr [])) (holdings item) with
               | Garbled => raise DecodeError
               | Encoded JNull => mret None
               | Encoded value => mret (Some value)
               end
         end
     end)
    (fun _ => mret None).

(** [_cache_holdings]: a failure of the write is logged and dropped. *)
Definition cache_holdings (etf : string) (l : list string) : M unit :=
  try_except
    (s ← get_state;
     let item := {| holdings := Some (Encoded (symbols l));
                    ttl := Some (int_time (clock s) + CACHE_TTL_SECONDS) |} in
     i ← emit (PutItem etf item);
     match fault ev i with
     | Some detail => raise (TableError detail)
     | None => set_table (<[etf := item]> (table s))
     end)
    (fun _ => mret tt).

Definition fetch_from_yfinance (etf : string) : M (list string) :=
  i ← emit (TopHoldings etf);
  match top_holdings ev i etf with
  | TickerRaises => raise UpstreamError
  | Frame labels => mret (firstn 10 labels)
  | NoFrame => mret []
  | FundsRaises => mret []
  end.

Definition get_etf_holdings (etf : string) : M json :=
  cached ← get_cached_holdings etf;
  match cached with
  | Some value => mret value
  | None =>
      fetched ←
        try_except
          (l ← fetch_from_yfinance etf;
           if (5 <=? length l)%nat then
             _ ← cache_holdings etf (firstn 10 l);
             mret (Some (firstn 10 l))
           else mret None)
          (fun _ => mret None);
      match fetched with
      | Some l => mret (symbols l)
      | None =>
          let static := static_of etf ETF_TOP_HOLDINGS in
          _ ← (match static with
               | [] => mret tt
               | _ => cache_holdings etf static
               end);
          mret (symbols static)
      end
  end.

End Service.

(** The response of the endpoint: an error, or the ETF with its holdings. *)
Inductive response :=
| error_response (message : string) (status_code : Z)
| success_response (etf : string) (h : json).

Definition status (r : response) : Z :=
  match r with
  | error_response _ c => c
  | success_response _ _ => 200
  end.

Definition handle_etf_holdings (ev : env) (params : gmap string string)
  : M response :=
  let etf := strip (Str.upper (default ""%string (params !! "etf"%string))) in
  if negb (Str.nonempty etf) then
    mret (error_response "etf query parameter is required" 400)
  else if negb (ETF_PATTERN_match etf) then
    mret (error_response "Invalid ETF ticker format" 400)
  else
    try_except
      (match table_handle ev with
       | Some detail => raise (ConfigError detail)
       | None =>
           h ← get_etf_holdings ev etf;
           mret (success_response etf h)
       end)
      (fun _ => mret (error_response "Failed to fetch ETF holdings" 500)).

(** A state with an empty table and a clock. *)
Definition start (c : Clock) : state :=
  {| table := ∅; clock := c; calls := [] |}.

(** Nothing fails, and yfinance knows no fund. *)
Definition quiet : env :=
  {| table_handle := None;
     fault := fun _ => None;
     top_holdings := fun _ _ => NoFrame |}.

End Etf.

(** What a read of the stored item gives at time [now]: the decoded
    holdings, unless the item is missing, expired, or does not decode to a
    value other than [null]. *)
Definition etf_read (now : Z) (item : option Etf.Item) : option json :=
  match item with
  | None => None
  | Some it =>
      if default 0 (Etf.ttl it) <? now then None
      else
        match default (Etf.Encoded (JArr [])) (Etf.holdings it) with
        | Etf.Garbled => None
        | Etf.Encoded JNull => None
        | Etf.Encoded value => Some value
        end
  end.

(** The state once one more call has been recorded. *)
Definition etf_after (c : Etf.call) (s : Etf.state) : Etf.state :=
  {| Etf.table := Etf.table s; Etf.clock := Etf.clock s;
     Etf.calls := Etf.calls s ++ [c] |}.

(** The item [_cache_holdings] writes at the time of the state. *)
Definition etf_item (s : Etf.state) (l : list string) : Etf.Item :=
  {| Etf.holdings := Some (Etf.Encoded (Etf.symbols l));
     Etf.ttl := Some (int_time (Etf.clock s) + Etf.CACHE_TTL_SECONDS) |}.

(** The symbols [_fetch_from_yfinance] returns for an answer of yfinance. *)
Definition etf_fetched (o : Etf.upstream) : list string :=
  match o with
  | Etf.Frame labels => firstn 10 labels
  | _ => []
  end.

(** The answer to a request that misses the cache: the fetched symbols
    when there are five at least, the static list otherwise. *)
Definition etf_answer (etf : string) (o : Etf.upstream) : list string :=
  if (5 <=? length (etf_fetched o))%nat then etf_fetched o
  else Etf.static_of etf Etf.ETF_TOP_HOLDINGS.

(** The outcome of one try of [fetch_stock_prices], from the answer of
    yfinance. *)
Definition prices_outcome (ticker : string) (o : yf_outcome)
  : result DataFrame :=
  match o with
  | YfFrame hist =>
      if df_empty hist
      then Raise (APIError
                    ("Ticker '" ++ ticker ++ "' not found or no data available")
                    404)
      else Ok hist
  | YfRaises detail =>
      Raise (APIError ("Failed to fetch stock prices: " ++ detail) 500)
  end.

(** The outcome of one try of [fetch_symbol_metadata]. *)
Definition metadata_outcome (ticker : string) (o : info_outcome)
  : result (list (string * json)) :=
  match o with
  | InfoDict info =>
      if lacks_market_price info
      then Raise (APIError ("Ticker '" ++ ticker ++ "' not found") 404)
      else Ok info
  | InfoRaises detail =>
      Raise (APIError ("Failed to fetch metadata: " ++ detail) 500)
  end.

(** The outcome of one try of [search_tickers]. *)
Definition search_outcome (o : http_outcome) : result (list Quote) :=
  match o with
  | HttpQuotes quotes => Ok quotes
  | HttpError status detail =>
      if status =? 404 then Ok []
      else Raise (APIError ("Search failed: " ++ detail) status)
  | HttpTimeout => Raise (APIError "Search request timed out" 504)
  | HttpFails detail => Raise (APIError ("Search failed: " ++ detail) 500)
  end.

(** The loop stops on this outcome: a result, or an error that is not
    retried. *)
Definition final {A} (r : result A) : Prop :=
  match r with
  | Ok _ => True
  | Raise e => no_retry e = true
  end.

(** * Properties *)

(** ** The request patterns *)

Example ticker_pattern_accepts :
  TICKER_PATTERN_match "BRK.B" = true /\ TICKER_PATTERN_match "BF-B" = true.
Proof. split; reflexivity. Qed.

Example ticker_pattern_rejects :
  TICKER_PATTERN_match "" = false /\ TICKER_PATTERN_match "aapl" = false
  /\ TICKER_PATTERN_match "AAPL@#$" = false.
Proof. repeat split; reflexivity. Qed.

Example date_pattern_checks_the_shape_only :
  DATE_PATTERN_match "2024-01-15" = true
  /\ DATE_PATTERN_match "2024-13-45" = true
  /\ DATE_PATTERN_match "01-01-2024" = false.
Proof. repeat split; reflexivity. Qed.

(** ** The calendar *)

Example strptime_2024_01_15 :
  Calendar.strptime_ymd "2024-01-15" = Some (Calendar.midnight 738900).
Proof. reflexivity. Qed.

Example strptime_single_digits :
  Calendar.strptime_ymd "2024-1-5" = Some (Calendar.midnight 738890).
Proof. reflexivity. Qed.

Example strptime_rejects_feb_30 : Calendar.strptime_ymd "2024-02-30" = None.
Proof. reflexivity. Qed.

Example strftime_2024_01_15 :
  Calendar.strftime_ymd (Calendar.midnight 738900 + 1) = "2024-01-15"%string.
Proof. reflexivity. Qed.

Lemma us_per_day_pos : 0 < Calendar.us_per_day.
Proof. unfold Calendar.us_per_day; lia. Qed.

Lemma toordinal_midnight (o : Z) : Calendar.toordinal (Calendar.midnight o) = o.
Proof.
  unfold Calendar.toordinal, Calendar.midnight.
  apply Z.div_mul. pose proof us_per_day_pos; lia.
Qed.

(** A parsed date is the midnight of its day. *)
Lemma strptime_ymd_midnight (s : string) (t : Calendar.datetime) :
  Calendar.strptime_ymd s = Some t -> t = Calendar.midnight (Calendar.toordinal t).
Proof.
  unfold Calendar.strptime_ymd. intros H.
  repeat match type of H with
         | match ?x with _ => _ end = _ => destruct x; try discriminate
         | (if ?x then _ else _) = _ => destruct x; try discriminate
         end.
  injection H as <-. now rewrite toordinal_midnight.
Qed.

(** The day count of [t - d] for a midnight [d] is the difference of the
    two ordinals, whatever the time of day of [t]. *)
Lemma days_since_midnight (t : Calendar.datetime) (o : Z) :
  Calendar.days (Calendar.sub t (Calendar.midnight o)) = Calendar.toordinal t - o.
Proof.
  unfold Calendar.days, Calendar.sub, Calendar.midnight, Calendar.toordinal.
  replace (t - o * Calendar.us_per_day) with (t + (- o) * Calendar.us_per_day) by lia.
  rewrite Z.div_add by (pose proof us_per_day_pos; lia). lia.
Qed.

Lemma days_mono (a b : Calendar.timedelta) :
  a <= b -> Calendar.days a <= Calendar.days b.
Proof. intros H. apply Z.div_le_mono; [apply us_per_day_pos | exact H]. Qed.

(** ** The expected count *)

Lemma py_int_sevenths (a : Z) :
  Num.py_int (inject_Z a / inject_Z 7)%Q = Z.quot a 7.
Proof. unfold Num.py_int; simpl. now rewrite Z.mul_1_r. Qed.

Lemma expected_trading_days_eq (calendar_days : Z) :
  expected_trading_days calendar_days = Z.max 1 (Z.quot (calendar_days * 5) 7).
Proof. unfold expected_trading_days. now rewrite py_int_sevenths. Qed.

(** On a range that is not empty the truncation is the floor. *)
Lemma expected_trading_days_floor (calendar_days : Z) :
  0 <= calendar_days ->
  expected_trading_days calendar_days = Z.max 1 (calendar_days * 5 / 7).
Proof.
  intros H. rewrite expected_trading_days_eq.
  rewrite Z.quot_div_nonneg by lia. reflexivity.
Qed.

Lemma expected_trading_days_mono (a b : Z) :
  a <= b -> expected_trading_days a <= expected_trading_days b.
Proof.
  intros H. rewrite !expected_trading_days_eq.
  apply Z.max_le_compat_l. apply Z.quot_le_mono; lia.
Qed.

Lemma expected_trading_days_pos (a : Z) : 1 <= expected_trading_days a.
Proof. rewrite expected_trading_days_eq. lia. Qed.

(** C9. When a date range is widened (its start moved earlier or kept, its
    end moved later or kept) the expected count
    max(1, floor(days * 5/7)), days = (end - start) + 1, does not decrease.
    The two cases of the claim are [start2 = start1] and [end1 = end2]. *)
Theorem expected_count_monotone (start1 end1 start2 end2 : Calendar.datetime) :
  start2 <= start1 -> end1 <= end2 ->
  expected_for_range start1 end1 <= expected_for_range start2 end2.
Proof.
  intros Hs He. unfold expected_for_range.
  apply expected_trading_days_mono.
  apply Z.add_le_mono_r, days_mono. unfold Calendar.sub. lia.
Qed.

Lemma expected_count_monotone_witness :
  expected_for_range (Calendar.midnight 738900) (Calendar.midnight 738904)
  <= expected_for_range (Calendar.midnight 738900) (Calendar.midnight 738910)
  /\ expected_for_range (Calendar.midnight 738900) (Calendar.midnight 738904) = 3
  /\ expected_for_range (Calendar.midnight 738900) (Calendar.midnight 738910) = 7.
Proof.
  split; [| split; reflexivity].
  apply (expected_count_monotone (Calendar.midnight 738900)
           (Calendar.midnight 738904) (Calendar.midnight 738900)
           (Calendar.midnight 738910));
    unfold Calendar.midnight, Calendar.us_per_day; lia.
Defined.

(** ** The TTL policy *)

(** C2. A date that parses and lies more than 7 calendar days before today
    gets now + 90 days; one that is 7 days old or younger gets now + 1 day
    (7 itself included); a string that does not parse gets now + 1 day. *)
Theorem calculate_ttl_tiers (c : Clock) (date_str : string) :
  (forall d : Calendar.datetime,
     Calendar.strptime_ymd date_str = Some d ->
     let age_days := Calendar.toordinal (now c) - Calendar.toordinal d in
     (7 < age_days -> calculate_ttl c date_str = int_time c + 90 * 86400)
     /\ (age_days <= 7 -> calculate_ttl c date_str = int_time c + 1 * 86400))
  /\ (Calendar.strptime_ymd date_str = None ->
      calculate_ttl c date_str = int_time c + 1 * 86400).
Proof.
  split.
  - intros d Hd age_days. unfold calculate_ttl. rewrite Hd.
    rewrite (strptime_ymd_midnight _ _ Hd), days_since_midnight.
    fold age_days. split; intros H.
    + apply Z.ltb_lt in H as ->. reflexivity.
    + apply Z.ltb_ge in H as ->. reflexivity.
  - intros H. unfold calculate_ttl. rewrite H. reflexivity.
Qed.

Lemma calculate_ttl_tiers_witness :
  calculate_ttl noon_2024_01_15 "2024-01-07" = 1705320000 + 90 * 86400
  /\ calculate_ttl noon_2024_01_15 "2024-01-08" = 1705320000 + 86400
  /\ calculate_ttl noon_2024_01_15 "yesterday" = 1705320000 + 86400.
Proof.
  destruct (calculate_ttl_tiers noon_2024_01_15 "2024-01-07") as [H1 _].
  destruct (calculate_ttl_tiers noon_2024_01_15 "2024-01-08") as [H2 _].
  destruct (calculate_ttl_tiers noon_2024_01_15 "yesterday") as [_ H3].
  split; [| split].
  - apply (H1 (Calendar.midnight 738892) eq_refl). vm_compute. reflexivity.
  - apply (H2 (Calendar.midnight 738893) eq_refl). vm_compute. discriminate.
  - apply H3. reflexivity.
Defined.
(** ** Normalisation of upstream rows *)

Example adjOpen_100_95_50 :
  adjOpen (transform_row (Calendar.midnight 738900) row_100_95_50) = (95 # 2)%Q.
Proof. reflexivity. Qed.

Lemma is_zero_true (q : Q) : Num.is_zero q = true <-> (q == 0)%Q.
Proof. unfold Num.is_zero. apply Qeq_bool_iff. Qed.

Lemma is_zero_false (q : Q) : Num.is_zero q = false <-> ~ (q == 0)%Q.
Proof.
  rewrite <- is_zero_true. destruct (Num.is_zero q); split; intros H; done.
Qed.

(** What [round_half_even] returns is an integer nearest to its argument,
    and the even one of the two when the argument lies half-way. *)
Lemma round_half_even_nearest (q : Q) :
  let k := Num.round_half_even q in
  (inject_Z k - (1 # 2) <= q)%Q /\ (q <= inject_Z k + (1 # 2))%Q
  /\ ((q == inject_Z k - (1 # 2))%Q \/ (q == inject_Z k + (1 # 2))%Q ->
      Z.even k = true).
Proof.
  destruct q as [n d]. unfold Num.round_half_even. cbn [Qnum Qden].
  pose proof (Z.div_mod n (Zpos d) ltac:(lia)) as Hn.
  pose proof (Z.mod_pos_bound n (Zpos d) ltac:(lia)) as Hr.
  set (f := n / Zpos d) in *. set (r := n mod Zpos d) in *.
  assert (Hodd : forall z, Z.even z = false -> Z.even (z + 1) = true).
  { intros z Hz. rewrite Z.even_add, Hz. reflexivity. }
  unfold Qle, Qeq, Qminus, Qplus, Qopp, inject_Z. cbn [Qnum Qden].
  destruct (Z.ltb_spec (2 * r) (Zpos d)) as [L|L].
  - cbv zeta. repeat split; nia.
  - destruct (Z.ltb_spec (Zpos d) (2 * r)) as [G|G].
    + cbv zeta. repeat split; nia.
    + destruct (Z.even f) eqn:Ev; cbv zeta.
      * split; [nia|]. split; [nia|]. intros _. exact Ev.
      * split; [nia|]. split; [nia|]. intros _. now apply Hodd.
Qed.

(** The rounded value is a zero when the nearest integer is. *)
Lemma is_zero_ten_thousandths (k : Z) :
  Num.is_zero (Qred (k # 10000)) = (k =? 0).
Proof.
  destruct (Z.eqb_spec k 0) as [->|N]; [reflexivity|].
  apply is_zero_false. rewrite Qred_correct. unfold Qeq. simpl. lia.
Qed.

(** Line 62 of [transform_history_to_tiingo], with [k] the number of
    ten-thousandths nearest to the entry of the Stock Splits column. *)
Lemma splitFactor_of_row (idx : Calendar.datetime) (row : Row) :
  splitFactor (transform_row idx row)
  = match Stock_Splits row with
    | None => 1%Q
    | Some raw =>
        let k := Num.round_half_even (raw * inject_Z 10000) in
        if k =? 0 then 1%Q else Qred (k # 10000)
    end.
Proof.
  unfold transform_row. cbn [splitFactor]. cbv zeta.
  destruct (Stock_Splits row) as [raw|]; [|reflexivity].
  cbn [row_get]. unfold Num.round4. now rewrite is_zero_ten_thousandths.
Qed.

(** C10. The normalised splitFactor is never 0. Without an entry in the
    Stock Splits column it is 1.0. With an entry [raw] it is decided by the
    number [k] of ten-thousandths nearest to [raw] (the even one of the two
    when [raw] lies half-way): 1.0 when [k] is 0, which is so for a raw 0
    and for every raw value from -0.00005 to 0.00005, and [k / 10000], the
    raw value rounded to four decimals, otherwise. *)
Theorem splitFactor_never_zero (idx : Calendar.datetime) (row : Row) :
  let sf := splitFactor (transform_row idx row) in
  ~ (sf == 0)%Q
  /\ (Stock_Splits row = None -> sf = 1%Q)
  /\ (forall raw, Stock_Splits row = Some raw ->
        exists k : Z,
          (inject_Z k - (1 # 2) <= raw * inject_Z 10000)%Q
          /\ (raw * inject_Z 10000 <= inject_Z k + (1 # 2))%Q
          /\ ((raw * inject_Z 10000 == inject_Z k - (1 # 2))%Q
              \/ (raw * inject_Z 10000 == inject_Z k + (1 # 2))%Q ->
              Z.even k = true)
          /\ (k = 0 -> sf = 1%Q)
          /\ (k <> 0 -> sf = Qred (k # 10000))
          /\ ((raw == 0)%Q -> k = 0)
          /\ ((- (1 # 20000) <= raw)%Q /\ (raw <= 1 # 20000)%Q -> k = 0)).
Proof.
  intros sf. subst sf. rewrite splitFactor_of_row.
  split; [|split].
  - destruct (Stock_Splits row) as [raw|]; [|discriminate]. cbv zeta.
    destruct (Z.eqb_spec (Num.round_half_even (raw * inject_Z 10000)) 0)
      as [E|N]; [discriminate|].
    rewrite Qred_correct. unfold Qeq. simpl. lia.
  - now intros ->.
  - intros raw ->. cbv zeta.
    destruct (round_half_even_nearest (raw * inject_Z 10000)) as (Lo & Hi & Tie).
    cbv zeta in Lo, Hi, Tie.
    set (k := Num.round_half_even (raw * inject_Z 10000)) in *.
    exists k. split; [exact Lo|]. split; [exact Hi|]. split; [exact Tie|].
    split; [|split; [|split]].
    + intros ->. reflexivity.
    + intros N. now destruct (Z.eqb_spec k 0).
    + intros Z0. clear Tie. destruct raw as [n d].
      unfold Qle, Qeq, Qminus, Qplus, Qopp, Qmult, inject_Z in *.
      cbn [Qnum Qden] in *. nia.
    + intros [A B].
      destruct (Z.eq_dec k 1) as [K|K].
      { rewrite K in Tie. discriminate Tie. left.
        destruct raw as [n d].
        unfold Qle, Qeq, Qminus, Qplus, Qopp, Qmult, inject_Z in *.
        cbn [Qnum Qden] in *. nia. }
      destruct (Z.eq_dec k (-1)) as [K'|K'].
      { rewrite K' in Tie. discriminate Tie. right.
        destruct raw as [n d].
        unfold Qle, Qeq, Qminus, Qplus, Qopp, Qmult, inject_Z in *.
        cbn [Qnum Qden] in *. nia. }
      clear Tie. destruct raw as [n d].
      unfold Qle, Qeq, Qminus, Qplus, Qopp, Qmult, inject_Z in *.
      cbn [Qnum Qden] in *. nia.
Qed.

Lemma splitFactor_never_zero_witness :
  let day := Calendar.midnight 738900 in
  splitFactor (transform_row day row_100_95_50) = 1%Q
  /\ splitFactor (transform_row day (row_with_split 0)) = 1%Q
  /\ splitFactor (transform_row day (row_with_split (4 # 100000))) = 1%Q
  /\ splitFactor (transform_row day (row_with_split 2)) = 2%Q
  /\ splitFactor (transform_row day (row_with_split (1 # 3))) = (3333 # 10000)%Q.
Proof.
  intros day.
  split; [|split; [|split; [|split]]].
  - destruct (splitFactor_never_zero day row_100_95_50) as (_ & H & _).
    apply H. reflexivity.
  - destruct (splitFactor_never_zero day (row_with_split 0)) as (_ & _ & H).
    destruct (H 0%Q eq_refl) as (k & _ & _ & _ & H1 & _ & H0 & _).
    apply H1, H0. reflexivity.
  - destruct (splitFactor_never_zero day (row_with_split (4 # 100000)))
      as (_ & _ & H).
    destruct (H (4 # 100000)%Q eq_refl) as (k & _ & _ & _ & H1 & _ & _ & H0).
    apply H1, H0. split; discriminate.
  - destruct (splitFactor_never_zero day (row_with_split 2)) as (_ & _ & H).
    destruct (H 2%Q eq_refl) as (k & Lo & Hi & _ & _ & Hk & _).
    assert (K : k = 20000).
    { unfold Qle in Lo, Hi. cbn in Lo, Hi. lia. }
    rewrite Hk by lia. rewrite K. reflexivity.
  - destruct (splitFactor_never_zero day (row_with_split (1 # 3))) as (_ & _ & H).
    destruct (H (1 # 3)%Q eq_refl) as (k & Lo & Hi & _ & _ & Hk & _).
    assert (K : k = 3333).
    { unfold Qle in Lo, Hi. cbn in Lo, Hi. lia. }
    rewrite Hk by lia. rewrite K. reflexivity.
Defined.

(** Every record of a normalised frame has a non-zero splitFactor. *)
Lemma transform_history_splitFactor (df : DataFrame) (ticker : string)
  (r : PriceRecord) :
  In r (transform_history_to_tiingo df ticker) -> ~ (splitFactor r == 0)%Q.
Proof.
  unfold transform_history_to_tiingo. destruct (df_empty df); [intros []|].
  intros H. apply in_map_iff in H as ((idx & row) & <- & _).
  rewrite splitFactor_of_row.
  destruct (Stock_Splits row) as [raw|]; [|discriminate]. cbv zeta.
  destruct (Z.eqb_spec (Num.round_half_even (raw * inject_Z 10000)) 0)
    as [E|N]; [discriminate|].
  rewrite Qred_correct. unfold Qeq. simpl. lia.
Qed.

(** C7, as the code has it. The ratio is adjClose / close, and 1.0 when
    close is 0; adjOpen, adjHigh and adjLow are the raw open, high and low
    times the ratio, rounded to four decimal places; adjVolume is the
    volume. With close = 100, adjClose = 95 and open = 50, adjOpen is 47.5. *)
Theorem adjusted_prices_rounded (idx : Calendar.datetime) (row : Row) :
  let r := transform_row idx row in
  let close_ := row_get (Close row) 0%Q in
  let ratio := adj_ratio_of row in
  ((close_ == 0)%Q -> ratio = 1%Q)
  /\ (~ (close_ == 0)%Q -> ratio = (row_get (Adj_Close row) close_ / close_)%Q)
  /\ adjOpen r = Num.round4 (row_get (Open row) 0 * ratio)%Q
  /\ adjHigh r = Num.round4 (row_get (High row) 0 * ratio)%Q
  /\ adjLow r = Num.round4 (row_get (Low row) 0 * ratio)%Q
  /\ adjVolume r = volume r
  /\ (Close row = Some 100%Q -> Adj_Close row = Some 95%Q ->
      Open row = Some 50%Q -> adjOpen r = (95 # 2)%Q).
Proof.
  intros r close_ ratio. repeat split.
  - intros H. apply is_zero_true in H. subst ratio. unfold adj_ratio_of.
    fold close_. now rewrite H.
  - intros H. apply is_zero_false in H. subst ratio. unfold adj_ratio_of.
    fold close_. now rewrite H.
  - intros Hc Ha Ho. subst r. unfold transform_row, adj_ratio_of.
    cbn [adjOpen]. rewrite Hc, Ha, Ho. reflexivity.
Qed.

Lemma adjusted_prices_rounded_witness :
  adjOpen (transform_row (Calendar.midnight 738900) row_100_95_50) = (95 # 2)%Q
  /\ adj_ratio_of row_100_95_50 = (95 / 100)%Q.
Proof.
  destruct (adjusted_prices_rounded (Calendar.midnight 738900) row_100_95_50)
    as (_ & Hr & _ & _ & _ & _ & H).
  split.
  - apply H; reflexivity.
  - apply Hr. intros E. discriminate E.
Defined.

(** C7, as the claim words it, fails: with open = 1, close = 3 and
    adjClose = 1 the product open * ratio is 1/3, and adjOpen is 0.3333. *)
Lemma adjOpen_is_not_the_plain_product :
  let r := transform_row (Calendar.midnight 738900) row_third in
  adjOpen r = (3333 # 10000)%Q
  /\ (row_get (Open row_third) 0 * adj_ratio_of row_third == 1 # 3)%Q
  /\ ~ (adjOpen r == row_get (Open row_third) 0 * adj_ratio_of row_third)%Q.
Proof.
  split; [reflexivity | split; [reflexivity |]].
  intros H. vm_compute in H. discriminate H.
Qed.

(** ** The table: one record per key *)

Ltac run_monad :=
  unfold mbind, M_bind, mret, M_ret, try_except, raise, get_state, emit,
    set_table in *; simpl in *.

Lemma has_key_same_key (k : string * string) (x it : CacheItem) :
  has_key k it = true -> has_key k x = same_key x it.
Proof.
  unfold has_key, same_key. intros H.
  apply andb_true_iff in H as [H1 H2].
  apply String.eqb_eq in H1, H2. now rewrite H1, H2.
Qed.

Lemma has_key_other (k : string * string) (x it : CacheItem) :
  has_key k it = false -> has_key k x = true -> same_key x it = false.
Proof.
  unfold has_key, same_key. intros H Hx.
  apply andb_true_iff in Hx as [H1 H2].
  apply String.eqb_eq in H1, H2.
  rewrite H1, H2, (String.eqb_sym (fst k)), (String.eqb_sym (snd k)).
  exact H.
Qed.

Lemma has_key_key_of (it : CacheItem) : has_key (key_of it) it = true.
Proof. unfold has_key, key_of; simpl. now rewrite !String.eqb_refl. Qed.

Lemma has_key_iff (k : string * string) (it : CacheItem) :
  has_key k it = true <-> key_of it = k.
Proof.
  unfold has_key, key_of. destruct k as [a b]; simpl.
  rewrite andb_true_iff, !String.eqb_eq. split.
  - now intros [-> ->].
  - now intros [= -> ->].
Qed.

(** After a put, the key of the new item is held once, every other key as
    often as before. *)
Lemma count_key_table_put (k : string * string) (it : CacheItem)
  (t : list CacheItem) :
  count_key k (table_put it t)
  = if has_key k it then 1%nat else count_key k t.
Proof.
  unfold count_key, table_put. simpl.
  destruct (has_key k it) eqn:E; simpl.
  - f_equal. induction t as [|x t IH]; [reflexivity|]. simpl.
    destruct (same_key x it) eqn:S; simpl; [exact IH|].
    rewrite (has_key_same_key k x it E), S. exact IH.
  - induction t as [|x t IH]; [reflexivity|]. simpl.
    destruct (has_key k x) eqn:X.
    + rewrite (has_key_other k x it E X). simpl. rewrite X. simpl.
      now rewrite IH.
    + destruct (same_key x it); simpl; rewrite ?X; exact IH.
Qed.

Lemma length_table_put (it : CacheItem) (t : list CacheItem) :
  (length (table_put it t) + count_key (key_of it) t = S (length t))%nat.
Proof.
  unfold table_put, count_key. simpl. f_equal.
  induction t as [|x t IH]; [reflexivity|]. simpl.
  rewrite (has_key_same_key (key_of it) x it (has_key_key_of it)).
  destruct (same_key x it); simpl; lia.
Qed.

Lemma in_filter_keys (p : CacheItem -> bool) (t : list CacheItem)
  (k : string * string) :
  In k (map key_of (List.filter p t)) -> In k (map key_of t).
Proof.
  rewrite !in_map_iff. intros (x & Hx & Hin).
  apply filter_In in Hin as [Hin _]. eauto.
Qed.

Lemma keys_unique_filter (p : CacheItem -> bool) (t : list CacheItem) :
  keys_unique t -> keys_unique (List.filter p t).
Proof.
  unfold keys_unique. induction t as [|x t IH]; simpl; [trivial|].
  rewrite NoDup_cons. intros [Hx Ht].
  destruct (p x); simpl; [|now apply IH].
  apply NoDup_cons. split; [|now apply IH].
  rewrite list_elem_of_In in *. intros H. apply Hx. eapply in_filter_keys, H.
Qed.

(** [PutItem] keeps the keys of the table distinct. *)
Lemma keys_unique_table_put (it : CacheItem) (t : list CacheItem) :
  keys_unique t -> keys_unique (table_put it t).
Proof.
  intros H. unfold table_put, keys_unique. simpl.
  apply NoDup_cons. split; [|now apply keys_unique_filter].
  rewrite list_elem_of_In, in_map_iff. intros (x & Hk & Hin).
  apply filter_In in Hin as [_ Hx].
  apply has_key_iff in Hk.
  rewrite (has_key_same_key _ x it (has_key_key_of it)) in Hk.
  now rewrite Hk in Hx.
Qed.

Lemma keys_unique_put_all (l : list CacheItem) (t : list CacheItem) :
  keys_unique t -> keys_unique (put_all l t).
Proof.
  revert t. induction l as [|it l IH]; simpl; intros t H; [exact H|].
  apply IH, keys_unique_table_put, H.
Qed.

Lemma count_key_put_all_keep (k : string * string) (l t : list CacheItem) :
  count_key k t = 1%nat -> count_key k (put_all l t) = 1%nat.
Proof.
  revert t. induction l as [|it l IH]; simpl; intros t H; [exact H|].
  apply IH. rewrite count_key_table_put. now destruct (has_key k it).
Qed.

Lemma count_key_put_all (l t : list CacheItem) (it : CacheItem) :
  In it l -> count_key (key_of it) (put_all l t) = 1%nat.
Proof.
  revert t. induction l as [|x l IH]; simpl; intros t []; [subst x|].
  - apply count_key_put_all_keep. rewrite count_key_table_put.
    now rewrite has_key_key_of.
  - now apply IH.
Qed.

(** Re-writing keys that are each held once leaves the size of the table. *)
Lemma length_put_all_same (l t : list CacheItem) :
  (forall it, In it l -> count_key (key_of it) t = 1%nat) ->
  length (put_all l t) = length t.
Proof.
  revert t. induction l as [|x l IH]; simpl; intros t H; [reflexivity|].
  rewrite IH.
  - pose proof (length_table_put x t) as L. rewrite (H x) in L by now left. lia.
  - intros it Hin. rewrite count_key_table_put.
    destruct (has_key (key_of it) x); [reflexivity|]. apply H. now right.
Qed.

(** *** The groups of the batch writer *)

Lemma concat_chunks_aux {A} (n : nat) (cur : list A) (room : nat) (l : list A) :
  concat (chunks_aux n cur room l) = rev cur ++ l.
Proof.
  revert cur room. induction l as [|x l IH]; intros cur room; simpl.
  - destruct cur; simpl; [reflexivity|]. now rewrite !app_nil_r.
  - destruct room; simpl.
    + rewrite IH. simpl. now rewrite <- app_assoc.
    + rewrite IH. simpl. now rewrite <- app_assoc.
Qed.

(** The groups are the items, in order. *)
Lemma concat_chunks {A} (l : list A) : concat (chunks l) = l.
Proof. unfold chunks. now rewrite concat_chunks_aux. Qed.

Lemma chunks_aux_size {A} (n : nat) (cur : list A) (room : nat) (l : list A) :
  (length cur + room = n)%nat ->
  Forall (fun g => (length g <= S n)%nat) (chunks_aux n cur room l).
Proof.
  revert cur room. induction l as [|x l IH]; intros cur room H; simpl.
  - destruct cur as [|c cur]; [constructor|].
    constructor; [|constructor].
    rewrite length_rev. simpl in *. lia.
  - destruct room.
    + constructor; [|apply IH; simpl; lia].
      rewrite length_app, length_rev. simpl. lia.
    + apply IH. simpl. lia.
Qed.

(** No group exceeds the 25 items of one physical write. *)
Lemma chunks_size {A} (l : list A) :
  Forall (fun g => (length g <= 25)%nat) (chunks l).
Proof. unfold chunks. apply (chunks_aux_size 24). reflexivity. Qed.

(** *** The writers *)

Section StoreFacts.

Variable env : Env.

Lemma put_stock_eq (item : Item) (st : State) :
  put_stock env item st
  = let it := make_cache_item (clock st) item in
    let tr := trace st ++ [EvPutItem it] in
    match store_fault env (length (trace st)) with
    | Some detail =>
        ({| table := table st; clock := clock st; trace := tr |},
         Raise (StoreError detail))
    | None =>
        ({| table := table_put it (table st); clock := clock st; trace := tr |},
         Ok tt)
    end.
Proof.
  unfold put_stock, log_and_reraise, put_item, store_call. run_monad.
  destruct (store_fault env (length (trace st))); reflexivity.
Qed.

Lemma batch_write_item_eq (chunk : list CacheItem) (st : State) :
  batch_write_item env chunk st
  = let tr := trace st ++ [EvBatchWriteItem chunk] in
    match store_fault env (length (trace st)) with
    | Some detail =>
        ({| table := table st; clock := clock st; trace := tr |},
         Raise (StoreError detail))
    | None =>
        ({| table := put_all chunk (table st); clock := clock st; trace := tr |},
         Ok tt)
    end.
Proof.
  unfold batch_write_item, store_call. run_monad.
  destruct (store_fault env (length (trace st))); reflexivity.
Qed.

(** Whatever the outcome of the flushes, the table is the old one after
    some sequence of puts, and the clock has not moved. *)
Lemma flush_all_puts (groups : list (list CacheItem)) (st : State) :
  exists l, table (flush_all env groups st).1 = put_all l (table st)
            /\ clock (flush_all env groups st).1 = clock st.
Proof.
  revert st. induction groups as [|g groups IH]; intros st; simpl.
  - exists []. split; reflexivity.
  - unfold mbind, M_bind. rewrite batch_write_item_eq. simpl.
    destruct (store_fault env (length (trace st))); simpl.
    + exists []. split; reflexivity.
    + match goal with |- context [flush_all env groups ?s] =>
        destruct (IH s) as (l & Hl & Hc) end.
      exists (g ++ l). rewrite Hl, Hc. simpl.
      unfold put_all. rewrite fold_left_app. split; reflexivity.
Qed.

(** When every flush succeeds, all the items have been put, in order. *)
Lemma flush_all_ok (groups : list (list CacheItem)) (st st' : State) :
  flush_all env groups st = (st', Ok tt) ->
  table st' = put_all (concat groups) (table st) /\ clock st' = clock st.
Proof.
  revert st. induction groups as [|g groups IH]; intros st; simpl.
  - intros [= <-]. split; reflexivity.
  - unfold mbind, M_bind. rewrite batch_write_item_eq. simpl.
    destruct (store_fault env (length (trace st))); simpl; [discriminate|].
    intros H. apply IH in H as [Ht Hc]. simpl in *.
    rewrite Ht, Hc. unfold put_all. rewrite fold_left_app. split; reflexivity.
Qed.

Lemma batch_put_stocks_puts (items : list Item) (st : State) :
  exists l, table (batch_put_stocks env items st).1 = put_all l (table st)
            /\ clock (batch_put_stocks env items st).1 = clock st.
Proof.
  destruct items as [|i items]; [exists []; split; reflexivity|].
  unfold batch_put_stocks, log_and_reraise, batch_writer. run_monad.
  match goal with |- context [flush_all env ?g ?s] =>
    destruct (flush_all_puts g s) as (l & Hl & Hc);
    destruct (flush_all env g s) as [s' [[]|e]] end;
    exists l; split; assumption.
Qed.

Lemma batch_put_stocks_ok (items : list Item) (st st' : State) :
  batch_put_stocks env items st = (st', Ok tt) ->
  table st' = put_all (map (make_cache_item (clock st)) items) (table st)
  /\ clock st' = clock st.
Proof.
  destruct items as [|i items]; [intros [= <-]; split; reflexivity|].
  unfold batch_put_stocks, log_and_reraise, batch_writer. run_monad.
  match goal with |- context [flush_all env ?g ?s] =>
    pose proof (flush_all_ok g s) as F;
    destruct (flush_all env g s) as [s' [[]|e]] end; [|discriminate].
  intros [= <-]. specialize (F s' eq_refl) as [Ht Hc].
  rewrite concat_chunks in Ht. split; assumption.
Qed.

End StoreFacts.

Lemma key_of_make_cache_item (c : Clock) (item : Item) :
  key_of (make_cache_item c item) = (Str.upper (item_ticker item), item_date item).
Proof. reflexivity. Qed.

(** C8. The table never holds two records with one (uppercased symbol,
    date) key: both writers keep the keys distinct; two single writes of a
    record with the same symbol (up to case) and date leave exactly one
    record under the key, the one of the second write, and do not grow the
    table; two batch writes of the same records do the same; the expiry
    written by the two writes can differ, since it is computed from the
    clock at the time of the write. *)
Theorem one_record_per_key (env : Env) :
  (forall st item,
      keys_unique (table st) -> keys_unique (table (put_stock env item st).1))
  /\ (forall st items,
        keys_unique (table st) ->
        keys_unique (table (batch_put_stocks env items st).1))
  /\ (forall st item item' c2 st1 st2,
        Str.upper (item_ticker item') = Str.upper (item_ticker item) ->
        item_date item' = item_date item ->
        put_stock env item st = (st1, Ok tt) ->
        put_stock env item' (set_clock c2 st1) = (st2, Ok tt) ->
        count_key (Str.upper (item_ticker item), item_date item) (table st2)
        = 1%nat
        /\ length (table st2) = length (table st1)
        /\ In (make_cache_item c2 item') (table st2))
  /\ (forall st items c2 st1 st2,
        batch_put_stocks env items st = (st1, Ok tt) ->
        batch_put_stocks env items (set_clock c2 st1) = (st2, Ok tt) ->
        length (table st2) = length (table st1)
        /\ forall item, In item items ->
             count_key (Str.upper (item_ticker item), item_date item) (table st2)
             = 1%nat)
  /\ (exists item c1 c2,
        key_of (make_cache_item c1 item) = key_of (make_cache_item c2 item)
        /\ ttl (make_cache_item c1 item) <> ttl (make_cache_item c2 item)).
Proof.
  split; [|split; [|split; [|split]]].
  - intros st item H. rewrite put_stock_eq. simpl.
    destruct (store_fault env (length (trace st))); simpl; [exact H|].
    now apply keys_unique_table_put.
  - intros st items H.
    destruct (batch_put_stocks_puts env items st) as (l & -> & _).
    now apply keys_unique_put_all.
  - intros st item item' c2 st1 st2 Ht Hd H1 H2.
    rewrite put_stock_eq in H1, H2. simpl in H1, H2.
    destruct (store_fault env (length (trace st))); [discriminate|].
    destruct (store_fault env (length (trace st1))); [discriminate|].
    injection H1 as <-. injection H2 as <-. cbn [table clock set_clock].
    set (it := make_cache_item (clock st) item).
    set (it' := make_cache_item c2 item').
    assert (K : key_of it' = key_of it).
    { unfold it, it'. rewrite !key_of_make_cache_item. now rewrite Ht, Hd. }
    assert (K' : key_of it = (Str.upper (item_ticker item), item_date item))
      by reflexivity.
    rewrite <- K', <- K. split; [|split].
    + rewrite count_key_table_put. now rewrite has_key_key_of.
    + pose proof (length_table_put it' (table_put it (table st))) as L.
      rewrite count_key_table_put, K, has_key_key_of in L. lia.
    + now left.
  - intros st items c2 st1 st2 H1 H2.
    apply batch_put_stocks_ok in H1 as [T1 _], H2 as [T2 _]. simpl in T2.
    rewrite T2. split.
    + apply length_put_all_same. intros it Hin.
      apply in_map_iff in Hin as (item & <- & Hin).
      rewrite T1, key_of_make_cache_item,
        <- (key_of_make_cache_item (clock st)).
      apply count_key_put_all. now apply in_map.
    + intros item Hin. rewrite <- (key_of_make_cache_item c2).
      apply count_key_put_all. now apply in_map.
  - exists item_AAPL_jan_08, noon_2024_01_15, noon_2024_01_16.
    split; [reflexivity|]. vm_compute. discriminate.
Qed.

Lemma one_record_per_key_witness :
  let st1 := (put_stock env_store_up item_aapl_jan_08 st_empty).1 in
  let st2 :=
    (put_stock env_store_up item_AAPL_jan_08 (set_clock noon_2024_01_16 st1)).1 in
  count_key ("AAPL"%string, "2024-01-08"%string) (table st2) = 1%nat
  /\ length (table st2) = 1%nat
  /\ map ttl (table st1) = [1705320000 + 86400]
  /\ map ttl (table st2) = [1705406400 + 90 * 86400].
Proof.
  intros st1 st2.
  destruct (one_record_per_key env_store_up) as (_ & _ & H & _).
  destruct (H st_empty item_aapl_jan_08 item_AAPL_jan_08 noon_2024_01_16
              st1 st2 eq_refl eq_refl eq_refl eq_refl) as (H1 & H2 & _).
  split; [exact H1 | split; [exact H2 | split; reflexivity]].
Defined.

(** ** The upstream fetch *)

Section FetchFacts.

Variable env : Env.

Lemma query_stocks_by_date_range_eq (ticker start_date end_date : string)
  (st : State) :
  query_stocks_by_date_range env ticker start_date end_date st
  = let st1 := {| table := table st; clock := clock st;
                  trace := trace st
                           ++ [EvQuery (Str.upper ticker) start_date end_date] |} in
    match store_fault env (length (trace st)) with
    | Some detail => (st1, Raise (StoreError detail))
    | None =>
        (st1, Ok (table_query (Str.upper ticker) start_date end_date (table st)))
    end.
Proof.
  unfold query_stocks_by_date_range, log_and_reraise, store_call. run_monad.
  destruct (store_fault env (length (trace st))); reflexivity.
Qed.

Lemma fetch_stock_prices_once_spec (ticker start_date end_date : string)
  (st st' : State) (r : result DataFrame) :
  fetch_stock_prices_once env ticker start_date end_date st = (st', r) ->
  table st' = table st
  /\ match r with
     | Ok df => df_empty df = false
     | Raise e => upstream_error e
     end.
Proof.
  unfold fetch_stock_prices_once. run_monad.
  destruct (yf_history env _ ticker start_date end_date) as [hist|detail].
  - destruct (df_empty hist) eqn:E; intros [= <- <-]; simpl;
      (split; [reflexivity|]); [|exact E].
    eexists _, _. split; reflexivity.
  - intros [= <- <-]. simpl. split; [reflexivity|].
    eexists _, _. split; reflexivity.
Qed.

Lemma retry_loop_spec {A} (func : M A) (good : A -> Prop) :
  (forall st st' r, func st = (st', r) ->
     table st' = table st
     /\ match r with Ok a => good a | Raise e => upstream_error e end) ->
  forall left attempt last st st' r,
    match last with
    | Some e => upstream_error e
    | None => True
    end ->
    retry_loop func left attempt last st = (st', r) ->
    table st' = table st
    /\ match r with Ok a => good a | Raise e => upstream_error e end.
Proof.
  intros Hf left. induction left as [|k IH]; intros attempt last st st' r Hl.
  - simpl. unfold raise. intros [= <- <-]. split; [reflexivity|].
    destruct last as [e|]; [exact Hl|].
    eexists _, _. split; reflexivity.
  - simpl. unfold try_except.
    destruct (func st) as [s1 [a|e]] eqn:F; apply Hf in F as [T G].
    + intros [= <- <-]. split; assumption.
    + destruct (no_retry e).
      * unfold raise. intros [= <- <-]. split; assumption.
      * unfold mbind, M_bind.
        destruct (attempt <? MAX_RETRIES); simpl; intros H;
          apply IH in H as [T' G']; try assumption;
          (split; [simpl in T'; congruence | assumption]).
Qed.

(** [fetch_stock_prices] leaves the table alone; it returns a frame that
    is not empty or raises an [APIError] whose message is not empty. *)
Lemma fetch_stock_prices_spec (ticker start_date end_date : string)
  (st st' : State) (r : result DataFrame) :
  fetch_stock_prices env ticker start_date end_date st = (st', r) ->
  table st' = table st
  /\ match r with
     | Ok df => df_empty df = false
     | Raise e => upstream_error e
     end.
Proof.
  unfold fetch_stock_prices, retry_with_backoff.
  apply (retry_loop_spec _ (fun df => df_empty df = false)); [|exact I].
  intros s s' r'. apply fetch_stock_prices_once_spec.
Qed.

Lemma upstream_error_is_APIError (e : exn) :
  upstream_error e -> is_APIError e = true.
Proof. intros (m & c & -> & _). reflexivity. Qed.

(** The write-back never raises. *)
Lemma write_back_ok (ticker : string) (records : list PriceRecord)
  (st : State) :
  exists st', write_back env ticker records st = (st', Ok tt).
Proof.
  unfold write_back. destruct records as [|r records]; [now eexists|].
  unfold try_except.
  destruct (batch_put_stocks env _ st) as [s' [[]|e]]; now eexists.
Qed.

End FetchFacts.

(** ** The coverage decision *)

Lemma sufficient_iff (rate : Q) (cached_data : list CacheItem) :
  sufficient rate cached_data = true
  <-> (8 # 10 < rate)%Q /\ (0 < length cached_data)%nat.
Proof.
  unfold sufficient. rewrite andb_true_iff, !negb_true_iff.
  rewrite Nat.eqb_neq. split; intros [H1 H2]; split; try lia.
  - apply Qnot_le_lt. intros H. apply Qle_bool_iff in H. congruence.
  - destruct (Qle_bool rate (8 # 10)) eqn:E; [|reflexivity].
    apply Qle_bool_iff in E. now apply Qlt_not_le in H1.
Qed.

Lemma toordinal_mono (a b : Calendar.datetime) :
  a <= b -> Calendar.toordinal a <= Calendar.toordinal b.
Proof. intros H. apply Z.div_le_mono; [apply us_per_day_pos | exact H]. Qed.

(** The expected count of a range of two parsed dates, start <= end. *)
Lemma expected_for_range_floor (start_date end_date : string)
  (s e : Calendar.datetime) :
  Calendar.strptime_ymd start_date = Some s ->
  Calendar.strptime_ymd end_date = Some e ->
  s <= e ->
  expected_for_range s e
  = Z.max 1 ((Calendar.toordinal e - Calendar.toordinal s + 1) * 5 / 7).
Proof.
  intros Hs He Hle. unfold expected_for_range.
  rewrite (strptime_ymd_midnight _ _ Hs) at 1.
  rewrite days_since_midnight.
  apply expected_trading_days_floor.
  apply toordinal_mono in Hle. lia.
Qed.

Section Coverage.

Variable env : Env.

(** The handler once the query has returned [items] and both dates have
    parsed. *)
Lemma handle_prices_request_queried (ticker start_date : string)
  (end_date : option string) (st : State) (s e : Calendar.datetime) :
  let eff := str_or end_date (Calendar.strftime_ymd (now (clock st))) in
  let items := table_query (Str.upper ticker) start_date eff (table st) in
  let rate := cache_hit_rate (length items) (expected_for_range s e) in
  let st1 := after_call (EvQuery (Str.upper ticker) start_date eff) st in
  Calendar.strptime_ymd start_date = Some s ->
  Calendar.strptime_ymd eff = Some e ->
  store_fault env (length (trace st)) = None ->
  handle_prices_request env ticker start_date end_date st
  = if sufficient rate items then
      (st1, Ok {| data := FromCache (map cached_record (sort_by_date items));
                  cached := true; cacheHitRate := rate |})
    else
      match fetch_stock_prices env ticker start_date eff st1 with
      | (st2, Ok df) =>
          let records := transform_history_to_tiingo df ticker in
          ((write_back env ticker records st2).1,
           Ok {| data := Fresh records; cached := false;
                 cacheHitRate := rate |})
      | (st2, Raise ex) => (st2, Raise ex)
      end.
Proof.
  intros eff items rate st1 Hs He Hq.
  unfold handle_prices_request.
  unfold mbind at 1. unfold M_bind at 1. unfold get_state at 1.
  fold eff. unfold try_except.
  unfold mbind at 1. unfold M_bind at 1.
  rewrite query_stocks_by_date_range_eq, Hq. cbn zeta.
  change {| table := table st; clock := clock st;
            trace := trace st ++ [EvQuery (Str.upper ticker) start_date eff] |}
    with st1.
  fold items.
  unfold strptime. rewrite Hs, He.
  unfold mbind at 1. unfold M_bind at 1. unfold mret at 1. unfold M_ret at 1.
  unfold mbind at 1. unfold M_bind at 1. unfold mret at 1. unfold M_ret at 1.
  change (expected_trading_days (Calendar.days (Calendar.sub e s) + 1))
    with (expected_for_range s e).
  fold rate.
  destruct (sufficient rate items); [reflexivity|].
  unfold mbind at 1. unfold M_bind at 1.
  destruct (fetch_stock_prices env ticker start_date eff st1)
    as [st2 [df|ex]] eqn:F.
  - unfold mbind, M_bind, mret, M_ret.
    destruct (write_back_ok env ticker (transform_history_to_tiingo df ticker) st2)
      as [st3 W].
    rewrite W. reflexivity.
  - apply fetch_stock_prices_spec in F as [_ U].
    now rewrite (upstream_error_is_APIError _ U).
Qed.

End Coverage.

Example scenario_five_days_served_from_cache :
  (handle_prices_request env_store_up "AAPL" "2024-01-15" (Some "2024-01-19")
     st_five_cached).2
  = Ok {| data := FromCache
                    [ {| cr_date := "2024-01-15T00:00:00.000Z";
                         cr_values := [("close"%string, 150 # 1)] |};
                      {| cr_date := "2024-01-16T00:00:00.000Z";
                         cr_values := [("close"%string, 151 # 1)] |};
                      {| cr_date := "2024-01-17T00:00:00.000Z";
                         cr_values := [("close"%string, 152 # 1)] |};
                      {| cr_date := "2024-01-18T00:00:00.000Z";
                         cr_values := [("close"%string, 153 # 1)] |};
                      {| cr_date := "2024-01-19T00:00:00.000Z";
                         cr_values := [("close"%string, 154 # 1)] |} ];
          cached := true;
          cacheHitRate := (5 # 3)%Q |}.
Proof. vm_compute. reflexivity. Qed.

(** C1. For a request whose dates parse, start <= end, and whose cache
    query returns [items]: the expected count is
    max(1, floor(((end - start) + 1) * 5/7)), the ratio is
    actualCount / expectedCount, and the request is served from the cache
    exactly when ratio > 0.8 and actualCount > 0. Otherwise the upstream is
    fetched and the result is not marked cached; an empty query result is
    never served from the cache. *)
Theorem coverage_evaluation (env : Env) (ticker start_date : string)
  (end_date : option string) (st : State) (s e : Calendar.datetime) :
  let eff := str_or end_date (Calendar.strftime_ymd (now (clock st))) in
  let items := table_query (Str.upper ticker) start_date eff (table st) in
  let actualCount := length items in
  let expectedCount :=
    Z.max 1 ((Calendar.toordinal e - Calendar.toordinal s + 1) * 5 / 7) in
  let ratio := (inject_Z (Z.of_nat actualCount) / inject_Z expectedCount)%Q in
  let st1 := after_call (EvQuery (Str.upper ticker) start_date eff) st in
  let run := handle_prices_request env ticker start_date end_date st in
  let served :=
    (st1, Ok {| data := FromCache (map cached_record (sort_by_date items));
                cached := true; cacheHitRate := ratio |}) in
  let sufficient_ := (8 # 10 < ratio)%Q /\ (0 < actualCount)%nat in
  Calendar.strptime_ymd start_date = Some s ->
  Calendar.strptime_ymd eff = Some e ->
  s <= e ->
  store_fault env (length (trace st)) = None ->
  expected_for_range s e = expectedCount
  /\ (sufficient_ -> run = served)
  /\ (~ sufficient_ ->
      exists st2 outcome,
        fetch_stock_prices env ticker start_date eff st1 = (st2, outcome)
        /\ match outcome with
           | Ok df =>
               exists st3,
                 run = (st3, Ok {| data := Fresh (transform_history_to_tiingo df ticker);
                                   cached := false; cacheHitRate := ratio |})
           | Raise ex => run = (st2, Raise ex)
           end)
  /\ ((exists st' r, run = (st', Ok r) /\ cached r = true) <-> sufficient_)
  /\ (actualCount = 0%nat ->
      forall st' r, run = (st', Ok r) -> cached r = false).
Proof.
  intros eff items actualCount expectedCount ratio st1 run served sufficient_
    Hs He Hle Hq.
  pose proof (expected_for_range_floor _ _ _ _ Hs He Hle) as Hexp.
  fold expectedCount in Hexp.
  assert (Hrate : cache_hit_rate (length items) (expected_for_range s e) = ratio).
  { unfold cache_hit_rate. rewrite Hexp.
    replace (0 <? expectedCount) with true; [reflexivity|].
    symmetry. apply Z.ltb_lt. unfold expectedCount. lia. }
  pose proof (handle_prices_request_queried env ticker start_date end_date st
                s e Hs He Hq) as Hrun.
  cbv zeta in Hrun. fold eff items in Hrun. rewrite Hrate in Hrun.
  fold run st1 in Hrun.
  pose proof (sufficient_iff ratio items) as Hsuff. fold actualCount in Hsuff.
  assert (Hmiss : sufficient ratio items = false ->
                  exists st2 outcome,
                    fetch_stock_prices env ticker start_date eff st1 = (st2, outcome)
                    /\ match outcome with
                       | Ok df =>
                           exists st3,
                             run = (st3, Ok {| data := Fresh (transform_history_to_tiingo df ticker);
                                               cached := false; cacheHitRate := ratio |})
                       | Raise ex => run = (st2, Raise ex)
                       end).
  { intros E. rewrite E in Hrun.
    destruct (fetch_stock_prices env ticker start_date eff st1)
      as [st2 [df|ex]]; exists st2; eexists; (split; [reflexivity|]).
    - eexists. exact Hrun.
    - exact Hrun. }
  assert (Hnot : sufficient ratio items = false ->
                 forall st' r, run = (st', Ok r) -> cached r = false).
  { intros E st' r Hr. destruct (Hmiss E) as (st2 & [df|ex] & _ & H).
    - destruct H as [st3 H]. rewrite H in Hr. injection Hr as _ <-. reflexivity.
    - rewrite H in Hr. discriminate. }
  split; [exact Hexp|]. split; [|split; [|split]].
  - intros H. apply Hsuff in H. now rewrite H in Hrun.
  - intros H. apply Hmiss. destruct (sufficient ratio items); [|reflexivity].
    contradiction H. now apply Hsuff.
  - split.
    + intros (st' & r & Hr & Hc). apply Hsuff.
      destruct (sufficient ratio items) eqn:E; [reflexivity|].
      rewrite (Hnot eq_refl _ _ Hr) in Hc. discriminate.
    + intros H. apply Hsuff in H. rewrite H in Hrun.
      eexists _, _. split; [exact Hrun | reflexivity].
  - intros H0. apply Hnot. destruct (sufficient ratio items) eqn:E; [|reflexivity].
    apply (sufficient_iff ratio items) in E as [_ E].
    unfold actualCount in H0. lia.
Qed.

Lemma coverage_evaluation_witness :
  expected_for_range (Calendar.midnight 738900) (Calendar.midnight 738904) = 3
  /\ exists st' r,
       handle_prices_request env_store_up "AAPL" "2024-01-15" (Some "2024-01-19")
         st_five_cached = (st', Ok r)
       /\ cached r = true.
Proof.
  destruct (coverage_evaluation env_store_up "AAPL" "2024-01-15"
              (Some "2024-01-19"%string) st_five_cached
              (Calendar.midnight 738900) (Calendar.midnight 738904)
              eq_refl eq_refl ltac:(vm_compute; discriminate) eq_refl)
    as (H1 & _ & _ & H2 & _).
  split; [exact H1|].
  apply H2. split; [reflexivity | vm_compute; lia].
Defined.

(** ** The fetch path *)

(** With an empty cache the upstream is fetched, the records are written
    back with a TTL per date, and the result is not marked cached. *)
Example scenario_empty_cache_fetches_and_writes_back :
  let run := handle_prices_request env_all_up "AAPL" "2024-01-15"
               (Some "2024-01-19"%string) st_empty in
  run.2 = Ok {| data := Fresh (transform_history_to_tiingo frame_jan_15 "AAPL");
                cached := false; cacheHitRate := (0 # 3)%Q |}
  /\ map (fun it => (ci_ticker it, ci_date it, ttl it)) (table run.1)
     = [("AAPL"%string, "2024-01-15"%string, 1705320000 + 86400)]
  /\ trace run.1
     = [ EvQuery "AAPL" "2024-01-15" "2024-01-19";
         EvHistory "AAPL" "2024-01-15" "2024-01-19";
         EvBatchWriteItem (table run.1) ].
Proof. vm_compute. repeat split. Qed.

(** ** Failures of the table *)

(** C3. When the coverage is insufficient and the upstream fetch returns a
    frame, the request succeeds with exactly the normalised records of that
    frame and cached = false, whatever the outcome [w] of the batch write
    (in particular when it raises). *)
Theorem failed_write_back_keeps_the_read (env : Env) (ticker start_date : string)
  (end_date : option string) (st st2 st3 : State) (s e : Calendar.datetime)
  (df : DataFrame) (w : result unit) :
  let eff := str_or end_date (Calendar.strftime_ymd (now (clock st))) in
  let items := table_query (Str.upper ticker) start_date eff (table st) in
  let rate := cache_hit_rate (length items) (expected_for_range s e) in
  let st1 := after_call (EvQuery (Str.upper ticker) start_date eff) st in
  let records := transform_history_to_tiingo df ticker in
  Calendar.strptime_ymd start_date = Some s ->
  Calendar.strptime_ymd eff = Some e ->
  store_fault env (length (trace st)) = None ->
  sufficient rate items = false ->
  fetch_stock_prices env ticker start_date eff st1 = (st2, Ok df) ->
  batch_put_stocks env (map (cache_item_of ticker) records) st2 = (st3, w) ->
  handle_prices_request env ticker start_date end_date st
  = (st3, Ok {| data := Fresh records; cached := false; cacheHitRate := rate |}).
Proof.
  intros eff items rate st1 records Hs He Hq Hinsuff Hfetch Hwrite.
  pose proof (handle_prices_request_queried env ticker start_date end_date st
                s e Hs He Hq) as Hrun.
  cbv zeta in Hrun. fold eff items rate st1 in Hrun.
  rewrite Hinsuff, Hfetch in Hrun. fold records in Hrun.
  rewrite Hrun. f_equal.
  clearbody records. unfold write_back. destruct records as [|r rs].
  - simpl in Hwrite. unfold mret, M_ret in Hwrite.
    injection Hwrite as <- _. reflexivity.
  - unfold try_except. rewrite Hwrite. now destruct w as [[]|err].
Qed.

Lemma failed_write_back_keeps_the_read_witness :
  let st2 :=
    (fetch_stock_prices env_write_fails "AAPL" "2024-01-15" "2024-01-19"
       (after_call (EvQuery "AAPL" "2024-01-15" "2024-01-19") st_empty)).1 in
  (batch_put_stocks env_write_fails
     (map (cache_item_of "AAPL") (transform_history_to_tiingo frame_jan_15 "AAPL"))
     st2).2
  = Raise (StoreError "ProvisionedThroughputExceededException")
  /\ (handle_prices_request env_write_fails "AAPL" "2024-01-15"
        (Some "2024-01-19"%string) st_empty).2
     = Ok {| data := Fresh (transform_history_to_tiingo frame_jan_15 "AAPL");
             cached := false; cacheHitRate := (0 # 3)%Q |}.
Proof.
  intros st2. split; [reflexivity|].
  rewrite (failed_write_back_keeps_the_read env_write_fails "AAPL" "2024-01-15"
             (Some "2024-01-19"%string) st_empty st2
             (batch_put_stocks env_write_fails
                (map (cache_item_of "AAPL")
                   (transform_history_to_tiingo frame_jan_15 "AAPL")) st2).1
             (Calendar.midnight 738900) (Calendar.midnight 738904)
             frame_jan_15
             (Raise (StoreError "ProvisionedThroughputExceededException"))
             eq_refl eq_refl eq_refl eq_refl eq_refl eq_refl).
  reflexivity.
Defined.

(** C4. When the table fails on the coverage read, the repository raises
    (it does not return an empty list), and the handler falls back to the
    upstream fetch: it returns the fetched records with cached = false, or
    re-raises the upstream's own [APIError]. The store's error never reaches
    the caller, and no write is attempted. *)
Theorem read_failure_falls_back (env : Env) (ticker start_date : string)
  (end_date : option string) (st : State) (detail : string) :
  let eff := str_or end_date (Calendar.strftime_ymd (now (clock st))) in
  let st1 := after_call (EvQuery (Str.upper ticker) start_date eff) st in
  let run := handle_prices_request env ticker start_date end_date st in
  store_fault env (length (trace st)) = Some detail ->
  query_stocks_by_date_range env ticker start_date eff st
  = (st1, Raise (StoreError detail))
  /\ (exists st2 outcome,
        fetch_stock_prices env ticker start_date eff st1 = (st2, outcome)
        /\ match outcome with
           | Ok df =>
               run = (st2, Ok {| data := Fresh (transform_history_to_tiingo df ticker);
                                 cached := false; cacheHitRate := 0%Q |})
           | Raise ex => run = (st2, Raise ex) /\ upstream_error ex
           end)
  /\ (forall st' ex, run = (st', Raise ex) -> upstream_error ex)
  /\ (forall st' r, run = (st', Ok r) -> cached r = false)
  /\ table run.1 = table st.
Proof.
  intros eff st1 run Hq.
  assert (Hquery : query_stocks_by_date_range env ticker start_date eff st
                   = (st1, Raise (StoreError detail))).
  { rewrite query_stocks_by_date_range_eq, Hq. reflexivity. }
  assert (Hrun : run = match fetch_stock_prices env ticker start_date eff st1 with
                       | (st2, Ok df) =>
                           (st2, Ok {| data := Fresh (transform_history_to_tiingo df ticker);
                                       cached := false; cacheHitRate := 0%Q |})
                       | (st2, Raise ex) => (st2, Raise ex)
                       end).
  { unfold run, handle_prices_request.
    unfold mbind at 1. unfold M_bind at 1. unfold get_state at 1.
    fold eff. unfold try_except.
    unfold mbind at 1. unfold M_bind at 1.
    rewrite Hquery. cbn [is_APIError].
    unfold mbind, M_bind, mret, M_ret.
    now destruct (fetch_stock_prices env ticker start_date eff st1) as [st2 [df|ex]]. }
  destruct (fetch_stock_prices env ticker start_date eff st1)
    as [st2 [df|ex]] eqn:F;
    apply fetch_stock_prices_spec in F as [T U]; rewrite Hrun.
  - split; [exact Hquery|]. split; [|split; [|split]].
    + exists st2, (Ok df). split; reflexivity.
    + intros st' ex [=].
    + intros st' r [= _ <-]. reflexivity.
    + exact T.
  - split; [exact Hquery|]. split; [|split; [|split]].
    + exists st2, (Raise ex). split; [reflexivity|]. split; [reflexivity|exact U].
    + intros st' ex' [= _ <-]. exact U.
    + intros st' r [=].
    + exact T.
Qed.

Lemma read_failure_falls_back_witness :
  exists st2,
    handle_prices_request env_store_down "AAPL" "2024-01-15"
      (Some "2024-01-19"%string) st_empty
    = (st2, Ok {| data := Fresh (transform_history_to_tiingo frame_jan_15 "AAPL");
                  cached := false; cacheHitRate := 0%Q |}).
Proof.
  destruct (read_failure_falls_back env_store_down "AAPL" "2024-01-15"
              (Some "2024-01-19"%string) st_empty "EndpointConnectionError"
              eq_refl)
    as (_ & (st2 & outcome & F & H) & _).
  vm_compute in F. injection F as <- <-.
  eexists. exact H.
Defined.

(** ** Validation of a batch *)

Lemma normalize_tickers_rejects_400 (l : list json) (r : Response) :
  normalize_tickers l = inl r -> exists message, r = error_response message 400.
Proof.
  revert r. induction l as [|j l IH]; intros r; simpl; [discriminate|].
  destruct j; try (intros [= <-]; eauto; fail).
  destruct (negb (TICKER_PATTERN_match (Str.upper s))); [intros [= <-]; eauto|].
  destruct (normalize_tickers l) as [r'|l']; [|discriminate].
  intros [= <-]. now apply IH.
Qed.

Lemma normalize_tickers_bad_ticker (l : list json) (t : string) :
  In (JStr t) l -> TICKER_PATTERN_match (Str.upper t) = false ->
  exists r, normalize_tickers l = inl r.
Proof.
  intros Hin Hbad. induction l as [|j l IH]; [destruct Hin|].
  simpl. destruct j; try (eexists; reflexivity).
  destruct (negb (TICKER_PATTERN_match (Str.upper s))) eqn:E;
    [eexists; reflexivity|].
  destruct Hin as [[= ->]|Hin].
  - rewrite Hbad in E. discriminate.
  - destruct (IH Hin) as [r ->]. eexists; reflexivity.
Qed.

Lemma gt_nonempty (s e : string) : Str.gt s e = true -> Str.nonempty s = true.
Proof.
  unfold Str.gt, String.ltb. destruct s; [|reflexivity].
  now destruct e.
Qed.

Lemma nonempty_iff (s : string) : Str.nonempty s = true <-> s <> ""%string.
Proof. destruct s; simpl; split; congruence. Qed.

Section BatchValidation.

Variable env : Env.

(** A rejected request leaves the state as it was: nothing was called. *)
Lemma handle_batch_rejected (body : Body) (r : Response) (st : State) :
  validate_batch body = inl r ->
  handle_batch_stocks_request env body st = (st, Ok r).
Proof. unfold handle_batch_stocks_request. now intros ->. Qed.

End BatchValidation.

(** C6. A batch whose ticker list is empty, or has more than 10 entries, or
    has an entry that fails the symbol pattern, or whose start date is
    greater than its end date, is answered with status 400, and the state is
    untouched: no query and no fetch was started. The end date of a batch
    is the [endDate] it gives; an [endDate] that is the empty string gives
    none, and the handler takes today for it, as it does when the field is
    absent. *)
Theorem batch_validation_rejects (env : Env) (fields : list (string * json))
  (st : State) :
  dict_get "tickers" fields = Some (JArr [])
  \/ (exists l, dict_get "tickers" fields = Some (JArr l)
                /\ (MAX_TICKERS < length l)%nat)
  \/ (exists l t, dict_get "tickers" fields = Some (JArr l)
                  /\ In (JStr t) l
                  /\ TICKER_PATTERN_match (Str.upper t) = false)
  \/ (exists s e, dict_get "startDate" fields = Some (JStr s)
                  /\ dict_get "endDate" fields = Some (JStr e)
                  /\ e <> ""%string
                  /\ Str.gt s e = true) ->
  exists message,
    handle_batch_stocks_request env (BodyJson (JObj fields)) st
    = (st, Ok (error_response message 400)).
Proof.
  intros H.
  enough (exists message,
             validate_batch (BodyJson (JObj fields))
             = inl (error_response message 400)) as [m Hm].
  { exists m. now apply handle_batch_rejected. }
  unfold validate_batch.
  destruct H as [H | [(l & H & Hlen) | [(l & t & H & Hin & Hbad)
                                        | (s & e & Hs & He & Hne & Hgt)]]].
  - rewrite H. cbn. eauto.
  - rewrite H. cbn -[Nat.ltb length MAX_TICKERS normalize_tickers].
    destruct l as [|j l]; [simpl in Hlen; unfold MAX_TICKERS in Hlen; lia|].
    apply Nat.ltb_lt in Hlen. rewrite Hlen. eauto.
  - rewrite H. cbn -[Nat.ltb length MAX_TICKERS normalize_tickers].
    destruct l as [|j l]; [destruct Hin|].
    destruct (MAX_TICKERS <? length (j :: l))%nat; [eauto|].
    destruct (normalize_tickers_bad_ticker _ _ Hin Hbad) as [r Hr].
    rewrite Hr. destruct (normalize_tickers_rejects_400 _ _ Hr) as [m ->]. eauto.
  - rewrite Hs, He.
    cbn -[Nat.ltb length MAX_TICKERS normalize_tickers Str.gt DATE_PATTERN_match].
    rewrite (gt_nonempty _ _ Hgt), Hgt.
    apply nonempty_iff in Hne. rewrite Hne.
    cbn -[Nat.ltb length MAX_TICKERS normalize_tickers Str.gt DATE_PATTERN_match].
    destruct (negb (truthy (default (JArr []) (dict_get "tickers" fields))));
      [eauto|].
    destruct (default (JArr []) (dict_get "tickers" fields)); eauto.
    destruct (MAX_TICKERS <? length items)%nat; [eauto|].
    destruct (normalize_tickers items) as [r|l] eqn:N.
    { destruct (normalize_tickers_rejects_400 _ _ N) as [m ->]. eauto. }
    destruct (negb (DATE_PATTERN_match s)); [eauto|].
    destruct (negb (DATE_PATTERN_match e)); eauto.
Qed.

Lemma batch_validation_rejects_witness :
  exists message,
    handle_batch_stocks_request env_store_up body_eleven_tickers st_empty
    = (st_empty, Ok (error_response message 400)).
Proof.
  apply (batch_validation_rejects env_store_up). right. left.
  eexists. split; [reflexivity|]. vm_compute. lia.
Defined.

(** An [endDate] that is the empty string is an omitted end date: the batch
    runs from its start date to today (here 2024-01-15), a range whose
    start is not after its end, and it is accepted. *)
Lemma empty_end_date_is_omitted :
  exists st' b,
    handle_batch_stocks_request env_store_down body_empty_end_date st_empty
    = (st', Ok (batch_response b))
    /\ statusCode (batch_response b) = 200
    /\ trace st' = [ EvQuery "AAPL" "2024-01-01" "2024-01-15";
                     EvHistory "AAPL" "2024-01-01" "2024-01-15" ]
    /\ Str.gt "2024-01-01" "2024-01-15" = false.
Proof.
  unfold handle_batch_stocks_request.
  change (validate_batch body_empty_end_date)
    with (@inr Response _ (["AAPL"%string], "2024-01-01"%string, @None string)).
  cbv beta iota. unfold mbind, M_bind, mret, M_ret.
  destruct (run_pool env_store_down "2024-01-01" None ["AAPL"%string] st_empty)
    as [st' [outs|ex]] eqn:R; vm_compute in R.
  - injection R as <- <-. eexists _, _. split; [reflexivity|].
    split; [reflexivity|]. split; reflexivity.
  - discriminate R.
Qed.

(** ** The batch coordinator *)

Section PipelineFacts.

Variable env : Env.

(** The single-symbol pipeline raises nothing but the upstream's error. *)
Lemma handle_prices_request_raises (ticker start_date : string)
  (end_date : option string) (st st' : State) (ex : exn) :
  handle_prices_request env ticker start_date end_date st = (st', Raise ex) ->
  upstream_error ex.
Proof.
  unfold handle_prices_request.
  unfold mbind at 1. unfold M_bind at 1. unfold get_state at 1.
  set (eff := str_or end_date _).
  unfold try_except.
  unfold mbind at 1. unfold M_bind at 1.
  rewrite query_stocks_by_date_range_eq. cbv zeta.
  set (st1 := {| table := table st; clock := clock st; trace := _ |}).
  assert (Hfb : forall s0,
             (df ← fetch_stock_prices env ticker start_date eff;
              mret {| data := Fresh (transform_history_to_tiingo df ticker);
                      cached := false; cacheHitRate := 0%Q |}) s0
             = (st', Raise ex) -> upstream_error ex).
  { intros s0. unfold mbind, M_bind, mret, M_ret.
    destruct (fetch_stock_prices env ticker start_date eff s0)
      as [s2 [df|e2]] eqn:F; [discriminate|].
    intros [= _ <-]. now apply fetch_stock_prices_spec in F as [_ U]. }
  destruct (store_fault env (length (trace st))) as [detail|].
  { cbn [is_APIError]. apply Hfb. }
  unfold strptime.
  destruct (Calendar.strptime_ymd start_date) as [s|];
    [|unfold mbind at 1; unfold M_bind at 1; unfold raise at 1;
      cbn [is_APIError]; apply Hfb].
  unfold mbind at 1. unfold M_bind at 1. unfold mret at 1. unfold M_ret at 1.
  destruct (Calendar.strptime_ymd eff) as [e|];
    [|unfold mbind at 1; unfold M_bind at 1; unfold raise at 1;
      cbn [is_APIError]; apply Hfb].
  unfold mbind at 1. unfold M_bind at 1. unfold mret at 1. unfold M_ret at 1.
  destruct (sufficient _ _); [discriminate|].
  unfold mbind at 1. unfold M_bind at 1.
  destruct (fetch_stock_prices env ticker start_date eff st1)
    as [st2 [df|e2]] eqn:F.
  - unfold mbind, M_bind, mret, M_ret.
    destruct (write_back_ok env ticker (transform_history_to_tiingo df ticker) st2)
      as [st3 ->].
    discriminate.
  - apply fetch_stock_prices_spec in F as [_ U].
    rewrite (upstream_error_is_APIError _ U). unfold raise.
    now intros [= _ <-].
Qed.

(** [fetch_ticker] turns the outcome of the pipeline into a tuple and
    never raises. *)
Lemma fetch_ticker_eq (start_date : string) (end_date : option string)
  (ticker : string) (st : State) :
  fetch_ticker env start_date end_date ticker st
  = match handle_prices_request env ticker start_date end_date st with
    | (st', Ok r) =>
        (st', Ok {| oc_ticker := ticker; oc_data := Some (data r);
                    oc_error := None; oc_cached := cached r |})
    | (st', Raise (APIError message _)) =>
        (st', Ok {| oc_ticker := ticker; oc_data := None;
                    oc_error := Some message; oc_cached := false |})
    | (st', Raise e) =>
        (st', Ok {| oc_ticker := ticker; oc_data := None;
                    oc_error := Some (exn_str e); oc_cached := false |})
    end.
Proof.
  unfold fetch_ticker, try_except, mbind, M_bind, mret, M_ret.
  destruct (handle_prices_request env ticker start_date end_date st)
    as [st' [r|[m c|d|d]]]; reflexivity.
Qed.

Lemma fetch_ticker_total (start_date : string) (end_date : option string)
  (ticker : string) (st : State) :
  exists st' o,
    fetch_ticker env start_date end_date ticker st = (st', Ok o)
    /\ oc_ticker o = ticker.
Proof.
  rewrite fetch_ticker_eq.
  destruct (handle_prices_request env ticker start_date end_date st)
    as [st' [r|[m c|d|d]]]; eexists _, _; split; reflexivity.
Qed.

(** Every submitted ticker yields one outcome, in order. *)
Lemma run_pool_total (start_date : string) (end_date : option string)
  (tickers : list string) (st : State) :
  exists st' outs,
    run_pool env start_date end_date tickers st = (st', Ok outs)
    /\ map oc_ticker outs = tickers.
Proof.
  revert st. induction tickers as [|t tickers IH]; intros st; simpl.
  - eexists _, _. split; reflexivity.
  - unfold mbind, M_bind, mret, M_ret.
    destruct (fetch_ticker_total start_date end_date t st) as (s1 & o & -> & Ho).
    destruct (IH s1) as (s2 & os & -> & Hos).
    eexists _, _. split; [reflexivity|]. simpl. now rewrite Ho, Hos.
Qed.

End PipelineFacts.

(** *** The loop over the completed futures *)

Lemma collect_eq (acc : BatchBody) (o : Outcome) :
  collect acc o
  = if is_failure o then
      {| results := results acc;
         errors := <[oc_ticker o := default ""%string (oc_error o)]> (errors acc);
         cached_flags := cached_flags acc;
         successCount := successCount acc;
         errorCount := errorCount acc |}
    else
      {| results := <[oc_ticker o := oc_data o]> (results acc);
         errors := errors acc;
         cached_flags := <[oc_ticker o := oc_cached o]> (cached_flags acc);
         successCount := successCount acc;
         errorCount := errorCount acc |}.
Proof.
  unfold collect, is_failure. destruct (oc_error o) as [e|]; [|reflexivity].
  now destruct (Str.nonempty e).
Qed.

Lemma is_failure_error (o : Outcome) :
  is_failure o = true -> Some (default ""%string (oc_error o)) = oc_error o.
Proof. unfold is_failure. now destruct (oc_error o). Qed.

(** An outcome touches no entry but that of its own ticker. *)
Lemma collect_other (t : string) (acc : BatchBody) (o : Outcome) :
  oc_ticker o <> t -> entry t (collect acc o) = entry t acc.
Proof.
  intros N. rewrite collect_eq. unfold entry.
  destruct (is_failure o); simpl; now rewrite ?lookup_insert_ne by exact N.
Qed.

Lemma collect_self (acc : BatchBody) (o : Outcome) :
  entry (oc_ticker o) (collect acc o)
  = if is_failure o
    then (results acc !! oc_ticker o, oc_error o, cached_flags acc !! oc_ticker o)
    else (Some (oc_data o), errors acc !! oc_ticker o, Some (oc_cached o)).
Proof.
  rewrite collect_eq. unfold entry.
  destruct (is_failure o) eqn:F; simpl; rewrite ?lookup_insert_eq;
    [now rewrite (is_failure_error o F) | reflexivity].
Qed.

Lemma fold_collect_other (t : string) (os : list Outcome) (acc : BatchBody) :
  (forall o, In o os -> oc_ticker o <> t) ->
  entry t (fold_left collect os acc) = entry t acc.
Proof.
  revert acc. induction os as [|x os IH]; intros acc H; simpl; [reflexivity|].
  rewrite IH by (intros o Ho; apply H; now right).
  apply collect_other, H. now left.
Qed.

(** With distinct tickers, the entry of a ticker is what its own outcome
    put there. *)
Lemma fold_collect_in (os : list Outcome) (acc : BatchBody) (o : Outcome) :
  NoDup (map oc_ticker os) -> In o os ->
  entry (oc_ticker o) (fold_left collect os acc)
  = if is_failure o
    then (results acc !! oc_ticker o, oc_error o, cached_flags acc !! oc_ticker o)
    else (Some (oc_data o), errors acc !! oc_ticker o, Some (oc_cached o)).
Proof.
  revert acc. induction os as [|x os IH]; intros acc Hnd Hin; [destruct Hin|].
  simpl in Hnd. apply NoDup_cons in Hnd as [Hx Hnd].
  rewrite list_elem_of_In in Hx. simpl.
  destruct Hin as [->|Hin].
  - rewrite fold_collect_other; [apply collect_self|].
    intros o' Ho' E. apply Hx. rewrite <- E. now apply in_map.
  - rewrite (IH _ Hnd Hin).
    assert (N : oc_ticker x <> oc_ticker o).
    { intros E. apply Hx. rewrite E. now apply in_map. }
    pose proof (collect_other (oc_ticker o) acc x N) as C.
    unfold entry in C. injection C as -> -> ->. reflexivity.
Qed.

Lemma fold_collect_sizes (os : list Outcome) (acc : BatchBody) :
  NoDup (map oc_ticker os) ->
  (forall o, In o os -> entry (oc_ticker o) acc = (None, None, None)) ->
  size (results (fold_left collect os acc))
  = (size (results acc)
     + length (List.filter (fun o => negb (is_failure o)) os))%nat
  /\ size (errors (fold_left collect os acc))
     = (size (errors acc) + length (List.filter is_failure os))%nat.
Proof.
  revert acc. induction os as [|x os IH]; intros acc Hnd Hacc; simpl; [lia|].
  simpl in Hnd. apply NoDup_cons in Hnd as [Hx Hnd].
  rewrite list_elem_of_In in Hx.
  destruct (IH (collect acc x) Hnd) as [IH1 IH2].
  { intros o Ho. rewrite collect_other; [apply Hacc; now right|].
    intros E. apply Hx. rewrite E. now apply in_map. }
  rewrite IH1, IH2.
  pose proof (Hacc x (or_introl eq_refl)) as Hx0. unfold entry in Hx0.
  injection Hx0 as R0 E0 _.
  rewrite collect_eq. destruct (is_failure x); simpl.
  - rewrite map_size_insert_None by exact E0. lia.
  - rewrite map_size_insert_None by exact R0. lia.
Qed.

Lemma filter_lengths {A} (p : A -> bool) (l : list A) :
  (length (List.filter (fun x => negb (p x)) l) + length (List.filter p l)
   = length l)%nat.
Proof.
  induction l as [|x l IH]; simpl; [reflexivity|].
  destruct (p x); simpl; lia.
Qed.

(** The response body built from outcomes with distinct tickers. *)
Lemma aggregate_distinct (outs : list Outcome) :
  NoDup (map oc_ticker outs) ->
  let b := aggregate outs in
  (forall o, In o outs ->
     entry (oc_ticker o) b
     = if is_failure o then (None, oc_error o, None)
       else (Some (oc_data o), None, Some (oc_cached o)))
  /\ (forall t, ~ In t (map oc_ticker outs) -> entry t b = (None, None, None))
  /\ successCount b = size (results b)
  /\ errorCount b = size (errors b)
  /\ successCount b = length (List.filter (fun o => negb (is_failure o)) outs)
  /\ errorCount b = length (List.filter is_failure outs)
  /\ (successCount b + errorCount b)%nat = length outs.
Proof.
  intros Hnd b.
  assert (Hentry : forall t, entry t b = entry t (fold_left collect outs empty_batch))
    by reflexivity.
  destruct (fold_collect_sizes outs empty_batch Hnd) as [S1 S2];
    [reflexivity|].
  change (size (results empty_batch)) with 0%nat in S1.
  change (size (errors empty_batch)) with 0%nat in S2.
  assert (C1 : successCount b
               = length (List.filter (fun o => negb (is_failure o)) outs))
    by exact S1.
  assert (C2 : errorCount b = length (List.filter is_failure outs)) by exact S2.
  repeat split; try assumption.
  - intros o Ho. rewrite Hentry, (fold_collect_in _ _ _ Hnd Ho). reflexivity.
  - intros t Ht. rewrite Hentry, fold_collect_other; [reflexivity|].
    intros o Ho E. apply Ht. rewrite <- E. now apply in_map.
  - rewrite C1, C2. apply filter_lengths.
Qed.

Lemma aggregate_fields (outs : list Outcome) :
  aggregate outs
  = {| results := results (aggregate outs);
       errors := errors (aggregate outs);
       cached_flags := cached_flags (aggregate outs);
       successCount := size (results (aggregate outs));
       errorCount := size (errors (aggregate outs)) |}.
Proof. reflexivity. Qed.

(** With distinct tickers the response does not depend on the order in
    which the futures complete. *)
Lemma aggregate_permutation (outs outs' : list Outcome) :
  NoDup (map oc_ticker outs) -> Permutation outs outs' ->
  aggregate outs' = aggregate outs.
Proof.
  intros Hnd Hp.
  assert (Hnd' : NoDup (map oc_ticker outs')).
  { assert (Hm : map oc_ticker outs ≡ₚ map oc_ticker outs')
      by now apply Permutation_map.
    now rewrite <- Hm. }
  destruct (aggregate_distinct outs Hnd) as (A1 & A2 & _).
  destruct (aggregate_distinct outs' Hnd') as (B1 & B2 & _).
  assert (E : forall t, entry t (aggregate outs') = entry t (aggregate outs)).
  { intros t. destruct (in_dec string_dec t (map oc_ticker outs)) as [Hin|Hout].
    - apply in_map_iff in Hin as (o & <- & Ho).
      rewrite (A1 o Ho). apply B1. eapply Permutation_in; eassumption.
    - rewrite (A2 t Hout). apply B2. intros Hin. apply Hout.
      eapply Permutation_in; [|exact Hin].
      apply Permutation_map. now symmetry. }
  assert (R : results (aggregate outs') = results (aggregate outs)).
  { apply map_eq. intros t. specialize (E t). unfold entry in E. congruence. }
  assert (Er : errors (aggregate outs') = errors (aggregate outs)).
  { apply map_eq. intros t. specialize (E t). unfold entry in E. congruence. }
  assert (C : cached_flags (aggregate outs') = cached_flags (aggregate outs)).
  { apply map_eq. intros t. specialize (E t). unfold entry in E. congruence. }
  rewrite (aggregate_fields outs'), (aggregate_fields outs), R, Er, C.
  reflexivity.
Qed.

(** C5, as the code has it. For a validated batch whose normalised symbols
    are pairwise distinct: every symbol gets one outcome; a symbol whose run
    failed has its message in the error map and no entry in the success map,
    a symbol whose run succeeded has its own data in the success map and no
    entry in the error map, whatever the other outcomes are; no other key
    exists; successCount and errorCount are the sizes of the two maps and
    add up to the number of symbols; the response is the same in whatever
    order the outcomes are collected. With three symbols of which the second
    raises a 404, the success map holds the records of the first and the
    third, the error map holds the second, and the counts are 2 and 1. *)
Theorem batch_partitions_distinct_symbols (env : Env) (body : Body)
  (st : State) (tickers : list string) (start_date : string)
  (end_date : option string) :
  validate_batch body = inr (tickers, start_date, end_date) ->
  NoDup tickers ->
  exists st' outs b,
    run_pool env start_date end_date tickers st = (st', Ok outs)
    /\ handle_batch_stocks_request env body st = (st', Ok (batch_response b))
    /\ map oc_ticker outs = tickers
    /\ (forall o, In o outs ->
          entry (oc_ticker o) b
          = if is_failure o then (None, oc_error o, None)
            else (Some (oc_data o), None, Some (oc_cached o)))
    /\ (forall t, ~ In t tickers -> entry t b = (None, None, None))
    /\ successCount b = size (results b)
    /\ errorCount b = size (errors b)
    /\ (successCount b + errorCount b)%nat = length tickers
    /\ (forall outs', Permutation outs outs' -> aggregate outs' = b)
    /\ (forall t1 t2 t3 s1 s2 s3 r1 r3 message,
          tickers = [t1; t2; t3] ->
          handle_prices_request env t1 start_date end_date st = (s1, Ok r1) ->
          handle_prices_request env t2 start_date end_date s1
          = (s2, Raise (APIError message 404)) ->
          handle_prices_request env t3 start_date end_date s2 = (s3, Ok r3) ->
          entry t1 b = (Some (Some (data r1)), None, Some (cached r1))
          /\ entry t2 b = (None, Some message, None)
          /\ entry t3 b = (Some (Some (data r3)), None, Some (cached r3))
          /\ successCount b = 2%nat
          /\ errorCount b = 1%nat).
Proof.
  intros Hv Hnd.
  destruct (run_pool_total env start_date end_date tickers st)
    as (st' & outs & Hrun & Hmap).
  exists st', outs, (aggregate outs).
  assert (Hnd' : NoDup (map oc_ticker outs)) by now rewrite Hmap.
  destruct (aggregate_distinct outs Hnd') as (A1 & A2 & A3 & A4 & A5 & A6 & A7).
  split; [exact Hrun|]. split.
  { unfold handle_batch_stocks_request. rewrite Hv.
    unfold mbind, M_bind, mret, M_ret. now rewrite Hrun. }
  split; [exact Hmap|]. split; [exact A1|]. split.
  { intros t Ht. apply A2. now rewrite Hmap. }
  split; [exact A3|]. split; [exact A4|]. split.
  { rewrite A7, <- Hmap. symmetry. apply length_map. }
  split.
  { intros outs' Hp. now apply aggregate_permutation. }
  intros t1 t2 t3 s1 s2 s3 r1 r3 message -> H1 H2 H3.
  pose proof (handle_prices_request_raises env _ _ _ _ _ _ H2)
    as (m & c & [= <- <-] & Hm).
  simpl in Hrun. unfold mbind, M_bind, mret, M_ret in Hrun.
  rewrite !fetch_ticker_eq, ?H1 in Hrun.
  rewrite !fetch_ticker_eq, ?H2 in Hrun.
  rewrite !fetch_ticker_eq, ?H3 in Hrun.
  injection Hrun as <- <-.
  rewrite A5, A6.
  match goal with |- context [aggregate [?a; ?b; ?c]] =>
    pose proof (A1 a ltac:(simpl; tauto)) as E1;
    pose proof (A1 b ltac:(simpl; tauto)) as E2;
    pose proof (A1 c ltac:(simpl; tauto)) as E3 end.
  unfold is_failure in *. simpl in *. rewrite Hm in *. simpl.
  repeat split; assumption.
Qed.

Lemma batch_partitions_distinct_symbols_witness :
  exists st' b,
    handle_batch_stocks_request env_nope_unknown body_three_symbols st_empty
    = (st', Ok (batch_response b))
    /\ is_Some (results b !! "AAPL"%string)
    /\ is_Some (results b !! "MSFT"%string)
    /\ errors b !! "NOPE"%string
       = Some "Ticker 'NOPE' not found or no data available"%string
    /\ results b !! "NOPE"%string = None
    /\ successCount b = 2%nat
    /\ errorCount b = 1%nat.
Proof.
  destruct (batch_partitions_distinct_symbols env_nope_unknown
              body_three_symbols st_empty
              ["AAPL"; "NOPE"; "MSFT"]%string "2024-01-15"
              (Some "2024-01-19"%string) eq_refl)
    as (st' & outs & b & _ & Hb & _ & _ & _ & _ & _ & _ & _ & Hsc).
  { repeat constructor; rewrite list_elem_of_In; simpl; intuition discriminate. }
  exists st', b. split; [exact Hb|].
  destruct (handle_prices_request env_nope_unknown "AAPL" "2024-01-15"
              (Some "2024-01-19"%string) st_empty) as [s1 o1] eqn:R1.
  pose proof R1 as R1'. vm_compute in R1'. injection R1' as <- <-.
  match type of R1 with _ = (?s, _) =>
    destruct (handle_prices_request env_nope_unknown "NOPE" "2024-01-15"
                (Some "2024-01-19"%string) s) as [s2 o2] eqn:R2 end.
  pose proof R2 as R2'. vm_compute in R2'. injection R2' as <- <-.
  match type of R2 with _ = (?s, _) =>
    destruct (handle_prices_request env_nope_unknown "MSFT" "2024-01-15"
                (Some "2024-01-19"%string) s) as [s3 o3] eqn:R3 end.
  pose proof R3 as R3'. vm_compute in R3'. injection R3' as <- <-.
  destruct (Hsc _ _ _ _ _ _ _ _ _ eq_refl R1 R2 R3) as (E1 & E2 & E3 & C1 & C2).
  unfold entry in E1, E2, E3.
  injection E1 as E1 _ _. injection E2 as E2a E2b _. injection E3 as E3 _ _.
  rewrite E1, E3, E2a, E2b.
  repeat split; eauto.
Defined.

(** C5, as the claim words it, fails: a validated batch may name one symbol
    twice. When the upstream has no data at the first run and answers at the
    second, the symbol is a key of the error map and of the success map at
    once, and both counts are 1 for a single symbol. *)
Lemma same_symbol_in_both_maps :
  validate_batch body_same_symbol_twice
  = inr (["AAPL"; "AAPL"]%string, "2024-01-15"%string, Some "2024-01-19"%string)
  /\ exists st' b,
       handle_batch_stocks_request env_flaky body_same_symbol_twice st_empty
       = (st', Ok (batch_response b))
       /\ is_Some (results b !! "AAPL"%string)
       /\ errors b !! "AAPL"%string
          = Some "Ticker 'AAPL' not found or no data available"%string
       /\ successCount b = 1%nat
       /\ errorCount b = 1%nat.
Proof.
  split; [reflexivity|].
  unfold handle_batch_stocks_request.
  change (validate_batch body_same_symbol_twice)
    with (@inr Response _ (["AAPL"; "AAPL"]%string, "2024-01-15"%string,
                           Some "2024-01-19"%string)).
  cbv beta iota. unfold mbind, M_bind, mret, M_ret.
  destruct (run_pool env_flaky "2024-01-15" (Some "2024-01-19"%string)
              ["AAPL"; "AAPL"]%string st_empty) as [st' [outs|ex]] eqn:R;
    vm_compute in R; [|discriminate R].
  injection R as <- <-.
  eexists _, _. split; [reflexivity|].
  unfold aggregate. simpl. unfold collect. simpl.
  rewrite !lookup_insert_eq.
  rewrite !map_size_insert_None by apply lookup_empty.
  rewrite !map_size_empty.
  repeat split. eauto.
Qed.

(** * More properties *)

(** ** Ticker validation *)

Lemma ticker_char_plain (c : ascii) :
  ticker_char c = true ->
  is_space c = false /\ Str.upper_char c = c
  /\ Ascii.eqb c Str.newline = false.
Proof.
  destruct c as [[] [] [] [] [] [] [] []]; intros H;
    first [discriminate H | repeat split; reflexivity].
Qed.

Lemma upper_char_idempotent (c : ascii) :
  Str.upper_char (Str.upper_char c) = Str.upper_char c.
Proof. destruct c as [[] [] [] [] [] [] [] []]; reflexivity. Qed.

Lemma upper_idempotent (s : string) : Str.upper (Str.upper s) = Str.upper s.
Proof.
  induction s as [|c s IH]; simpl; [reflexivity|].
  now rewrite upper_char_idempotent, IH.
Qed.

Lemma upper_nonempty (s : string) : Str.nonempty (Str.upper s) = Str.nonempty s.
Proof. now destruct s. Qed.

Lemma upper_tickers (s : string) :
  Str.forallb ticker_char s = true -> Str.upper s = s.
Proof.
  induction s as [|c s IH]; simpl; [reflexivity|].
  intros H. apply andb_true_iff in H as [Hc Hs].
  destruct (ticker_char_plain c Hc) as (_ & -> & _). now rewrite IH.
Qed.

Lemma rstrip_tickers (s : string) :
  Str.forallb ticker_char s = true -> rstrip s = s.
Proof.
  induction s as [|c s IH]; simpl; [reflexivity|].
  intros H. apply andb_true_iff in H as [Hc Hs].
  rewrite (IH Hs). destruct (ticker_char_plain c Hc) as (-> & _ & _).
  now destruct s.
Qed.

Lemma strip_tickers (s : string) :
  Str.forallb ticker_char s = true -> strip s = s.
Proof.
  intros H. unfold strip.
  replace (lstrip s) with s; [now apply rstrip_tickers|].
  destruct s as [|c s]; [reflexivity|]. simpl in *.
  apply andb_true_iff in H as [Hc _].
  now destruct (ticker_char_plain c Hc) as (-> & _ & _).
Qed.

(** A right-stripped string does not end in a line feed, so [$] can only
    match at its very end. *)
Lemma chomp_rstrip (s : string) : Str.chomp (rstrip s) = rstrip s.
Proof.
  induction s as [|c s IH]; simpl; [reflexivity|].
  destruct (rstrip s) as [|c' r'] eqn:E.
  - destruct (is_space c) eqn:Sp; [reflexivity|]. simpl.
    destruct (Ascii.eqb c Str.newline) eqn:N; [|reflexivity].
    apply Ascii.eqb_eq in N. subst c. discriminate Sp.
  - change (Str.chomp (String c (String c' r')))
      with (String c (Str.chomp (String c' r'))).
    now rewrite IH.
Qed.

Lemma chomp_tickers (s : string) :
  Str.forallb ticker_char s = true -> Str.chomp s = s.
Proof. intros H. rewrite <- (rstrip_tickers s H). apply chomp_rstrip. Qed.

(** X1. A ticker that [validate_ticker] accepts is not empty, consists only
    of the characters A-Z, 0-9, dot and hyphen (no trailing line feed slips
    through the pattern), and is a fixed point: validating it again returns
    it unchanged. *)
Theorem validate_ticker_normal_form (raw t : string) :
  validate_ticker raw = Some t ->
  Str.nonempty t = true
  /\ Str.forallb ticker_char t = true
  /\ validate_ticker t = Some t.
Proof.
  unfold validate_ticker.
  destruct (negb (Str.nonempty raw)); [discriminate|].
  destruct (TICKER_PATTERN_match (strip (Str.upper raw))) eqn:P; [|discriminate].
  intros [= <-]. set (t := strip (Str.upper raw)) in *.
  unfold TICKER_PATTERN_match in P.
  assert (C : Str.chomp t = t) by apply chomp_rstrip.
  rewrite C in P. apply andb_true_iff in P as [Hn Hc].
  split; [exact Hn|]. split; [exact Hc|].
  rewrite Hn. cbn [negb].
  rewrite (upper_tickers t Hc), (strip_tickers t Hc).
  unfold TICKER_PATTERN_match. now rewrite C, Hn, Hc.
Qed.

Lemma validate_ticker_normal_form_witness :
  validate_ticker " brk.b " = Some "BRK.B"%string
  /\ validate_ticker "BRK.B" = Some "BRK.B"%string.
Proof.
  split; [reflexivity|].
  apply (validate_ticker_normal_form " brk.b " "BRK.B"). reflexivity.
Defined.

(** [validate_ticker] does not depend on the case of its input. *)
Lemma validate_ticker_ignores_case (raw : string) :
  validate_ticker (Str.upper raw) = validate_ticker raw.
Proof.
  unfold validate_ticker. now rewrite upper_nonempty, upper_idempotent.
Qed.

(** ** Rounding *)

Lemma div_of_equal_fractions (n d n' d' : Z) :
  0 < d -> 0 < d' -> n * d' = n' * d ->
  n / d = n' / d' /\ (n mod d) * d' = (n' mod d') * d.
Proof.
  intros Hd Hd' E.
  pose proof (Z.div_mod n d ltac:(lia)) as Hn.
  pose proof (Z.mod_pos_bound n d Hd) as Hr.
  assert (F : n' / d' = n / d).
  { symmetry. apply (Z.div_unique_pos n' d' (n / d) (n' - d' * (n / d))); [|lia].
    assert (K : (n' - d' * (n / d)) * d = d' * (n mod d)) by nia.
    split; nia. }
  split; [now symmetry|].
  pose proof (Z.div_mod n' d' ltac:(lia)) as Hn'.
  rewrite F in Hn'. nia.
Qed.

(** Rounding depends on the value only, not on how the fraction is
    written. *)
Lemma round_half_even_value (p q : Q) :
  (p == q)%Q -> Num.round_half_even p = Num.round_half_even q.
Proof.
  intros E. unfold Qeq in E. unfold Num.round_half_even.
  destruct (div_of_equal_fractions (Qnum p) (Zpos (Qden p)) (Qnum q)
              (Zpos (Qden q)) ltac:(lia) ltac:(lia) E) as [F R].
  rewrite F.
  assert (L : (2 * (Qnum p mod Zpos (Qden p)) <? Zpos (Qden p))
              = (2 * (Qnum q mod Zpos (Qden q)) <? Zpos (Qden q))).
  { destruct (Z.ltb_spec (2 * (Qnum p mod Zpos (Qden p))) (Zpos (Qden p)));
      destruct (Z.ltb_spec (2 * (Qnum q mod Zpos (Qden q))) (Zpos (Qden q)));
      try reflexivity; nia. }
  assert (G : (Zpos (Qden p) <? 2 * (Qnum p mod Zpos (Qden p)))
              = (Zpos (Qden q) <? 2 * (Qnum q mod Zpos (Qden q)))).
  { destruct (Z.ltb_spec (Zpos (Qden p)) (2 * (Qnum p mod Zpos (Qden p))));
      destruct (Z.ltb_spec (Zpos (Qden q)) (2 * (Qnum q mod Zpos (Qden q))));
      try reflexivity; nia. }
  now rewrite L, G.
Qed.

Lemma round_half_even_integer (k : Z) : Num.round_half_even (inject_Z k) = k.
Proof.
  unfold Num.round_half_even, inject_Z. simpl.
  rewrite Z.div_1_r, Z.mod_1_r. reflexivity.
Qed.

(** Rounding to four decimals a second time changes nothing. *)
Lemma round4_idempotent (q : Q) : Num.round4 (Num.round4 q) = Num.round4 q.
Proof.
  unfold Num.round4 at 2 3.
  set (k := Num.round_half_even (q * inject_Z 10000)).
  unfold Num.round4.
  rewrite (round_half_even_value _ (inject_Z k)); [now rewrite round_half_even_integer|].
  rewrite Qred_correct. unfold Qeq, Qmult, inject_Z. simpl. lia.
Qed.

Lemma round4_one : Num.round4 1 = 1%Q.
Proof. reflexivity. Qed.

(** ** Normalised records *)

Lemma take_10_strftime (t : Calendar.datetime) (suffix : string) :
  Str.take 10 (Calendar.strftime_ymd t ++ suffix) = Calendar.strftime_ymd t.
Proof.
  unfold Calendar.strftime_ymd.
  destruct (Calendar.ord2ymd (Calendar.toordinal t)) as [[y m] d].
  reflexivity.
Qed.

Lemma transform_history_map (df : DataFrame) (ticker : string) :
  transform_history_to_tiingo df ticker
  = map (fun p => transform_row p.1 p.2) df.
Proof.
  unfold transform_history_to_tiingo. destruct df as [|[idx row] df]; simpl;
    [reflexivity|].
  f_equal. apply map_ext. now intros [i r].
Qed.

(** X2. Normalisation returns one record per row, in row order; the first
    ten characters of a record's date (the key the handler caches it under)
    are the day of the row's index; every price in the record is a whole
    number of ten-thousandths, so rounding a record again changes nothing;
    the adjusted volume is the volume. *)
Theorem normalised_records_shape (df : DataFrame) (ticker : string) :
  let records := transform_history_to_tiingo df ticker in
  length records = length df
  /\ map (fun r => Str.take 10 (date r)) records
     = map (fun p => Calendar.strftime_ymd p.1) df
  /\ Forall four_decimals records
  /\ Forall (fun r => adjVolume r = volume r) records.
Proof.
  intros records. subst records. rewrite transform_history_map.
  split; [apply length_map|]. split; [|split].
  - rewrite map_map. apply map_ext. intros [idx row]. simpl.
    apply take_10_strftime.
  - apply Forall_forall. intros r Hr.
    apply list_elem_of_In, in_map_iff in Hr as ([idx row] & <- & _).
    unfold four_decimals, transform_row. cbn [open high low close adjOpen adjHigh
      adjLow adjClose divCash splitFactor].
    repeat split; try apply round4_idempotent.
    destruct (Num.is_zero _); [apply round4_one | apply round4_idempotent].
  - apply Forall_forall. intros r Hr.
    apply list_elem_of_In, in_map_iff in Hr as ([idx row] & <- & _). reflexivity.
Qed.

(** ** Reads and writes of the table *)

Lemma same_key_has_key (k : string * string) (x it : CacheItem) :
  same_key x it = true -> has_key k x = has_key k it.
Proof.
  unfold same_key, has_key. intros H. apply andb_true_iff in H as [H1 H2].
  apply String.eqb_eq in H1, H2. now rewrite H1, H2.
Qed.

(** After a put, a get of the new item's key finds the new item, and a get
    of any other key finds what it found before. *)
Lemma table_get_table_put (k : string * string) (it : CacheItem)
  (t : list CacheItem) :
  table_get k (table_put it t)
  = if has_key k it then Some it else table_get k t.
Proof.
  unfold table_get, table_put. simpl.
  destruct (has_key k it) eqn:E; [reflexivity|].
  induction t as [|x t IH]; [reflexivity|]. simpl.
  destruct (same_key x it) eqn:S; simpl.
  - rewrite (same_key_has_key k x it S), E. exact IH.
  - destruct (has_key k x); [reflexivity | exact IH].
Qed.

Lemma table_get_count (k : string * string) (t : list CacheItem) :
  table_get k t = None <-> count_key k t = 0%nat.
Proof.
  unfold table_get, count_key. induction t as [|x t IH]; simpl; [easy|].
  destruct (has_key k x); simpl; [split; [discriminate | lia] | exact IH].
Qed.

Section ReadFacts.

Variable sv : Services.

Lemma get_stock_eq (ticker date : string) (s : Session) :
  get_stock sv ticker date s
  = let s1 := {| core := core s;
                 calls := calls s ++ [CallGetItem (Str.upper ticker) date] |} in
    match read_fault sv (length (calls s)) with
    | Some detail => (s1, Raise (StoreError detail))
    | None => (s1, Ok (table_get (Str.upper ticker, date) (table (core s))))
    end.
Proof.
  unfold get_stock, try_except2, mbind, M2_bind, emit2, raise2, get_session,
    mret, M2_ret. simpl.
  destruct (read_fault sv (length (calls s))); reflexivity.
Qed.

End ReadFacts.

(** X4. A stored record can be read back: after a successful [put_stock],
    [get_stock] with the same date and the same ticker in any letter case
    returns the record that was written (the caller's price data with the
    TTL and timestamp of the write), provided the read itself does not
    fail. *)
Theorem put_stock_then_get_stock (sv : Services) (item : Item) (ticker : string)
  (s s1 : Session) :
  lift (put_stock (prices_env sv) item) s = (s1, Ok tt) ->
  Str.upper ticker = Str.upper (item_ticker item) ->
  read_fault sv (length (calls s1)) = None ->
  (get_stock sv ticker (item_date item) s1).2
  = Ok (Some (make_cache_item (clock (core s)) item)).
Proof.
  intros Hput Ht Hr. unfold lift in Hput. rewrite put_stock_eq in Hput.
  cbv zeta in Hput.
  destruct (store_fault (prices_env sv) (length (trace (core s))));
    [discriminate|].
  injection Hput as <-. rewrite get_stock_eq. cbv zeta.
  cbn [calls] in Hr. cbn [calls core table]. rewrite Hr. cbn [snd].
  rewrite table_get_table_put, Ht.
  change (Str.upper (item_ticker item), item_date item)
    with (key_of (make_cache_item (clock (core s)) item)).
  now rewrite has_key_key_of.
Qed.

Lemma put_stock_then_get_stock_witness :
  let s1 := (lift (put_stock env_store_up item_aapl_jan_08)
               (session_of st_empty)).1 in
  (get_stock (services_of env_store_up) "Aapl" "2024-01-08" s1).2
  = Ok (Some (make_cache_item noon_2024_01_15 item_aapl_jan_08)).
Proof.
  intros s1.
  apply (put_stock_then_get_stock (services_of env_store_up) item_aapl_jan_08
           "Aapl" (session_of st_empty) s1); reflexivity.
Defined.

(** X5. A write touches one key only: whatever the outcome of a
    [put_stock], a [get_stock] for any other (uppercased ticker, date) key
    returns afterwards what it returned before. *)
Theorem put_stock_keeps_other_keys (sv : Services) (item : Item)
  (ticker date : string) (s : Session) :
  (Str.upper ticker, date) <> (Str.upper (item_ticker item), item_date item) ->
  let s1 := (lift (put_stock (prices_env sv) item) s).1 in
  (get_stock sv ticker date s1).2 = (get_stock sv ticker date s).2.
Proof.
  intros Hk s1. subst s1. unfold lift. rewrite put_stock_eq. cbv zeta.
  rewrite !get_stock_eq. cbv zeta.
  destruct (store_fault (prices_env sv) (length (trace (core s))));
    cbn [fst calls core table];
    destruct (read_fault sv (length (calls s))); try reflexivity.
  cbn [snd]. rewrite table_get_table_put.
  destruct (has_key _ _) eqn:E; [|reflexivity].
  apply has_key_iff in E. rewrite key_of_make_cache_item in E.
  now contradiction Hk.
Qed.

Lemma put_stock_keeps_other_keys_witness :
  let s := (lift (put_stock env_store_up item_aapl_jan_08)
              (session_of st_empty)).1 in
  let s1 := (lift (put_stock env_store_up
                     {| item_ticker := "MSFT"; item_date := "2024-01-08";
                        item_priceData := []; item_metadata := None |}) s).1 in
  (get_stock (services_of env_store_up) "AAPL" "2024-01-08" s1).2
  = (get_stock (services_of env_store_up) "AAPL" "2024-01-08" s).2.
Proof.
  intros s.
  apply (put_stock_keeps_other_keys (services_of env_store_up)
           {| item_ticker := "MSFT"; item_date := "2024-01-08";
              item_priceData := []; item_metadata := None |}
           "AAPL" "2024-01-08" s).
  intros [=].
Defined.

(** ** The order of the dates in an answer *)

Lemma ascii_compare_trans (a b c : ascii) (r : comparison) :
  Ascii.compare a b = r -> Ascii.compare b c = r -> Ascii.compare a c = r.
Proof.
  unfold Ascii.compare. intros H1 H2. destruct r.
  - apply N.compare_eq in H1, H2. rewrite H1, H2. apply N.compare_refl.
  - rewrite N.compare_lt_iff in *. lia.
  - rewrite N.compare_gt_iff in *. lia.
Qed.

Lemma string_compare_lt_trans (a b c : string) :
  String.compare a b = Lt -> String.compare b c = Lt -> String.compare a c = Lt.
Proof.
  revert b c. induction a as [|x a IH]; intros [|y b] [|z c]; simpl;
    try discriminate; try reflexivity.
  destruct (Ascii.compare x y) eqn:XY; try discriminate;
    destruct (Ascii.compare y z) eqn:YZ; try discriminate; intros H1 H2.
  - rewrite (ascii_compare_trans x y z Eq XY YZ). now apply (IH b c).
  - apply Ascii.compare_eq_iff in XY. subst y. now rewrite YZ.
  - apply Ascii.compare_eq_iff in YZ. subst z. now rewrite XY.
  - now rewrite (ascii_compare_trans x y z Lt XY YZ).
Qed.

Lemma string_compare_refl (a : string) : String.compare a a = Eq.
Proof.
  induction a as [|c a IH]; simpl; [reflexivity|].
  unfold Ascii.compare. now rewrite N.compare_refl.
Qed.

Lemma string_leb_lt_or_eq (a b : string) :
  String.leb a b = true <-> String.compare a b = Lt \/ a = b.
Proof.
  unfold String.leb. split.
  - destruct (String.compare a b) eqn:E; try discriminate; intros _.
    + right. now apply String.compare_eq_iff.
    + now left.
  - intros [->| ->]; [reflexivity|]. now rewrite string_compare_refl.
Qed.

Lemma string_leb_trans (a b c : string) :
  String.leb a b = true -> String.leb b c = true -> String.leb a c = true.
Proof.
  rewrite !string_leb_lt_or_eq. intros [H1| ->] [H2| ->]; auto.
  left. eapply string_compare_lt_trans; eassumption.
Qed.

Lemma insert_by_date_perm (it : CacheItem) (l : list CacheItem) :
  Permutation (insert_by_date it l) (it :: l).
Proof.
  induction l as [|x l IH]; simpl; [reflexivity|].
  destruct (String.leb (ci_date it) (ci_date x)); [reflexivity|].
  rewrite IH. apply perm_swap.
Qed.

(** Sorting keeps the items. *)
Lemma sort_by_date_perm (l : list CacheItem) : Permutation (sort_by_date l) l.
Proof.
  induction l as [|x l IH]; simpl; [reflexivity|].
  now rewrite insert_by_date_perm, IH.
Qed.

Lemma insert_by_date_sorted (it : CacheItem) (l : list CacheItem) :
  dates_nondecreasing l -> dates_nondecreasing (insert_by_date it l).
Proof.
  unfold dates_nondecreasing. induction l as [|x l IH]; simpl; intros H.
  - repeat constructor.
  - destruct (String.leb (ci_date it) (ci_date x)) eqn:E.
    + constructor; [exact H|]. now constructor.
    + inversion H as [|? ? Hl Hx]; subst.
      constructor; [now apply IH|].
      assert (X : String.leb (ci_date x) (ci_date it) = true).
      { destruct (String.leb_total (ci_date x) (ci_date it)); congruence. }
      destruct l as [|y l]; simpl.
      * now constructor.
      * destruct (String.leb (ci_date it) (ci_date y)); constructor;
          [exact X | now inversion Hx].
Qed.

Lemma sort_by_date_sorted (l : list CacheItem) :
  dates_nondecreasing (sort_by_date l).
Proof.
  induction l as [|x l IH]; simpl; [constructor|].
  now apply insert_by_date_sorted.
Qed.


(** ** Batches *)

Lemma length_chunks_aux {A} (n : nat) (cur : list A) (room : nat) (l : list A) :
  (length cur + room = n)%nat ->
  length (chunks_aux n cur room l)
  = ((length cur + length l + n) / S n)%nat.
Proof.
  revert cur room. induction l as [|x l IH]; intros cur room H.
  - destruct cur as [|c cur]; cbn -[Nat.div] in *.
    + symmetry. apply Nat.div_small. lia.
    + apply (Nat.div_unique _ _ 1 (length cur)); lia.
  - destruct room as [|k]; cbn -[Nat.div] in *.
    + rewrite (IH [] n) by reflexivity. cbn -[Nat.div].
      replace (length cur + S (length l) + n)%nat
        with (1 * S n + (length l + n))%nat by lia.
      now rewrite Nat.div_add_l by lia.
    + rewrite (IH (x :: cur) k) by (simpl; lia). cbn -[Nat.div]. f_equal. lia.
Qed.

Lemma length_chunks100 {A} (l : list A) :
  length (chunks100 l) = ((length l + 99) / 100)%nat.
Proof. unfold chunks100. now rewrite (length_chunks_aux 99 [] 99). Qed.

Section WriteRuns.

Variable env : Env.

(** How a run of flushes ends: [k] groups were written, and either all of
    them were, or the transport failed on group [k]. *)
Lemma flush_all_run (groups : list (list CacheItem)) (st st' : State)
  (r : result unit) :
  flush_all env groups st = (st', r) ->
  exists k,
    (forall i, (i < k)%nat -> store_fault env (length (trace st) + i) = None)
    /\ table st' = put_all (concat (take k groups)) (table st)
    /\ clock st' = clock st
    /\ match r with
       | Ok _ =>
           k = length groups
           /\ trace st' = trace st ++ map EvBatchWriteItem groups
       | Raise e =>
           (k < length groups)%nat
           /\ exists detail,
                e = StoreError detail
                /\ store_fault env (length (trace st) + k) = Some detail
                /\ trace st' = trace st ++ map EvBatchWriteItem (take (S k) groups)
       end.
Proof.
  revert st. induction groups as [|g groups IH]; intros st; simpl.
  - intros [= <- <-]. exists 0%nat. repeat split; try lia.
    now rewrite app_nil_r.
  - unfold mbind, M_bind. rewrite batch_write_item_eq. cbv zeta.
    destruct (store_fault env (length (trace st))) as [detail|] eqn:F.
    + intros [= <- <-]. exists 0%nat. split; [lia|]. repeat split; simpl; try lia.
      exists detail. rewrite Nat.add_0_r. repeat split. exact F.
    + intros H. apply IH in H as (k & Hno & Ht & Hc & Hr).
      cbn [table clock trace] in *. rewrite length_app in *. simpl in *.
      exists (S k). split; [|split; [|split]].
      * intros [|i] Hi; [now rewrite Nat.add_0_r|].
        replace (length (trace st) + S i)%nat
          with (length (trace st) + 1 + i)%nat by lia.
        apply Hno. lia.
      * rewrite Ht. simpl. unfold put_all. now rewrite fold_left_app.
      * exact Hc.
      * destruct r as [u|e].
        -- destruct Hr as [-> ->]. split; [reflexivity|].
           now rewrite <- app_assoc.
        -- destruct Hr as (Hk & d & -> & Hf & Htr). split; [lia|].
           exists d. split; [reflexivity|]. split.
           ++ replace (length (trace st) + S k)%nat
                with (length (trace st) + 1 + k)%nat by lia. exact Hf.
           ++ rewrite Htr. now rewrite <- app_assoc.
Qed.

End WriteRuns.

(** X8. A batch write that fails is not undone: the groups before the
    failing one stay written, the failing group and the groups after it are
    not written, and the error raised is the transport's. *)
Theorem batch_put_stocks_partial (env : Env) (items : list Item)
  (st st' : State) (e : exn) :
  batch_put_stocks env items st = (st', Raise e) ->
  let groups := chunks (map (make_cache_item (clock st)) items) in
  exists k detail,
    (k < length groups)%nat
    /\ e = StoreError detail
    /\ store_fault env (length (trace st) + k) = Some detail
    /\ (forall i, (i < k)%nat -> store_fault env (length (trace st) + i) = None)
    /\ table st' = put_all (concat (take k groups)) (table st)
    /\ trace st' = trace st ++ map EvBatchWriteItem (take (S k) groups).
Proof.
  intros H groups. destruct items as [|i items]; [discriminate|].
  unfold batch_put_stocks, log_and_reraise, batch_writer, try_except,
    mbind, M_bind, get_state, raise in H.
  fold groups in H.
  destruct (flush_all env groups st) as [s1 [[]|e1]] eqn:F; [discriminate|].
  injection H as <- <-.
  apply flush_all_run in F as (k & Hno & Ht & _ & Hk & d & -> & Hf & Htr).
  exists k, d. repeat split; assumption.
Qed.

Lemma batch_put_stocks_partial_witness :
  let run := batch_put_stocks env_second_call_fails january_items st_empty in
  run.2 = Raise (StoreError "ProvisionedThroughputExceededException")
  /\ length (table run.1) = 25%nat
  /\ exists k detail,
       (k < 2)%nat
       /\ store_fault env_second_call_fails (length (trace st_empty) + k)
          = Some detail.
Proof.
  intros run. split; [reflexivity|]. split; [reflexivity|].
  destruct (batch_put_stocks_partial env_second_call_fails january_items
              st_empty run.1
              (StoreError "ProvisionedThroughputExceededException") eq_refl)
    as (k & detail & Hk & _ & Hf & _).
  exists k, detail. split; [exact Hk | exact Hf].
Defined.

Lemma count_key_perm (k : string * string) (l l' : list CacheItem) :
  Permutation l l' -> count_key k l = count_key k l'.
Proof.
  unfold count_key. induction 1 as [|x l l' _ IH|x y l|l l' l'' _ IH1 _ IH2];
    simpl; [reflexivity| | |congruence].
  - destruct (has_key k x); simpl; congruence.
  - destruct (has_key k y), (has_key k x); reflexivity.
Qed.

Lemma count_key_filter (k : string * string) (p : CacheItem -> bool)
  (l : list CacheItem) :
  (forall x, has_key k x = true -> p x = true) ->
  count_key k (List.filter p l) = count_key k l.
Proof.
  intros H. unfold count_key. induction l as [|x l IH]; simpl; [reflexivity|].
  destruct (has_key k x) eqn:E.
  - rewrite (H x E). simpl. rewrite E. simpl. now rewrite IH.
  - destruct (p x); simpl; rewrite ?E; exact IH.
Qed.

(** A query that covers a key returns the records of that key. *)
Lemma count_key_table_query (t lo hi d : string) (tbl : list CacheItem) :
  String.leb lo d = true -> String.leb d hi = true ->
  count_key (t, d) (table_query t lo hi tbl) = count_key (t, d) tbl.
Proof.
  intros H1 H2. unfold table_query.
  rewrite (count_key_perm _ _ _ (sort_by_date_perm _)).
  apply count_key_filter. intros x Hx.
  apply has_key_iff in Hx. unfold key_of in Hx. injection Hx as Ht Hd.
  unfold key_condition. now rewrite Ht, Hd, String.eqb_refl, H1, H2.
Qed.

(** X9. What a batch write stores, a range query finds: after a successful
    [batch_put_stocks], a successful query for the same ticker (in any
    letter case) over a range that contains the date of a written item
    returns exactly one record with that date. *)
Theorem batch_put_stocks_then_query (env : Env) (items : list Item)
  (ticker lo hi : string) (st st1 st2 : State) (found : list CacheItem)
  (item : Item) :
  batch_put_stocks env items st = (st1, Ok tt) ->
  query_stocks_by_date_range env ticker lo hi st1 = (st2, Ok found) ->
  In item items ->
  Str.upper (item_ticker item) = Str.upper ticker ->
  String.leb lo (item_date item) = true ->
  String.leb (item_date item) hi = true ->
  count_key (Str.upper ticker, item_date item) found = 1%nat.
Proof.
  intros Hput Hq Hin Ht Hlo Hhi.
  apply batch_put_stocks_ok in Hput as [Htab _].
  rewrite query_stocks_by_date_range_eq in Hq. cbv zeta in Hq.
  destruct (store_fault env (length (trace st1))); [discriminate|].
  injection Hq as _ <-.
  rewrite (count_key_table_query _ _ _ _ _ Hlo Hhi), Htab, <- Ht.
  rewrite <- (key_of_make_cache_item (clock st)).
  apply count_key_put_all. now apply in_map.
Qed.

Lemma batch_put_stocks_then_query_witness :
  let st1 := (batch_put_stocks env_store_up january_items st_empty).1 in
  count_key ("AAPL"%string, "2024-01-11"%string)
    (table_query "AAPL" "2024-01-10" "2024-01-12" (table st1)) = 1%nat.
Proof.
  intros st1.
  apply (batch_put_stocks_then_query env_store_up january_items "aapl"
           "2024-01-10" "2024-01-12" st_empty st1
           (query_stocks_by_date_range env_store_up "aapl" "2024-01-10"
              "2024-01-12" st1).1
           _
           {| item_ticker := "AAPL"; item_date := "2024-01-11";
              item_priceData := [("close"%string, inject_Z 11)];
              item_metadata := None |});
    try reflexivity.
  vm_compute. tauto.
Defined.

(** ** The batch read *)

Lemma table_get_sound (k : string * string) (t : list CacheItem) (x : CacheItem) :
  table_get k t = Some x -> In x t /\ key_of x = k.
Proof.
  unfold table_get. intros H. apply find_some in H as [Hin Hk].
  split; [exact Hin | now apply has_key_iff].
Qed.

Lemma table_batch_get_sound (keys : list (string * string))
  (t : list CacheItem) (x : CacheItem) :
  In x (table_batch_get keys t) -> In x t /\ In (key_of x) keys.
Proof.
  unfold table_batch_get. intros H.
  apply list_elem_of_In, list_elem_of_omap in H as (k & Hk & Hx).
  apply table_get_sound in Hx as [Hin <-].
  split; [exact Hin | now apply list_elem_of_In].
Qed.

Lemma length_table_batch_get (keys : list (string * string))
  (t : list CacheItem) :
  (length (table_batch_get keys t) <= length keys)%nat.
Proof.
  induction keys as [|k keys IH]; [reflexivity|].
  change (table_batch_get (k :: keys) t)
    with (match table_get k t with
          | Some x => x :: table_batch_get keys t
          | None => table_batch_get keys t
          end).
  destruct (table_get k t); simpl; lia.
Qed.

Section BatchGet.

Variable sv : Services.

Lemma batch_get_loop_spec (ticker : string) (groups : list (list string))
  (acc : list CacheItem) (s s' : Session) (items : list CacheItem) :
  batch_get_loop sv ticker groups acc s = (s', Ok items) ->
  core s' = core s
  /\ length (calls s') = (length (calls s) + length groups)%nat
  /\ items
     = acc ++ table_batch_get
                (map (fun d => (Str.upper ticker, d)) (concat groups))
                (table (core s)).
Proof.
  revert acc s. induction groups as [|g groups IH]; intros acc s; simpl.
  - intros [= <- <-]. repeat split; [lia | now rewrite app_nil_r].
  - unfold mbind, M2_bind, emit2, raise2, get_session.
    destruct (read_fault sv (length (calls s))); [discriminate|].
    intros H. apply IH in H as (Hc & Hl & Hi). cbn [core calls] in *.
    rewrite length_app in Hl. simpl in Hl.
    split; [exact Hc|]. split; [lia|].
    rewrite Hi, <- app_assoc. f_equal.
    unfold table_batch_get. now rewrite map_app, omap_app.
Qed.

End BatchGet.

(** X10. [batch_get_stocks] with no dates returns the empty list without
    touching the table service. With n dates, a read that succeeds makes
    n/100 (rounded up) [BatchGetItem] calls, leaves the table as it is,
    returns at most n items, and every item it returns is stored under the
    uppercased ticker with one of the requested dates. *)
Theorem batch_get_stocks_reads (sv : Services) (ticker : string) (s : Session) :
  batch_get_stocks sv ticker [] s = (s, Ok [])
  /\ forall dates s' items,
       batch_get_stocks sv ticker dates s = (s', Ok items) ->
       core s' = core s
       /\ length (calls s') = (length (calls s) + (length dates + 99) / 100)%nat
       /\ (length items <= length dates)%nat
       /\ forall x, In x items ->
            In x (table (core s)) /\ ci_ticker x = Str.upper ticker
            /\ In (ci_date x) dates.
Proof.
  split; [reflexivity|]. intros dates s' items H.
  destruct dates as [|d dates].
  { injection H as <- <-. repeat split; try (simpl; lia); destruct H. }
  set (ds := d :: dates) in *.
  unfold batch_get_stocks in H. subst ds. cbv iota beta in H.
  set (ds := d :: dates) in *.
  unfold try_except2 in H.
  destruct (batch_get_loop sv ticker (chunks100 ds) [] s) as [s1 [its|e]] eqn:L;
    [|discriminate].
  injection H as <- <-.
  apply batch_get_loop_spec in L as (Hc & Hl & Hi).
  unfold chunks100 in Hi. rewrite concat_chunks_aux in Hi. cbn [rev app] in Hi.
  rewrite length_chunks100 in Hl.
  split; [exact Hc|]. split; [exact Hl|]. subst its. split.
  - etransitivity; [apply length_table_batch_get|]. now rewrite length_map.
  - intros x Hx. apply table_batch_get_sound in Hx as [Hin Hk].
    split; [exact Hin|].
    apply in_map_iff in Hk as (d' & Hk & Hd). unfold key_of in Hk.
    injection Hk as <- <-. split; [reflexivity | exact Hd].
Qed.

Lemma batch_get_stocks_reads_witness :
  let s := session_of st_five_cached in
  let run := batch_get_stocks (services_of env_store_up) "aapl"
               ["2024-01-15"; "2024-02-01"; "2024-01-19"]%string s in
  map ci_date (match run.2 with Ok l => l | Raise _ => [] end)
  = ["2024-01-15"; "2024-01-19"]%string
  /\ length (calls run.1) = 1%nat.
Proof.
  intros s run. split; [reflexivity|].
  destruct (batch_get_stocks_reads (services_of env_store_up) "aapl" s)
    as [_ H].
  destruct (H ["2024-01-15"; "2024-02-01"; "2024-01-19"]%string run.1
              (match run.2 with Ok l => l | Raise _ => [] end) eq_refl)
    as (_ & Hl & _).
  exact Hl.
Defined.
(** ** The retry loop around the upstream fetch *)

Lemma retry_loop_step {A} (func : M A) (k : nat) (attempt : Z)
  (last : option exn) (st : State) :
  retry_loop func (S k) attempt last st
  = match func st with
    | (st', Ok a) => (st', Ok a)
    | (st', Raise e) =>
        if no_retry e then (st', Raise e)
        else
          retry_loop func k (attempt + 1) (Some e)
            (if attempt <? MAX_RETRIES
             then (time_sleep (BACKOFF_BASE ^ (attempt + 1)) st').1
             else st')
    end.
Proof.
  simpl. unfold try_except. destruct (func st) as [st' [a|e]]; [reflexivity|].
  destruct (no_retry e); [reflexivity|].
  unfold mbind, M_bind. now destruct (attempt <? MAX_RETRIES).
Qed.

Ltac settle_attempt n s0 E :=
  exists n; cbn; rewrite ?app_nil_r; repeat split;
  try lia; try (now rewrite <- ?app_assoc);
  try (exists s0; split; [|split];
       [ cbn; rewrite ?length_app; cbn; lia
       | intros; first [reflexivity | discriminate]
       | now rewrite E ]);
  try (left; assumption); try (right; reflexivity);
  try (intros; first [reflexivity | congruence]).

Ltac next_attempt Hf n a b a' d :=
  rewrite retry_loop_step;
  change (a <? MAX_RETRIES) with b;
  change (BACKOFF_BASE ^ (a + 1)) with d;
  change (a + 1) with a';
  match goal with
  | |- context [match ?func ?s with (_, _) => _ end] =>
      let F := fresh "F" in
      let s' := fresh "s'" in
      let E := fresh "E" in
      pose proof (Hf s) as F;
      destruct (func s) as [s' [?|?]] eqn:E; cbn [fst] in F; subst s';
      [ settle_attempt n s E
      | match goal with
        | |- context [no_retry ?e] =>
            let N := fresh "N" in
            destruct (no_retry e) eqn:N;
            [ settle_attempt n s E
            | cbn -[retry_loop] ]
        end ]
  end.

(** The decorator around a function that makes one call [ev] and leaves
    everything else as it is. *)
Lemma retry_with_backoff_run {A} (func : M A) (ev : Event) :
  (forall st, (func st).1 = after_call ev st) ->
  forall st,
    let run := retry_with_backoff func st in
    exists attempts : nat,
      (1 <= attempts <= 4)%nat
      /\ trace run.1 = trace st ++ firstn (2 * attempts - 1) (retry_schedule ev)
      /\ table run.1 = table st
      /\ time_ms (clock run.1)
         = time_ms (clock st) + 1000 * (2 ^ Z.of_nat attempts - 2)
      /\ (exists st0,
            length (trace st0) = (length (trace st) + 2 * (attempts - 1))%nat
            /\ (attempts = 1%nat -> st0 = st)
            /\ (func st0).2 = run.2)
      /\ (final run.2 \/ attempts = 4%nat)
      /\ (final (func st).2 -> attempts = 1%nat).
Proof.
  intros Hf st run. subst run. unfold retry_with_backoff, final.
  change (Z.to_nat (MAX_RETRIES + 1)) with 4%nat.
  next_attempt Hf 1%nat 0 true 1 2.
  next_attempt Hf 2%nat 1 true 2 4.
  next_attempt Hf 3%nat 2 true 3 8.
  next_attempt Hf 4%nat 3 false 4 16.
  match goal with
  | E4 : func ?s4 = (_, Raise ?e4)
    |- context [retry_loop _ 0 _ (Some ?e4) _] => settle_attempt 4%nat s4 E4
  end.
Qed.

Lemma fetch_stock_prices_once_eq (env : Env)
  (ticker start_date end_date : string) (st : State) :
  fetch_stock_prices_once env ticker start_date end_date st
  = (after_call (EvHistory ticker start_date end_date) st,
     prices_outcome ticker
       (yf_history env (length (trace st)) ticker start_date end_date)).
Proof.
  unfold fetch_stock_prices_once, mbind, M_bind, emit, after_call,
    prices_outcome.
  destruct (yf_history env (length (trace st)) ticker start_date end_date)
    as [hist|detail]; [|reflexivity].
  now destruct (df_empty hist).
Qed.

(** [fetch_stock_prices]: the tries, and the outcome of the last one. *)
Lemma fetch_stock_prices_run (env : Env)
  (ticker start_date end_date : string) (st : State) :
  let run := fetch_stock_prices env ticker start_date end_date st in
  exists attempts : nat,
    (1 <= attempts <= 4)%nat
    /\ trace run.1
       = trace st ++ firstn (2 * attempts - 1)
                       (retry_schedule (EvHistory ticker start_date end_date))
    /\ table run.1 = table st
    /\ time_ms (clock run.1)
       = time_ms (clock st) + 1000 * (2 ^ Z.of_nat attempts - 2)
    /\ run.2
       = prices_outcome ticker
           (yf_history env (length (trace st) + 2 * (attempts - 1))
              ticker start_date end_date)
    /\ (final run.2 \/ attempts = 4%nat)
    /\ (final (prices_outcome ticker
                 (yf_history env (length (trace st)) ticker start_date
                    end_date)) ->
        attempts = 1%nat).
Proof.
  intros run. subst run. unfold fetch_stock_prices.
  destruct (retry_with_backoff_run
              (fetch_stock_prices_once env ticker start_date end_date)
              (EvHistory ticker start_date end_date)
              (fun s0 => f_equal fst
                 (fetch_stock_prices_once_eq env ticker start_date end_date s0))
              st)
    as (n & Hn & Htr & Htab & Htime & (s0 & Hs0 & _ & Hr) & Hstop & Hfirst).
  exists n. rewrite fetch_stock_prices_once_eq in Hr, Hfirst.
  cbn [snd] in Hr, Hfirst. rewrite Hs0 in Hr.
  repeat split; try lia; try assumption. now symmetry.
Qed.

(** X11. [fetch_stock_prices] makes between one and four calls to yfinance,
    sleeping 2, 4 and 8 seconds between them and never after the last, so
    it waits 14 seconds at most; it leaves the table alone. It returns a
    frame that is not empty, or raises the 404 of an empty frame, or the
    500 of a failed call once the fourth call has failed. A first answer
    that is a frame, empty or not, ends it after that one call: an unknown
    symbol is not asked for again. *)
Theorem fetch_stock_prices_schedule (env : Env)
  (ticker start_date end_date : string) (st : State) :
  let run := fetch_stock_prices env ticker start_date end_date st in
  exists attempts : nat,
    (1 <= attempts <= 4)%nat
    /\ trace run.1
       = trace st ++ firstn (2 * attempts - 1)
                       (retry_schedule (EvHistory ticker start_date end_date))
    /\ table run.1 = table st
    /\ time_ms (clock run.1)
       = time_ms (clock st) + 1000 * (2 ^ Z.of_nat attempts - 2)
    /\ match run.2 with
       | Ok df => df_empty df = false
       | Raise ex =>
           ex = APIError ("Ticker '" ++ ticker
                          ++ "' not found or no data available") 404
           \/ attempts = 4%nat
              /\ exists detail,
                   ex = APIError ("Failed to fetch stock prices: " ++ detail)
                          500
       end
    /\ forall hist,
         yf_history env (length (trace st)) ticker start_date end_date
         = YfFrame hist ->
         attempts = 1%nat.
Proof.
  intros run.
  destruct (fetch_stock_prices_run env ticker start_date end_date st)
    as (n & Hn & Htr & Htab & Htime & Hr & Hstop & Hfirst).
  fold run in Htr, Htab, Htime, Hr, Hstop.
  exists n. split; [exact Hn|]. split; [exact Htr|]. split; [exact Htab|].
  split; [exact Htime|]. split.
  - rewrite Hr in Hstop |- *. unfold prices_outcome in *.
    destruct (yf_history env _ ticker start_date end_date) as [hist|detail].
    + destruct (df_empty hist) eqn:E; [now left | exact E].
    + right. destruct Hstop as [Hstop | Hstop]; [discriminate Hstop|].
      split; [exact Hstop | now exists detail].
  - intros hist Hh. apply Hfirst. rewrite Hh. unfold prices_outcome, final.
    now destruct (df_empty hist).
Qed.
(** ** The single-symbol pipeline and the table *)

Section PricesFacts.

Variable env : Env.


Lemma handle_prices_request_eq (ticker start_date : string)
  (end_date : option string) (st : State) :
  handle_prices_request env ticker start_date end_date st
  = let eff := str_or end_date (Calendar.strftime_ymd (now (clock st))) in
    let items := table_query (Str.upper ticker) start_date eff (table st) in
    let st1 := after_call (EvQuery (Str.upper ticker) start_date eff) st in
    match store_fault env (length (trace st)) with
    | Some _ => fallback env ticker start_date eff st1
    | None =>
        match Calendar.strptime_ymd start_date, Calendar.strptime_ymd eff with
        | Some s, Some e =>
            let rate := cache_hit_rate (length items) (expected_for_range s e) in
            if sufficient rate items then
              (st1, Ok {| data := FromCache (map cached_record (sort_by_date items));
                          cached := true; cacheHitRate := rate |})
            else
              match fetch_stock_prices env ticker start_date eff st1 with
              | (st2, Ok df) =>
                  let records := transform_history_to_tiingo df ticker in
                  ((write_back env ticker records st2).1,
                   Ok {| data := Fresh records; cached := false;
                         cacheHitRate := rate |})
              | (st2, Raise ex) => (st2, Raise ex)
              end
        | _, _ => fallback env ticker start_date eff st1
        end
    end.
Proof.
  cbv zeta.
  set (eff := str_or end_date _).
  destruct (store_fault env (length (trace st))) as [detail|] eqn:Hs.
  { unfold handle_prices_request, fallback.
    unfold mbind at 1. unfold M_bind at 1. unfold get_state at 1.
    fold eff. unfold try_except.
    unfold mbind at 1. unfold M_bind at 1.
    rewrite query_stocks_by_date_range_eq. cbv zeta. rewrite Hs.
    cbn [is_APIError]. unfold mbind, M_bind, mret, M_ret, after_call.
    now destruct (fetch_stock_prices _ _ _ _ _) as [s2 [df|e2]]. }
  destruct (Calendar.strptime_ymd start_date) as [s|] eqn:Hstart;
    [destruct (Calendar.strptime_ymd eff) as [e|] eqn:Hend|].
  - now apply handle_prices_request_queried.
  - unfold handle_prices_request, fallback.
    unfold mbind at 1. unfold M_bind at 1. unfold get_state at 1.
    fold eff. unfold try_except.
    unfold mbind at 1. unfold M_bind at 1.
    rewrite query_stocks_by_date_range_eq. cbv zeta. rewrite Hs.
    unfold strptime. rewrite Hstart, Hend.
    unfold mbind at 1. unfold M_bind at 1. unfold mret at 1. unfold M_ret at 1.
    unfold mbind at 1. unfold M_bind at 1. unfold raise at 1.
    cbn [is_APIError]. unfold mbind, M_bind, mret, M_ret, after_call.
    now destruct (fetch_stock_prices _ _ _ _ _) as [s2 [df|e2]].
  - unfold handle_prices_request, fallback.
    unfold mbind at 1. unfold M_bind at 1. unfold get_state at 1.
    fold eff. unfold try_except.
    unfold mbind at 1. unfold M_bind at 1.
    rewrite query_stocks_by_date_range_eq. cbv zeta. rewrite Hs.
    unfold strptime. rewrite Hstart.
    unfold mbind at 1. unfold M_bind at 1. unfold raise at 1.
    cbn [is_APIError]. unfold mbind, M_bind, mret, M_ret, after_call.
    now destruct (fetch_stock_prices _ _ _ _ _) as [s2 [df|e2]].
Qed.

Lemma batch_put_stocks_run (items : list Item) (st : State) :
  exists l,
    table (batch_put_stocks env items st).1 = put_all l (table st)
    /\ incl l (map (make_cache_item (clock st)) items).
Proof.
  destruct items as [|i items]; [exists []; split; [reflexivity | easy]|].
  unfold batch_put_stocks, log_and_reraise, batch_writer, try_except.
  unfold mbind at 1. unfold M_bind at 1. unfold get_state at 1.
  set (cis := map _ (i :: items)).
  destruct (flush_all env (chunks cis) st) as [st' r] eqn:F.
  apply flush_all_run in F as (k & _ & Ht & _).
  exists (concat (take k (chunks cis))). split.
  - destruct r; exact Ht.
  - intros x Hx. rewrite <- (concat_chunks cis).
    rewrite <- (take_drop k (chunks cis)), concat_app.
    apply in_or_app. now left.
Qed.

Lemma write_back_run (ticker : string) (records : list PriceRecord)
  (st : State) :
  exists l,
    table (write_back env ticker records st).1 = put_all l (table st)
    /\ Forall (fun x => ci_ticker x = Str.upper ticker) l.
Proof.
  destruct records as [|r records];
    [exists []; split; [reflexivity | constructor]|].
  unfold write_back, try_except.
  destruct (batch_put_stocks_run (map (cache_item_of ticker) (r :: records)) st)
    as (l & Ht & Hl).
  exists l. split.
  - destruct (batch_put_stocks env _ st) as [st' [[]|e]]; exact Ht.
  - apply List.Forall_forall. intros x Hx. apply Hl in Hx.
    apply in_map_iff in Hx as (it & <- & Hit).
    apply in_map_iff in Hit as (rec & <- & _).
    reflexivity.
Qed.

End PricesFacts.

Lemma table_get_put_all_other (t : string) (l : list CacheItem)
  (k : string * string) (tbl : list CacheItem) :
  Forall (fun x => ci_ticker x = t) l -> k.1 <> t ->
  table_get k (put_all l tbl) = table_get k tbl.
Proof.
  intros Hl Hk. revert tbl. induction Hl as [|x l Hx _ IH]; intros tbl;
    [reflexivity|].
  unfold put_all. simpl. fold (put_all l (table_put x tbl)).
  rewrite IH, table_get_table_put.
  destruct (has_key k x) eqn:E; [|reflexivity].
  apply has_key_iff in E. subst k. now destruct Hk.
Qed.

Lemma filter_table_put_other (t : string) (p : CacheItem -> bool)
  (x : CacheItem) (tbl : list CacheItem) :
  (forall y, p y = true -> ci_ticker y = t) -> ci_ticker x <> t ->
  List.filter p (table_put x tbl) = List.filter p tbl.
Proof.
  intros Hp Hx. unfold table_put. simpl.
  destruct (p x) eqn:E; [now apply Hp in E|].
  induction tbl as [|y tbl IH]; [reflexivity|]. simpl.
  destruct (same_key y x) eqn:S; simpl.
  - destruct (p y) eqn:Py; [|exact IH].
    apply Hp in Py. unfold same_key in S.
    apply andb_true_iff in S as [S _]. apply String.eqb_eq in S. congruence.
  - destruct (p y); [f_equal|]; exact IH.
Qed.

Lemma table_query_put_all_other (t t' lo hi : string) (l tbl : list CacheItem) :
  Forall (fun x => ci_ticker x = t) l -> t' <> t ->
  table_query t' lo hi (put_all l tbl) = table_query t' lo hi tbl.
Proof.
  intros Hl Ht. revert tbl. induction Hl as [|x l Hx _ IH]; intros tbl;
    [reflexivity|].
  unfold put_all. simpl. fold (put_all l (table_put x tbl)).
  rewrite IH. unfold table_query. f_equal.
  apply (filter_table_put_other t'); [|congruence].
  intros y Hy. unfold key_condition in Hy.
  apply andb_true_iff in Hy as [Hy _]. apply andb_true_iff in Hy as [Hy _].
  now apply String.eqb_eq in Hy.
Qed.

Lemma table_get_put_all_stays (l : list CacheItem) (k : string * string)
  (tbl : list CacheItem) :
  table_get k tbl <> None -> table_get k (put_all l tbl) <> None.
Proof.
  revert tbl. induction l as [|x l IH]; intros tbl H; [exact H|].
  unfold put_all. simpl. fold (put_all l (table_put x tbl)).
  apply IH. rewrite table_get_table_put. now destruct (has_key k x).
Qed.

(** The table after a prices request: the table before, with some items of
    the requested symbol put; none when the answer came from the cache or
    the request failed. *)
Lemma handle_prices_request_table (env : Env) (ticker start_date : string)
  (end_date : option string) (st : State) :
  let run := handle_prices_request env ticker start_date end_date st in
  exists l,
    table run.1 = put_all l (table st)
    /\ Forall (fun x => ci_ticker x = Str.upper ticker) l
    /\ match run.2 with
       | Ok r => cached r = true -> l = []
       | Raise _ => l = []
       end.
Proof.
  intros run. subst run. rewrite handle_prices_request_eq. cbv zeta.
  set (eff := str_or end_date _).
  set (st1 := after_call _ st).
  assert (Hfb : exists l,
             table (fallback env ticker start_date eff st1).1
             = put_all l (table st)
             /\ Forall (fun x => ci_ticker x = Str.upper ticker) l
             /\ match (fallback env ticker start_date eff st1).2 with
                | Ok r => cached r = true -> l = []
                | Raise _ => l = []
                end).
  { unfold fallback.
    destruct (fetch_stock_prices env ticker start_date eff st1)
      as [st2 [df|ex]] eqn:F;
      apply fetch_stock_prices_spec in F as [Ht _];
      exists []; (split; [exact Ht|]); split; try constructor; easy. }
  destruct (store_fault env (length (trace st))); [exact Hfb|].
  destruct (Calendar.strptime_ymd start_date) as [s|]; [|exact Hfb].
  destruct (Calendar.strptime_ymd eff) as [e|]; [|exact Hfb].
  destruct (sufficient _ _).
  { exists []. repeat split; constructor. }
  destruct (fetch_stock_prices env ticker start_date eff st1)
    as [st2 [df|ex]] eqn:F;
    apply fetch_stock_prices_spec in F as [Ht _].
  - destruct (write_back_run env ticker (transform_history_to_tiingo df ticker) st2)
      as (l & Hl & Hf).
    exists l. cbn [fst snd cached]. rewrite Hl, Ht.
    repeat split; [exact Hf | discriminate].
  - exists []. repeat split; [exact Ht | constructor].
Qed.

(** X12. A prices request alters the cache of the requested symbol only:
    reads and range queries of any other symbol give what they gave
    before. It removes no key, and keeps the keys of the table unique. A
    request answered from the cache, and a request that fails, leave the
    table exactly as it was. *)
Theorem prices_request_touches_one_symbol (env : Env)
  (ticker start_date : string) (end_date : option string) (st : State) :
  let run := handle_prices_request env ticker start_date end_date st in
  (forall t d, t <> Str.upper ticker ->
     table_get (t, d) (table run.1) = table_get (t, d) (table st))
  /\ (forall t lo hi, t <> Str.upper ticker ->
        table_query t lo hi (table run.1) = table_query t lo hi (table st))
  /\ (forall k, table_get k (table st) <> None ->
        table_get k (table run.1) <> None)
  /\ (keys_unique (table st) -> keys_unique (table run.1))
  /\ match run.2 with
     | Ok r => cached r = true -> table run.1 = table st
     | Raise _ => table run.1 = table st
     end.
Proof.
  intros run.
  destruct (handle_prices_request_table env ticker start_date end_date st)
    as (l & Ht & Hl & Hr).
  fold run in Ht, Hr. rewrite Ht. repeat split.
  - intros t d Hne. now apply (table_get_put_all_other (Str.upper ticker)).
  - intros t lo hi Hne. now apply (table_query_put_all_other (Str.upper ticker)).
  - intros k. apply table_get_put_all_stays.
  - apply keys_unique_put_all.
  - destruct run.2 as [r|ex]; [intros Hc; rewrite (Hr Hc) | rewrite Hr];
      reflexivity.
Qed.
(** ** The retry loop around the metadata lookup and the search *)

Lemma retry_loop2_step {A} (func : M2 A) (k : nat) (attempt : Z)
  (last : option exn) (s : Session) :
  retry_loop2 func (S k) attempt last s
  = match func s with
    | (s', Ok a) => (s', Ok a)
    | (s', Raise e) =>
        if no_retry e then (s', Raise e)
        else
          retry_loop2 func k (attempt + 1) (Some e)
            (if attempt <? MAX_RETRIES
             then (lift (time_sleep (BACKOFF_BASE ^ (attempt + 1))) s').1
             else s')
    end.
Proof.
  simpl. unfold try_except2. destruct (func s) as [s' [a|e]]; [reflexivity|].
  destruct (no_retry e); [reflexivity|].
  unfold mbind, M2_bind. now destruct (attempt <? MAX_RETRIES).
Qed.

Ltac settle_attempt2 n s0 E :=
  exists n; cbn; rewrite ?app_nil_r; repeat split;
  try lia; try (now rewrite <- ?app_assoc);
  try (exists s0; split; [|split];
       [ cbn; now rewrite <- ?app_assoc
       | intros; first [reflexivity | discriminate]
       | now rewrite E ]);
  try (left; first [assumption | exact I]); try (right; reflexivity);
  try (intros; first [reflexivity | congruence]).

Ltac next_attempt2 Hf n a b a' d :=
  rewrite retry_loop2_step;
  change (a <? MAX_RETRIES) with b;
  change (BACKOFF_BASE ^ (a + 1)) with d;
  change (a + 1) with a';
  match goal with
  | |- context [match ?func ?s with (_, _) => _ end] =>
      let F := fresh "F" in
      let s' := fresh "s'" in
      let E := fresh "E" in
      pose proof (Hf s) as F;
      destruct (func s) as [s' [?|?]] eqn:E; cbn [fst] in F; subst s';
      [ settle_attempt2 n s E
      | match goal with
        | |- context [no_retry ?e] =>
            let N := fresh "N" in
            destruct (no_retry e) eqn:N;
            [ settle_attempt2 n s E
            | cbn -[retry_loop2] ]
        end ]
  end.

Lemma retry_with_backoff2_run {A} (func : M2 A) (c : Call) :
  (forall s, (func s).1 = add_call c s) ->
  forall s,
    let run := retry_with_backoff2 func s in
    exists attempts : nat,
      (1 <= attempts <= 4)%nat
      /\ calls run.1 = calls s ++ repeat c attempts
      /\ trace (core run.1)
         = trace (core s)
           ++ firstn (attempts - 1) [EvSleep 2; EvSleep 4; EvSleep 8]
      /\ table (core run.1) = table (core s)
      /\ time_ms (clock (core run.1))
         = time_ms (clock (core s)) + 1000 * (2 ^ Z.of_nat attempts - 2)
      /\ (exists s0,
            calls s0 = calls s ++ repeat c (attempts - 1)
            /\ (attempts = 1%nat -> s0 = s)
            /\ (func s0).2 = run.2)
      /\ (final run.2 \/ attempts = 4%nat)
      /\ (final (func s).2 -> attempts = 1%nat)
      /\ (attempts = 1%nat -> run.1 = add_call c s).
Proof.
  intros Hf s run. subst run. unfold retry_with_backoff2, final.
  change (Z.to_nat (MAX_RETRIES + 1)) with 4%nat.
  next_attempt2 Hf 1%nat 0 true 1 2.
  next_attempt2 Hf 2%nat 1 true 2 4.
  next_attempt2 Hf 3%nat 2 true 3 8.
  next_attempt2 Hf 4%nat 3 false 4 16.
  match goal with
  | E4 : func ?s4 = (_, Raise ?e4)
    |- context [retry_loop2 _ 0 _ (Some ?e4) _] => settle_attempt2 4%nat s4 E4
  end.
Qed.
(** ** The metadata lookup *)

Section MetadataFacts.

Variable sv : Services.

Lemma fetch_symbol_metadata_once_eq (ticker : string) (s : Session) :
  fetch_symbol_metadata_once sv ticker s
  = (add_call (CallInfo ticker) s,
     metadata_outcome ticker (yf_info sv (length (calls s)) ticker)).
Proof.
  unfold fetch_symbol_metadata_once, mbind, M2_bind, emit2, add_call,
    metadata_outcome.
  destruct (yf_info sv (length (calls s)) ticker) as [info|detail];
    [|reflexivity].
  destruct info as [|f info]; [reflexivity|].
  cbn [truthy negb orb]. now destruct (lacks_market_price (f :: info)).
Qed.

(** [fetch_symbol_metadata]: the tries, and the outcome of the last one. *)
Lemma fetch_symbol_metadata_run (ticker : string) (s : Session) :
  let run := fetch_symbol_metadata sv ticker s in
  exists attempts : nat,
    (1 <= attempts <= 4)%nat
    /\ calls run.1 = calls s ++ repeat (CallInfo ticker) attempts
    /\ trace (core run.1)
       = trace (core s)
         ++ firstn (attempts - 1) [EvSleep 2; EvSleep 4; EvSleep 8]
    /\ table (core run.1) = table (core s)
    /\ run.2
       = metadata_outcome ticker
           (yf_info sv (length (calls s) + attempts - 1) ticker)
    /\ (final run.2 \/ attempts = 4%nat)
    /\ (final (metadata_outcome ticker (yf_info sv (length (calls s)) ticker)) ->
        attempts = 1%nat)
    /\ (attempts = 1%nat -> run.1 = add_call (CallInfo ticker) s).
Proof.
  intros run. subst run. unfold fetch_symbol_metadata.
  destruct (retry_with_backoff2_run (fetch_symbol_metadata_once sv ticker)
              (CallInfo ticker)
              (fun s0 => f_equal fst (fetch_symbol_metadata_once_eq ticker s0)) s)
    as (n & Hn & Hc & Ht & Htab & _ & (s0 & Hs0 & _ & Hr) & Hstop & Hfirst
        & Hone).
  exists n. rewrite fetch_symbol_metadata_once_eq in Hr, Hfirst.
  cbn [snd] in Hr, Hfirst.
  rewrite Hs0, length_app, repeat_length in Hr.
  replace (length (calls s) + (n - 1))%nat
    with (length (calls s) + n - 1)%nat in Hr by lia.
  repeat split; try lia; try assumption. now symmetry.
Qed.

End MetadataFacts.

(** X13. [fetch_symbol_metadata] asks yfinance between one and four
    times, sleeping 2, 4 and 8 seconds in between, and never touches the
    table. It returns the info of its last call, which then carries a
    [regularMarketPrice]; it raises 404 for an info without one (the empty
    info too), and 500 only once the fourth call has raised. An info as
    first answer, with or without a price, ends it after that one call,
    with nothing but the call recorded. *)
Theorem fetch_symbol_metadata_schedule (sv : Services) (ticker : string)
  (s : Session) :
  let run := fetch_symbol_metadata sv ticker s in
  exists attempts : nat,
    (1 <= attempts <= 4)%nat
    /\ calls run.1 = calls s ++ repeat (CallInfo ticker) attempts
    /\ trace (core run.1)
       = trace (core s)
         ++ firstn (attempts - 1) [EvSleep 2; EvSleep 4; EvSleep 8]
    /\ table (core run.1) = table (core s)
    /\ match run.2 with
       | Ok info =>
           yf_info sv (length (calls s) + attempts - 1) ticker = InfoDict info
           /\ lacks_market_price info = false
       | Raise ex =>
           (ex = APIError ("Ticker '" ++ ticker ++ "' not found") 404
            /\ exists info,
                 yf_info sv (length (calls s) + attempts - 1) ticker
                 = InfoDict info
                 /\ lacks_market_price info = true)
           \/ (attempts = 4%nat
               /\ exists detail,
                    yf_info sv (length (calls s) + attempts - 1) ticker
                    = InfoRaises detail
                    /\ ex = APIError ("Failed to fetch metadata: " ++ detail) 500)
       end
    /\ (forall info,
          yf_info sv (length (calls s)) ticker = InfoDict info ->
          attempts = 1%nat)
    /\ (attempts = 1%nat -> run.1 = add_call (CallInfo ticker) s).
Proof.
  intros run.
  destruct (fetch_symbol_metadata_run sv ticker s)
    as (n & Hn & Hc & Ht & Htab & Hr & Hstop & Hfirst & Hone).
  fold run in Hc, Ht, Htab, Hr, Hstop, Hone.
  exists n. split; [exact Hn|]. split; [exact Hc|]. split; [exact Ht|].
  split; [exact Htab|]. split; [|split; [|exact Hone]].
  - rewrite Hr in Hstop |- *. unfold metadata_outcome in *.
    destruct (yf_info sv _ ticker) as [info|detail].
    + destruct (lacks_market_price info) eqn:L.
      * left. split; [reflexivity|]. now exists info.
      * now split.
    + right. destruct Hstop as [Hstop | Hstop]; [discriminate Hstop|].
      split; [exact Hstop|]. now exists detail.
  - intros info Hi. apply Hfirst. rewrite Hi. unfold metadata_outcome, final.
    now destruct (lacks_market_price info).
Qed.
(** ** The ticker search *)

Section SearchFacts.

Variable sv : Services.

Lemma search_tickers_once_eq (query : string) (s : Session) :
  search_tickers_once sv query s
  = (add_call (CallSearch (strip query)) s,
     search_outcome (http_search sv (length (calls s)) (strip query))).
Proof.
  unfold search_tickers_once, mbind, M2_bind, emit2, add_call, search_outcome.
  destruct (http_search sv (length (calls s)) (strip query))
    as [quotes|status detail| |detail]; try reflexivity.
  now destruct (status =? 404).
Qed.

(** [search_tickers]: the tries, and the outcome of the last one. *)
Lemma search_tickers_run (query : string) (s : Session) :
  let run := search_tickers sv query s in
  exists attempts : nat,
    (1 <= attempts <= 4)%nat
    /\ calls run.1 = calls s ++ repeat (CallSearch (strip query)) attempts
    /\ trace (core run.1)
       = trace (core s)
         ++ firstn (attempts - 1) [EvSleep 2; EvSleep 4; EvSleep 8]
    /\ table (core run.1) = table (core s)
    /\ run.2
       = search_outcome
           (http_search sv (length (calls s) + attempts - 1) (strip query))
    /\ (final run.2 \/ attempts = 4%nat)
    /\ (final (search_outcome
                 (http_search sv (length (calls s)) (strip query))) ->
        attempts = 1%nat)
    /\ (attempts = 1%nat -> run.1 = add_call (CallSearch (strip query)) s).
Proof.
  intros run. subst run. unfold search_tickers.
  destruct (retry_with_backoff2_run (search_tickers_once sv query)
              (CallSearch (strip query))
              (fun s0 => f_equal fst (search_tickers_once_eq query s0)) s)
    as (n & Hn & Hc & Ht & Htab & _ & (s0 & Hs0 & _ & Hr) & Hstop & Hfirst
        & Hone).
  exists n. rewrite search_tickers_once_eq in Hr, Hfirst.
  cbn [snd] in Hr, Hfirst.
  rewrite Hs0, length_app, repeat_length in Hr.
  replace (length (calls s) + (n - 1))%nat
    with (length (calls s) + n - 1)%nat in Hr by lia.
  repeat split; try lia; try assumption. now symmetry.
Qed.

End SearchFacts.

(** X14. [search_tickers] sends the stripped query to Yahoo between one
    and four times, sleeping 2, 4 and 8 seconds in between, and never
    touches the table. Its outcome is that of its last call: the quotes of
    the answer; the empty list for an HTTP 404; an [APIError] that carries
    the HTTP status for another HTTP error; 504 for a timeout; 500
    otherwise. A timeout and a failure are only reported once the fourth
    call has failed. An answer, or a client error other than 429, as first
    outcome ends it after that one call. *)
Theorem search_tickers_schedule (sv : Services) (query : string) (s : Session) :
  let run := search_tickers sv query s in
  exists attempts : nat,
    (1 <= attempts <= 4)%nat
    /\ calls run.1 = calls s ++ repeat (CallSearch (strip query)) attempts
    /\ trace (core run.1)
       = trace (core s)
         ++ firstn (attempts - 1) [EvSleep 2; EvSleep 4; EvSleep 8]
    /\ table (core run.1) = table (core s)
    /\ match http_search sv (length (calls s) + attempts - 1) (strip query) with
       | HttpQuotes quotes => run.2 = Ok quotes
       | HttpError status detail =>
           if status =? 404 then run.2 = Ok []
           else
             run.2 = Raise (APIError ("Search failed: " ++ detail) status)
             /\ (400 <= status < 500 /\ status <> 429 \/ attempts = 4%nat)
       | HttpTimeout =>
           run.2 = Raise (APIError "Search request timed out" 504)
           /\ attempts = 4%nat
       | HttpFails detail =>
           run.2 = Raise (APIError ("Search failed: " ++ detail) 500)
           /\ attempts = 4%nat
       end
    /\ match http_search sv (length (calls s)) (strip query) with
       | HttpQuotes _ => attempts = 1%nat
       | HttpError status _ =>
           400 <= status < 500 -> status <> 429 -> attempts = 1%nat
       | _ => True
       end
    /\ (attempts = 1%nat -> run.1 = add_call (CallSearch (strip query)) s).
Proof.
  intros run.
  destruct (search_tickers_run sv query s)
    as (n & Hn & Hc & Ht & Htab & Hr & Hstop & Hfirst & Hone).
  fold run in Hc, Ht, Htab, Hr, Hstop, Hone.
  exists n. split; [exact Hn|]. split; [exact Hc|]. split; [exact Ht|].
  split; [exact Htab|]. split; [|split; [|exact Hone]].
  - rewrite Hr in Hstop |- *. unfold search_outcome in *.
    destruct (http_search sv _ (strip query)) as [quotes|status detail| |detail];
      [reflexivity | | |].
    + destruct (status =? 404) eqn:E; [reflexivity|].
      split; [reflexivity|]. destruct Hstop as [N|N]; [left | now right].
      cbn [final no_retry] in N.
      repeat (apply andb_true_iff in N as [N ?]). lia.
    + split; [reflexivity|]. destruct Hstop as [N|N]; [discriminate N | exact N].
    + split; [reflexivity|]. destruct Hstop as [N|N]; [discriminate N | exact N].
  - unfold search_outcome, final in Hfirst.
    destruct (http_search sv (length (calls s)) (strip query))
      as [quotes|status detail| |detail]; try exact I.
    + now apply Hfirst.
    + intros H1 H2. apply Hfirst.
      destruct (status =? 404); [exact I|]. cbn [no_retry].
      repeat (apply andb_true_iff; split); lia.
Qed.
(** ** The stocks endpoint *)

Lemma handle_prices_request_error (env : Env) (ticker start_date : string)
  (end_date : option string) (st st' : State) (ex : exn) :
  handle_prices_request env ticker start_date end_date st = (st', Raise ex) ->
  ex = APIError ("Ticker '" ++ ticker ++ "' not found or no data available") 404
  \/ exists detail,
       ex = APIError ("Failed to fetch stock prices: " ++ detail) 500.
Proof.
  rewrite handle_prices_request_eq. cbv zeta.
  set (eff := str_or end_date _). set (st1 := after_call _ st).
  assert (Hf : forall s2 e2,
             fetch_stock_prices env ticker start_date eff st1 = (s2, Raise e2) ->
             e2 = APIError ("Ticker '" ++ ticker
                            ++ "' not found or no data available") 404
             \/ exists detail,
                  e2 = APIError ("Failed to fetch stock prices: " ++ detail) 500).
  { intros s2 e2 F.
    destruct (fetch_stock_prices_run env ticker start_date eff st1)
      as (n & _ & _ & _ & _ & Hr & _).
    rewrite F in Hr. cbn [snd] in Hr. unfold prices_outcome in Hr.
    destruct (yf_history env _ ticker start_date eff) as [hist|detail].
    - destruct (df_empty hist); [|discriminate Hr].
      injection Hr as ->. now left.
    - injection Hr as ->. right. now exists detail. }
  assert (Hfb : fallback env ticker start_date eff st1 = (st', Raise ex) ->
                ex = APIError ("Ticker '" ++ ticker
                               ++ "' not found or no data available") 404
                \/ exists detail,
                     ex = APIError ("Failed to fetch stock prices: " ++ detail)
                            500).
  { unfold fallback.
    destruct (fetch_stock_prices env ticker start_date eff st1)
      as [s2 [df|e2]] eqn:F; [discriminate|].
    intros [= _ <-]. now apply (Hf s2). }
  destruct (store_fault env (length (trace st))); [exact Hfb|].
  destruct (Calendar.strptime_ymd start_date) as [s|]; [|exact Hfb].
  destruct (Calendar.strptime_ymd eff) as [e|]; [|exact Hfb].
  destruct (sufficient _ _); [discriminate|].
  destruct (fetch_stock_prices env ticker start_date eff st1)
    as [s2 [df|e2]] eqn:F; [discriminate|].
  intros [= _ <-]. now apply (Hf s2).
Qed.

Lemma prices_request_table_kept (env : Env) (ticker start_date : string)
  (end_date : option string) (st : State) :
  let run := handle_prices_request env ticker start_date end_date st in
  match run.2 with
  | Ok r => cached r = true -> table run.1 = table st
  | Raise _ => table run.1 = table st
  end.
Proof.
  intros run.
  destruct (handle_prices_request_table env ticker start_date end_date st)
    as (l & Ht & _ & Hr).
  fold run in Ht, Hr. rewrite Ht.
  destruct run.2 as [r|ex]; [intros Hc; rewrite (Hr Hc) | rewrite Hr];
    reflexivity.
Qed.

Lemma handle_metadata_request_run (sv : Services) (ticker : string)
  (s : Session) :
  let run := handle_metadata_request sv ticker s in
  table (core run.1) = table (core s)
  /\ match run.2 with
     | Ok r =>
         hr_cached r = false /\ hr_cacheHitRate r = None
         /\ exists info,
              hr_data r = MetadataPayload (transform_info_to_metadata info ticker)
              /\ lacks_market_price info = false
     | Raise ex =>
         ex = APIError ("Ticker '" ++ ticker ++ "' not found") 404
         \/ exists detail,
              ex = APIError ("Failed to fetch metadata: " ++ detail) 500
     end.
Proof.
  intros run. subst run. unfold handle_metadata_request, mbind, M2_bind.
  destruct (fetch_symbol_metadata_run sv ticker s)
    as (n & _ & _ & _ & Ht & Hr & _).
  unfold metadata_outcome in Hr.
  destruct (fetch_symbol_metadata sv ticker s) as [s' [info|ex]];
    cbn [fst snd] in *; (split; [exact Ht|]).
  - cbn. repeat split. exists info. split; [reflexivity|].
    destruct (yf_info sv _ ticker) as [i|d]; [|discriminate Hr].
    destruct (lacks_market_price i) eqn:L; [discriminate Hr|].
    now injection Hr as ->.
  - destruct (yf_info sv _ ticker) as [i|d].
    + destruct (lacks_market_price i); [|discriminate Hr].
      injection Hr as ->. now left.
    + injection Hr as ->. right. now exists d.
Qed.

Lemma check_price_dates_rejects (start_date end_date : option string)
  (r : ApiResponse StocksData) :
  check_price_dates start_date end_date = Some r ->
  exists message, r = api_error message 400.
Proof.
  unfold check_price_dates.
  destruct start_date as [s|]; [|intros [= <-]; eexists; reflexivity].
  destruct (Str.nonempty s); cbn [negb]; [|intros [= <-]; eexists; reflexivity].
  destruct (DATE_PATTERN_match s); cbn [negb];
    [|intros [= <-]; eexists; reflexivity].
  destruct end_date as [e|]; [|discriminate].
  destruct (Str.nonempty e); cbn [negb]; [|discriminate].
  destruct (DATE_PATTERN_match e); cbn [negb];
    [|intros [= <-]; eexists; reflexivity].
  destruct (Str.gt s e); [intros [= <-]; eexists; reflexivity | discriminate].
Qed.

Ltac rejected :=
  eexists; split; [reflexivity|]; cbn;
  repeat split; try (intros; discriminate); try (intros; reflexivity);
  auto.

(** X15. [handle_stocks_request] never raises: it answers 200, 400, 404
    or 500. A request answered with 400 has reached neither the table nor
    an upstream service. A 404 and a 500 are the upstream's, with its
    message: neither a failure of the table nor a date that cannot be
    parsed shows as an error. A ticker outside the pattern is answered
    400. A success that reports [cached] has left the table as it was. *)
Theorem stocks_request_responds (sv : Services) (params : gmap string string)
  (s : Session) :
  let run := handle_stocks_request sv params s in
  let ticker := Str.upper (default ""%string (params !! "ticker"%string)) in
  exists r,
    run.2 = Ok r
    /\ (api_status r = 200 \/ api_status r = 400 \/ api_status r = 404
        \/ api_status r = 500)
    /\ (api_status r = 400 -> run.1 = s)
    /\ (forall message, r = api_error message 404 ->
          exists rest,
            message = ("Ticker '" ++ ticker ++ "' not found" ++ rest)%string)
    /\ (forall message, r = api_error message 500 ->
          exists detail, message = ("Failed to fetch " ++ detail)%string)
    /\ (TICKER_PATTERN_match ticker = false -> api_status r = 400)
    /\ (forall payload meta,
          r = api_success payload (Some meta) -> meta_cached meta = true ->
          table (core run.1) = table (core s)).
Proof.
  intros run ticker. subst run. unfold handle_stocks_request.
  fold ticker. unfold try_except2.
  destruct (Str.nonempty ticker) eqn:Hne; cbn [negb]; [|rejected].
  destruct (TICKER_PATTERN_match ticker) eqn:Hpat; cbn [negb]; [|rejected].
  destruct (_ || _)%bool eqn:Hty; cbn [negb]; [|rejected].
  set (rt := default "prices"%string (params !! "type"%string)) in *.
  destruct (String.eqb rt "prices") eqn:Hp.
  - apply String.eqb_eq in Hp. rewrite Hp. cbn [String.eqb Ascii.eqb Bool.eqb].
    destruct (check_price_dates _ _) as [rej|] eqn:Hc.
    { apply check_price_dates_rejects in Hc as [m ->]. rejected. }
    unfold mbind, M2_bind, lift, mret, M2_ret, get_session.
    pose proof (handle_prices_request_error (prices_env sv) ticker
                  (default ""%string (params !! "startDate"%string))
                  (params !! "endDate"%string) (core s)) as He.
    pose proof (prices_request_table_kept (prices_env sv) ticker
                  (default ""%string (params !! "startDate"%string))
                  (params !! "endDate"%string) (core s)) as Hk.
    destruct (handle_prices_request _ _ _ _ _) as [st' [r|ex]].
    + eexists. split; [reflexivity|]. cbn.
      repeat split; try (intros; discriminate); auto.
      intros payload meta [= <- <-]. cbn. exact Hk.
    + destruct (He st' ex eq_refl) as [-> | [d ->]].
      * eexists. split; [reflexivity|]. cbn.
        repeat split; try (intros; discriminate); auto.
        intros m [= <-]. now exists " or no data available"%string.
      * eexists. split; [reflexivity|]. cbn.
        repeat split; try (intros; discriminate); auto.
        intros m [= <-]. now exists ("stock prices: " ++ d)%string.
  - cbn [orb] in Hty. rewrite Hty.
    unfold mbind, M2_bind, mret, M2_ret, get_session.
    pose proof (handle_metadata_request_run sv ticker s) as [Ht Hr].
    destruct (handle_metadata_request sv ticker s) as [s' [r|ex]];
      cbn [fst snd] in *.
    + eexists. split; [reflexivity|]. cbn.
      repeat split; try (intros; discriminate); auto.
    + destruct Hr as [-> | [d ->]].
      * eexists. split; [reflexivity|]. cbn.
        repeat split; try (intros; discriminate); auto.
        intros m [= <-]. now exists ""%string.
      * eexists. split; [reflexivity|]. cbn.
        repeat split; try (intros; discriminate); auto.
        intros m [= <-]. now exists ("metadata: " ++ d)%string.
Qed.
(** X16. The stocks endpoint does not see the case of the ticker
    parameter: the response and every effect of a request are those of the
    request with the ticker in capitals. *)
Theorem stocks_request_ignores_ticker_case (sv : Services)
  (params : gmap string string) (ticker : string) (s : Session) :
  handle_stocks_request sv (<["ticker"%string := ticker]> params) s
  = handle_stocks_request sv (<["ticker"%string := Str.upper ticker]> params) s.
Proof.
  unfold handle_stocks_request.
  rewrite !lookup_insert_eq. simpl (default _ (Some _)).
  rewrite upper_idempotent.
  rewrite !(lookup_insert_ne _ "ticker"%string) by discriminate.
  reflexivity.
Qed.

(** X17. A metadata request for a ticker that passes the pattern asks
    yfinance between one and four times and never reaches the table. Its
    success carries the ticker in capitals and a name that is not empty
    (the short name, else the long name, else the ticker), and reports
    [cached = false] with no hit rate. An info without a
    [regularMarketPrice] as first answer is answered 404 after that one
    call. *)
Theorem metadata_request_answers (sv : Services) (params : gmap string string)
  (s : Session) :
  let ticker := Str.upper (default ""%string (params !! "ticker"%string)) in
  let run := handle_stocks_request sv params s in
  params !! "type"%string = Some "metadata"%string ->
  TICKER_PATTERN_match ticker = true ->
  table (core run.1) = table (core s)
  /\ (exists attempts : nat,
        (1 <= attempts <= 4)%nat
        /\ calls run.1 = calls s ++ repeat (CallInfo ticker) attempts)
  /\ (forall payload meta,
        run.2 = Ok (api_success payload meta) ->
        exists m,
          payload = MetadataPayload m
          /\ md_ticker m = ticker
          /\ truthy (md_name m) = true
          /\ exists now_,
               meta = Some {| meta_cached := false; meta_cacheHitRate := None;
                              meta_timestamp := now_ |})
  /\ (forall info,
        yf_info sv (length (calls s)) ticker = InfoDict info ->
        lacks_market_price info = true ->
        run = (add_call (CallInfo ticker) s,
               Ok (api_error ("Ticker '" ++ ticker ++ "' not found") 404))).
Proof.
  intros ticker run Hty Hpat. subst run. unfold handle_stocks_request.
  fold ticker. rewrite Hty. simpl (default _ (Some _)).
  change (String.eqb "metadata" "prices") with false.
  change (String.eqb "metadata" "metadata") with true.
  cbn [orb negb].
  rewrite Hpat.
  assert (Hne : Str.nonempty ticker = true).
  { unfold TICKER_PATTERN_match in Hpat. apply andb_true_iff in Hpat as [H _].
    destruct ticker; [discriminate | reflexivity]. }
  rewrite Hne. cbn [negb].
  unfold try_except2, handle_metadata_request, mbind, M2_bind, mret, M2_ret,
    get_session.
  destruct (fetch_symbol_metadata_run sv ticker s)
    as (n & Hn & Hc & _ & Ht & Hr & _ & Hfirst & Hone).
  assert (Hlack : forall i,
             yf_info sv (length (calls s)) ticker = InfoDict i ->
             lacks_market_price i = true ->
             fetch_symbol_metadata sv ticker s
             = (add_call (CallInfo ticker) s,
                Raise (APIError ("Ticker '" ++ ticker ++ "' not found") 404))).
  { intros i Hi Hl.
    assert (n = 1%nat) as ->.
    { apply Hfirst. rewrite Hi. unfold metadata_outcome, final.
      rewrite Hl. reflexivity. }
    replace (length (calls s) + 1 - 1)%nat with (length (calls s)) in Hr by lia.
    rewrite Hi in Hr. unfold metadata_outcome in Hr. rewrite Hl in Hr.
    rewrite <- Hr, <- (Hone eq_refl).
    now destruct (fetch_symbol_metadata sv ticker s). }
  destruct (fetch_symbol_metadata sv ticker s) as [s' [info|ex]] eqn:F;
    cbn [fst snd] in *.
  - split; [exact Ht|]. split; [now exists n|]. split.
    + intros payload meta [= <- <-]. eexists. split; [reflexivity|].
      split; [apply upper_idempotent|]. split; [|eexists; reflexivity].
      unfold transform_info_to_metadata, md_name, py_or.
      destruct (truthy (get_or_null "shortName" info)) eqn:T1; [exact T1|].
      destruct (truthy (get_or_null "longName" info)) eqn:T2; [exact T2|].
      exact Hne.
    + intros i Hi Hl. specialize (Hlack i Hi Hl). discriminate Hlack.
  - assert (Hex : exists m c, ex = APIError m c).
    { unfold metadata_outcome in Hr.
      destruct (yf_info sv _ ticker) as [i|d];
        [destruct (lacks_market_price i)|]; try discriminate Hr;
        injection Hr as ->; eexists _, _; reflexivity. }
    destruct Hex as (m & c & ->). cbn [fst snd].
    split; [exact Ht|]. split; [now exists n|]. split; [discriminate|].
    intros i Hi Hl. specialize (Hlack i Hi Hl).
    injection Hlack as -> -> ->. reflexivity.
Qed.

Lemma metadata_request_answers_witness :
  (handle_stocks_request (services_of env_store_up)
     {[ "ticker"%string := "nope"%string; "type"%string := "metadata"%string ]}
     (session_of st_empty)).2
  = Ok (api_error "Ticker 'NOPE' not found" 404).
Proof.
  pose proof (metadata_request_answers (services_of env_store_up)
                {[ "ticker"%string := "nope"%string;
                   "type"%string := "metadata"%string ]}
                (session_of st_empty) eq_refl eq_refl)
    as (_ & _ & _ & H).
  now rewrite (H [] eq_refl eq_refl).
Defined.
(** ** The search endpoint *)

Lemma rstrip_idempotent (s : string) : rstrip (rstrip s) = rstrip s.
Proof.
  induction s as [|c r IH]; [reflexivity|]. simpl.
  destruct (rstrip r) as [|c' r'] eqn:E.
  - destruct (is_space c) eqn:Sp; [reflexivity|]. simpl. now rewrite Sp.
  - simpl in *. now rewrite IH.
Qed.

Lemma lstrip_head (s : string) :
  match lstrip s with
  | EmptyString => True
  | String c _ => is_space c = false
  end.
Proof.
  induction s as [|c r IH]; [exact I|]. simpl.
  destruct (is_space c) eqn:Sp; [exact IH | exact Sp].
Qed.

Lemma rstrip_head (c : ascii) (r : string) :
  is_space c = false -> exists r', rstrip (String c r) = String c r'.
Proof.
  intros Sp. simpl. destruct (rstrip r); [rewrite Sp|]; eexists; reflexivity.
Qed.

Lemma strip_idempotent (s : string) : strip (strip s) = strip s.
Proof.
  unfold strip. pose proof (lstrip_head s) as H.
  destruct (lstrip s) as [|c r]; [reflexivity|].
  destruct (rstrip_head c r H) as [r' E]. rewrite E.
  cbn [lstrip]. rewrite H, <- E. apply rstrip_idempotent.
Qed.

(** X18. [handle_search_request] never raises. A query that is empty once
    stripped, or longer than 100 characters, is answered 400 without any
    call. Every other query is sent, stripped, to the search between one
    and four times, and the table is never touched; the answer is then
    that of the last call: its quotes, transformed; the empty list when
    Yahoo answers 404; an error with the HTTP status for another HTTP
    error, 504 for a timeout, 500 for any other failure. *)
Theorem search_request_answers (sv : Services) (params : gmap string string)
  (s : Session) :
  let query := strip (default ""%string (params !! "query"%string)) in
  let run := handle_search_request sv params s in
  exists r,
    run.2 = Ok r
    /\ if negb (Str.nonempty query)
          || (MAX_QUERY_LENGTH <? String.length query)%nat
       then api_status r = 400 /\ run.1 = s
       else
         exists attempts : nat,
           (1 <= attempts <= 4)%nat
           /\ calls run.1 = calls s ++ repeat (CallSearch query) attempts
           /\ table (core run.1) = table (core s)
           /\ match http_search sv (length (calls s) + attempts - 1) query with
              | HttpQuotes quotes =>
                  r = api_success (transform_search_to_tiingo quotes) None
              | HttpError status detail =>
                  if status =? 404 then r = api_success [] None
                  else r = api_error ("Search failed: " ++ detail) status
              | HttpTimeout => r = api_error "Search request timed out" 504
              | HttpFails detail =>
                  r = api_error ("Search failed: " ++ detail) 500
              end.
Proof.
  intros query run. subst run. unfold handle_search_request. fold query.
  unfold try_except2.
  destruct (Str.nonempty query) eqn:Hne; cbn [negb orb];
    [|eexists; split; [reflexivity | now split]].
  destruct (MAX_QUERY_LENGTH <? String.length query)%nat eqn:Hlen;
    [eexists; split; [reflexivity | now split]|].
  unfold mbind, M2_bind, mret, M2_ret.
  destruct (search_tickers_run sv query s)
    as (n & Hn & Hc & _ & Ht & Hr & _).
  unfold query in Hc, Hr. rewrite strip_idempotent in Hc, Hr.
  fold query in Hc, Hr. unfold search_outcome in Hr.
  destruct (search_tickers sv query s) as [s' [quotes|ex]] eqn:F;
    cbn [fst snd] in *.
  - eexists. split; [reflexivity|]. exists n.
    split; [exact Hn|]. split; [exact Hc|]. split; [exact Ht|].
    destruct (http_search sv _ query) as [q|st d| |d]; try discriminate Hr.
    + now injection Hr as ->.
    + destruct (st =? 404); [now injection Hr as -> | discriminate Hr].
  - destruct (http_search sv _ query) as [q|st d| |d] eqn:Hs.
    + discriminate Hr.
    + destruct (st =? 404) eqn:E; [discriminate Hr|]. injection Hr as ->.
      eexists. split; [reflexivity|]. exists n. rewrite Hs, E. now repeat split.
    + injection Hr as ->.
      eexists. split; [reflexivity|]. exists n. rewrite Hs. now repeat split.
    + injection Hr as ->.
      eexists. split; [reflexivity|]. exists n. rewrite Hs. now repeat split.
Qed.
(** ** The batch endpoint, without the assumption of distinct symbols *)

Lemma normalize_tickers_ok (l : list json) (tickers : list string) :
  normalize_tickers l = inr tickers ->
  length tickers = length l
  /\ Forall (fun t => TICKER_PATTERN_match t = true /\ Str.upper t = t) tickers.
Proof.
  revert tickers. induction l as [|j l IH]; intros tickers.
  - intros [= <-]. split; [reflexivity | constructor].
  - simpl. destruct j as [| | |t| |]; try discriminate.
    destruct (TICKER_PATTERN_match (Str.upper t)) eqn:P; cbn [negb];
      [|discriminate].
    destruct (normalize_tickers l) as [r|ts]; [discriminate|].
    intros [= <-]. destruct (IH ts eq_refl) as [Hl Hf].
    split; [simpl; now rewrite Hl|].
    constructor; [|exact Hf]. split; [exact P | apply upper_idempotent].
Qed.

Lemma validate_batch_ok (body : Body) (tickers : list string)
  (start_date : string) (end_date : option string) :
  validate_batch body = inr (tickers, start_date, end_date) ->
  (1 <= length tickers <= MAX_TICKERS)%nat
  /\ Forall (fun t => TICKER_PATTERN_match t = true /\ Str.upper t = t) tickers
  /\ DATE_PATTERN_match start_date = true
  /\ match end_date with
     | Some e => DATE_PATTERN_match e = true /\ Str.gt start_date e = false
     | None => True
     end.
Proof.
  unfold validate_batch.
  destruct body as [|[| | | | |fields]]; try discriminate.
  destruct (truthy (default (JArr []) (dict_get "tickers" fields))) eqn:T;
    cbn [negb]; [|discriminate].
  destruct (default (JArr []) (dict_get "tickers" fields))
    as [| | | |l|]; try discriminate.
  destruct (MAX_TICKERS <? length l)%nat eqn:L; [discriminate|].
  destruct (normalize_tickers l) as [r|ts] eqn:N; [discriminate|].
  apply normalize_tickers_ok in N as [Hl Hf].
  destruct (truthy (default JNull (dict_get "startDate" fields)));
    cbn [negb]; [|discriminate].
  destruct (default JNull (dict_get "startDate" fields))
    as [| | |s| |]; try discriminate.
  destruct (DATE_PATTERN_match s) eqn:Ds; cbn [negb]; [|discriminate].
  assert (Hlen : (1 <= length ts <= MAX_TICKERS)%nat).
  { rewrite Hl. apply Nat.ltb_ge in L. split; [|exact L].
    destruct l; [discriminate | simpl; lia]. }
  destruct (truthy (default JNull (dict_get "endDate" fields)));
    cbn [negb].
  - destruct (default JNull (dict_get "endDate" fields))
      as [| | |e| |]; try discriminate.
    destruct (DATE_PATTERN_match e) eqn:De; cbn [negb]; [|discriminate].
    destruct (Str.gt s e) eqn:G; [discriminate|].
    intros [= <- <- <-]. repeat split; try apply Hlen; assumption.
  - intros [= <- <- <-]. repeat split; try apply Hlen; assumption.
Qed.

Ltac rej := intros [= <-]; eexists _, _; split; [reflexivity | auto].

Lemma validate_batch_rejects (body : Body) (r : Response) :
  validate_batch body = inl r ->
  exists message status_code,
    r = error_response message status_code
    /\ (status_code = 400 \/ status_code = 500).
Proof.
  unfold validate_batch, internal_server_error.
  destruct body as [|[| | | | |fields]]; try rej.
  destruct (truthy (default (JArr []) (dict_get "tickers" fields)));
    cbn [negb]; [|rej].
  destruct (default (JArr []) (dict_get "tickers" fields))
    as [| | | |l|]; try rej.
  destruct (MAX_TICKERS <? length l)%nat; [rej|].
  destruct (normalize_tickers l) as [r'|ts] eqn:N.
  { apply normalize_tickers_rejects_400 in N as [m ->]. rej. }
  destruct (truthy (default JNull (dict_get "startDate" fields)));
    cbn [negb]; [|rej].
  destruct (default JNull (dict_get "startDate" fields))
    as [| | |s| |]; try rej.
  destruct (DATE_PATTERN_match s); cbn [negb]; [|rej].
  destruct (truthy (default JNull (dict_get "endDate" fields)));
    cbn [negb]; [|discriminate].
  destruct (default JNull (dict_get "endDate" fields))
    as [| | |e| |]; try rej.
  destruct (DATE_PATTERN_match e); cbn [negb]; [|rej].
  destruct (Str.gt s e); [rej | discriminate].
Qed.

Lemma put_all_app (l1 l2 tbl : list CacheItem) :
  put_all (l1 ++ l2) tbl = put_all l2 (put_all l1 tbl).
Proof. unfold put_all. apply fold_left_app. Qed.

Lemma table_get_put_all_outside (P : string -> Prop) (l : list CacheItem)
  (k : string * string) (tbl : list CacheItem) :
  Forall (fun x => P (ci_ticker x)) l -> ~ P k.1 ->
  table_get k (put_all l tbl) = table_get k tbl.
Proof.
  intros Hl Hk. revert tbl. induction Hl as [|x l Hx _ IH]; intros tbl;
    [reflexivity|].
  unfold put_all. simpl. fold (put_all l (table_put x tbl)).
  rewrite IH, table_get_table_put.
  destruct (has_key k x) eqn:E; [|reflexivity].
  apply has_key_iff in E. subst k. now destruct Hk.
Qed.

Lemma run_pool_table (env : Env) (start_date : string)
  (end_date : option string) (tickers : list string) (st : State) :
  Forall (fun t => Str.upper t = t) tickers ->
  exists l,
    table (run_pool env start_date end_date tickers st).1
    = put_all l (table st)
    /\ Forall (fun x => In (ci_ticker x) tickers) l.
Proof.
  intros Hu. revert st. induction Hu as [|t tickers Ht _ IH]; intros st.
  - exists []. split; [reflexivity | constructor].
  - simpl. unfold mbind, M_bind, mret, M_ret.
    rewrite fetch_ticker_eq.
    destruct (handle_prices_request_table env t start_date end_date st)
      as (l1 & H1 & F1 & _).
    rewrite Ht in F1.
    assert (exists st1 o,
               match handle_prices_request env t start_date end_date st with
               | (st', Ok r) =>
                   (st', Ok {| oc_ticker := t; oc_data := Some (data r);
                               oc_error := None; oc_cached := cached r |})
               | (st', Raise (APIError message _)) =>
                   (st', Ok {| oc_ticker := t; oc_data := None;
                               oc_error := Some message; oc_cached := false |})
               | (st', Raise e) =>
                   (st', Ok {| oc_ticker := t; oc_data := None;
                               oc_error := Some (exn_str e); oc_cached := false |})
               end = (st1, Ok o)
               /\ table st1 = put_all l1 (table st)) as (st1 & o & -> & Hst1).
    { destruct (handle_prices_request env t start_date end_date st)
        as [st' [r|[m c|d|d]]]; eexists _, _; split; try reflexivity; exact H1. }
    destruct (IH st1) as (l2 & H2 & F2).
    destruct (run_pool env start_date end_date tickers st1) as [st2 [os|e]];
      cbn [fst] in *.
    + exists (l1 ++ l2). rewrite put_all_app, <- Hst1. split; [exact H2|].
      apply Forall_app. split.
      * eapply List.Forall_impl; [|exact F1]. intros x ->. now left.
      * eapply List.Forall_impl; [|exact F2]. intros x Hx. now right.
    + exists (l1 ++ l2). rewrite put_all_app, <- Hst1. split; [exact H2|].
      apply Forall_app. split.
      * eapply List.Forall_impl; [|exact F1]. intros x ->. now left.
      * eapply List.Forall_impl; [|exact F2]. intros x Hx. now right.
Qed.

Lemma fold_collect_dom (os : list Outcome) (acc : BatchBody) :
  dom (results (fold_left collect os acc))
    ∪ dom (errors (fold_left collect os acc))
  = dom (results acc) ∪ dom (errors acc)
    ∪ (list_to_set (map oc_ticker os) : gset string)
  /\ (dom (cached_flags acc) = dom (results acc) ->
      dom (cached_flags (fold_left collect os acc))
      = dom (results (fold_left collect os acc))).
Proof.
  revert acc. induction os as [|o os IH]; intros acc.
  - simpl. split; [now rewrite (right_id_L ∅ (∪)) | easy].
  - simpl. destruct (IH (collect acc o)) as [H1 H2]. split.
    + rewrite H1, collect_eq. apply set_eq. intros x.
      destruct (is_failure o); cbn [results errors];
        rewrite dom_insert_L, !elem_of_union; tauto.
    + intros Hc. apply H2. rewrite collect_eq.
      destruct (is_failure o); cbn [results cached_flags]; [exact Hc|].
      rewrite !dom_insert_L. now rewrite Hc.
Qed.

(** X19. [handle_batch_stocks_request] never raises. A request it rejects
    is answered 400 or 500 and changes nothing. A request it accepts names
    between one and ten symbols that all pass the pattern; in its answer,
    the symbols found in [results] or in [errors] are exactly the symbols
    requested, also when one symbol is named twice, and [cached] has the
    keys of [results]. The run puts items of the requested symbols only:
    reads of any other symbol are as before, and no key is removed. *)
Theorem batch_request_responds (env : Env) (body : Body) (st : State) :
  let run := handle_batch_stocks_request env body st in
  exists r,
    run.2 = Ok r
    /\ match r with
       | error_response _ status_code =>
           (status_code = 400 \/ status_code = 500) /\ run.1 = st
       | batch_response b =>
           exists tickers start_date end_date,
             validate_batch body = inr (tickers, start_date, end_date)
             /\ (1 <= length tickers <= 10)%nat
             /\ Forall (fun t => TICKER_PATTERN_match t = true) tickers
             /\ dom (results b) ∪ dom (errors b) = list_to_set tickers
             /\ dom (cached_flags b) = dom (results b)
             /\ (forall t d, ~ In t tickers ->
                   table_get (t, d) (table run.1) = table_get (t, d) (table st))
             /\ (forall k, table_get k (table st) <> None ->
                   table_get k (table run.1) <> None)
       end.
Proof.
  intros run. subst run. unfold handle_batch_stocks_request.
  destruct (validate_batch body) as [r|[[tickers start_date] end_date]] eqn:V.
  - exists r. split; [reflexivity|].
    apply validate_batch_rejects in V as (m & c & -> & Hc). now split.
  - apply validate_batch_ok in V as (Hlen & Hf & _ & _).
    unfold mbind, M_bind, mret, M_ret.
    destruct (run_pool_total env start_date end_date tickers st)
      as (st' & outs & Hrun & Hts).
    destruct (run_pool_table env start_date end_date tickers st)
      as (l & Hl & Fl).
    { eapply List.Forall_impl; [|exact Hf]. now intros t [_ H]. }
    rewrite Hrun in *. cbn [fst snd] in *.
    eexists. split; [reflexivity|].
    exists tickers, start_date, end_date. split; [reflexivity|].
    split; [exact Hlen|].
    split; [eapply List.Forall_impl; [|exact Hf]; now intros t [H _]|].
    destruct (fold_collect_dom outs empty_batch) as [Hd Hc].
    unfold aggregate. cbn [results errors cached_flags].
    split; [|split; [|split]].
    + rewrite Hd, Hts. unfold empty_batch. cbn [results errors].
      rewrite !dom_empty_L. now rewrite !(left_id_L ∅ (∪)).
    + apply Hc. reflexivity.
    + intros t d Hn. rewrite Hl.
      now apply (table_get_put_all_outside (fun x => In x tickers)).
    + intros k. rewrite Hl. apply table_get_put_all_stays.
Qed.
(** ** Dates that pass the pattern and do not exist *)

(** X20. A start or end date that [strptime] rejects does not fail a
    prices request: the cache is queried with the dates as given, the
    coverage cannot be evaluated, and the request is answered by the
    upstream fetch alone, with a hit rate of 0 and without writing the
    fetched rows back. The pattern of the endpoint lets such dates
    through, 2024-02-30 for one. *)
Theorem unparseable_date_falls_back (env : Env) (ticker start_date : string)
  (end_date : option string) (st : State) :
  let eff := str_or end_date (Calendar.strftime_ymd (now (clock st))) in
  let st1 := after_call (EvQuery (Str.upper ticker) start_date eff) st in
  let run := handle_prices_request env ticker start_date end_date st in
  Calendar.strptime_ymd start_date = None
  \/ Calendar.strptime_ymd eff = None ->
  table run.1 = table st
  /\ exists st2 outcome,
       fetch_stock_prices env ticker start_date eff st1 = (st2, outcome)
       /\ match outcome with
          | Ok df =>
              run = (st2, Ok {| data := Fresh (transform_history_to_tiingo df ticker);
                                cached := false; cacheHitRate := 0%Q |})
          | Raise ex => run = (st2, Raise ex)
          end.
Proof.
  intros eff st1 run H. subst run. rewrite handle_prices_request_eq. cbv zeta.
  fold eff. fold st1.
  assert (E : match store_fault env (length (trace st)) with
              | Some _ => fallback env ticker start_date eff st1
              | None =>
                  match Calendar.strptime_ymd start_date,
                        Calendar.strptime_ymd eff with
                  | Some s, Some e =>
                      let rate := cache_hit_rate
                                    (length (table_query (Str.upper ticker)
                                               start_date eff (table st)))
                                    (expected_for_range s e) in
                      if sufficient rate
                           (table_query (Str.upper ticker) start_date eff
                              (table st))
                      then
                        (st1, Ok {| data := FromCache
                                      (map cached_record
                                         (sort_by_date
                                            (table_query (Str.upper ticker)
                                               start_date eff (table st))));
                                    cached := true; cacheHitRate := rate |})
                      else
                        match fetch_stock_prices env ticker start_date eff st1 with
                        | (st2, Ok df) =>
                            ((write_back env ticker
                                (transform_history_to_tiingo df ticker) st2).1,
                             Ok {| data := Fresh (transform_history_to_tiingo df ticker);
                                   cached := false; cacheHitRate := rate |})
                        | (st2, Raise ex) => (st2, Raise ex)
                        end
                  | _, _ => fallback env ticker start_date eff st1
                  end
              end = fallback env ticker start_date eff st1).
  { destruct (store_fault env (length (trace st))); [reflexivity|].
    destruct H as [-> | H]; [reflexivity|]. rewrite H.
    now destruct (Calendar.strptime_ymd start_date). }
  cbv zeta in E. rewrite E. unfold fallback.
  destruct (fetch_stock_prices env ticker start_date eff st1)
    as [st2 [df|ex]] eqn:F;
    apply fetch_stock_prices_spec in F as [Ht _]; cbn [fst];
    (split; [exact Ht|]); eexists _, _; (split; [reflexivity|]); reflexivity.
Qed.

Lemma unparseable_date_falls_back_witness :
  DATE_PATTERN_match "2024-02-30" = true
  /\ exists st2,
       handle_prices_request env_all_up "AAPL" "2024-02-30"
         (Some "2024-03-05"%string) st_empty
       = (st2, Ok {| data := Fresh (transform_history_to_tiingo frame_jan_15 "AAPL");
                     cached := false; cacheHitRate := 0%Q |})
       /\ table st2 = [].
Proof.
  split; [reflexivity|].
  destruct (unparseable_date_falls_back env_all_up "AAPL" "2024-02-30"
              (Some "2024-03-05"%string) st_empty (or_introl eq_refl))
    as (Ht & st2 & outcome & F & H).
  destruct outcome as [df|ex].
  - exists st2. vm_compute in F. injection F as <- <-.
    split; [exact H|]. reflexivity.
  - vm_compute in F. discriminate F.
Defined.
(** ** The calendar *)

Module CalendarFacts.
Import Calendar.

Lemma days_before_year_succ (y : Z) :
  days_before_year (y + 1)
  = days_before_year y + 365 + (if is_leap y then 1 else 0).
Proof.
  unfold days_before_year, is_leap.
  replace (y + 1 - 1) with y by lia.
  destruct (y mod 4 =? 0) eqn:E4; destruct (y mod 100 =? 0) eqn:E100;
    destruct (y mod 400 =? 0) eqn:E400; cbn [andb orb negb];
    rewrite ?Z.eqb_eq, ?Z.eqb_neq in *;
    Z.to_euclidean_division_equations; lia.
Qed.

Lemma days_before_year_mono (y y' : Z) :
  y <= y' -> days_before_year y <= days_before_year y'.
Proof.
  unfold days_before_year. intros H.
  Z.to_euclidean_division_equations. lia.
Qed.

Lemma days_before_year_cycle (y k : Z) :
  days_before_year (y + 400 * k) = days_before_year y + 146097 * k.
Proof.
  unfold days_before_year. Z.to_euclidean_division_equations. lia.
Qed.

Lemma is_leap_cycle (y k : Z) : is_leap (y + 400 * k) = is_leap y.
Proof.
  unfold is_leap.
  replace ((y + 400 * k) mod 4) with (y mod 4)
    by (Z.to_euclidean_division_equations; lia).
  replace ((y + 400 * k) mod 100) with (y mod 100)
    by (Z.to_euclidean_division_equations; lia).
  replace ((y + 400 * k) mod 400) with (y mod 400)
    by (Z.to_euclidean_division_equations; lia).
  reflexivity.
Qed.

Lemma month_cases (m : Z) :
  1 <= m <= 12 ->
  m = 1 \/ m = 2 \/ m = 3 \/ m = 4 \/ m = 5 \/ m = 6 \/ m = 7 \/ m = 8
  \/ m = 9 \/ m = 10 \/ m = 11 \/ m = 12.
Proof. lia. Qed.

Ltac each_month H :=
  apply month_cases in H;
  repeat (destruct H as [H | H]); subst.

(** The days of a month follow the days before it. *)
Lemma days_before_month_succ (y m : Z) :
  1 <= m <= 12 ->
  days_before_month y m + days_in_month y m
  = if m =? 12 then 365 + (if is_leap y then 1 else 0)
    else days_before_month y (m + 1).
Proof.
  intros H. each_month H; unfold days_before_month, days_in_month;
    destruct (is_leap y); reflexivity.
Qed.

Lemma days_before_month_bounds (y m : Z) :
  1 <= m <= 12 ->
  0 <= days_before_month y m
  /\ days_before_month y m + days_in_month y m
     <= 365 + (if is_leap y then 1 else 0)
  /\ 28 <= days_in_month y m <= 31.
Proof.
  intros H. each_month H;
    unfold days_before_month, days_in_month, DAYS_BEFORE_MONTH;
    destruct (is_leap y); simpl; lia.
Qed.


(** A date of a year lies within the year. *)
Lemma ymd2ord_bounds (y m d : Z) :
  1 <= m <= 12 -> 1 <= d <= days_in_month y m ->
  days_before_year y < ymd2ord y m d <= days_before_year (y + 1).
Proof.
  intros Hm Hd. unfold ymd2ord. rewrite days_before_year_succ.
  pose proof (days_before_month_bounds y m Hm). lia.
Qed.


(** [ord2ymd] repeats every 400 years, which are 146097 days. *)
Lemma ord2ymd_cycle (n k : Z) :
  ord2ymd (n + 146097 * k)
  = let '(y, m, d) := ord2ymd n in (y + 400 * k, m, d).
Proof.
  unfold ord2ymd. cbv zeta.
  replace ((n + 146097 * k - 1) / 146097) with ((n - 1) / 146097 + k)
    by (Z.to_euclidean_division_equations; lia).
  replace ((n + 146097 * k - 1) mod 146097) with ((n - 1) mod 146097)
    by (Z.to_euclidean_division_equations; lia).
  set (r := (n - 1) mod 146097).
  destruct ((r mod 36524 mod 1461 / 365 =? 4) || (r / 36524 =? 4));
    [f_equal; f_equal; lia|].
  match goal with
  | |- (if ?c then _ else _) = _ => destruct c
  end; f_equal; f_equal; lia.
Qed.

Lemma ymd2ord_cycle (y m d k : Z) :
  ymd2ord (y + 400 * k) m d = ymd2ord y m d + 146097 * k.
Proof.
  unfold ymd2ord, days_before_month.
  rewrite days_before_year_cycle, is_leap_cycle. lia.
Qed.

Lemma days_in_month_cycle (y m k : Z) :
  days_in_month (y + 400 * k) m = days_in_month y m.
Proof. unfold days_in_month. now rewrite is_leap_cycle. Qed.

Lemma check_ordinals_spec (count : positive) :
  1 <= (check_ordinals count).1
  /\ ((check_ordinals count).2 = true ->
      forall i, 1 <= i < (check_ordinals count).1 -> ord2ymd_ok i = true).
Proof.
  unfold check_ordinals.
  apply (Pos.iter_invariant count _ check_next
           (fun st => 1 <= st.1
                      /\ (st.2 = true ->
                          forall i, 1 <= i < st.1 -> ord2ymd_ok i = true))).
  - intros [n b] [Hn H]. unfold check_next. cbn [fst snd] in *.
    split; [lia|].
    intros Hb i Hi. apply andb_true_iff in Hb as [Hb Hok].
    destruct (Z.eq_dec i n) as [-> | Hne]; [exact Hok|].
    apply (H Hb). lia.
  - split; [cbn; lia|]. intros _ i Hi. cbn in Hi. lia.
Qed.

Lemma cycle_checked : check_ordinals 146097 = (146098, true).
Proof. vm_compute. reflexivity. Qed.

(** [ord2ymd] gives a date of the calendar, and [ymd2ord] takes it back. *)
Lemma ord2ymd_valid (n : Z) :
  1 <= n ->
  let '(y, m, d) := ord2ymd n in
  ymd2ord y m d = n /\ 1 <= y /\ 1 <= m <= 12 /\ 1 <= d <= days_in_month y m.
Proof.
  intros Hn.
  set (k := (n - 1) / 146097). set (r := (n - 1) mod 146097 + 1).
  assert (Hr : 1 <= r <= 146097)
    by (unfold r; Z.to_euclidean_division_equations; lia).
  assert (Hk : 0 <= k) by (unfold k; Z.to_euclidean_division_equations; lia).
  replace n with (r + 146097 * k)
    by (unfold r, k; Z.to_euclidean_division_equations; lia).
  rewrite ord2ymd_cycle.
  pose proof (check_ordinals_spec 146097) as [_ Hok].
  rewrite cycle_checked in Hok. cbn [fst snd] in Hok.
  specialize (Hok eq_refl r).
  assert (Hok' : ord2ymd_ok r = true) by (apply Hok; lia).
  clear Hok. rename Hok' into Hok.
  unfold ord2ymd_ok in Hok. destruct (ord2ymd r) as [[y m] d].
  repeat (apply andb_true_iff in Hok as [Hok ?]).
  rewrite ymd2ord_cycle, days_in_month_cycle. lia.
Qed.

End CalendarFacts.
(** ** Dates as text *)

Module DateText.
Import Calendar CalendarFacts.

Lemma holds_from_spec (p : Z -> bool) (lo : Z) (n : nat) :
  holds_from p lo n = true ->
  forall z, lo <= z < lo + Z.of_nat n -> p z = true.
Proof.
  unfold holds_from. intros H z Hz.
  rewrite List.forallb_forall in H.
  replace z with (lo + Z.of_nat (Z.to_nat (z - lo))) by lia.
  apply H. apply in_seq. lia.
Qed.

Lemma parse_month_two_digits (m : Z) :
  1 <= m <= 12 -> parse_month (two_digits m) = Some m.
Proof.
  intros H.
  assert (E : month_round_trip m = true)
    by (apply (holds_from_spec month_round_trip 1 12); [reflexivity | lia]).
  unfold month_round_trip in E.
  destruct (parse_month (two_digits m)) as [x|]; [|discriminate].
  apply Z.eqb_eq in E. now subst.
Qed.

Lemma parse_day_two_digits (d : Z) :
  1 <= d <= 31 -> parse_day (two_digits d) = Some d.
Proof.
  intros H.
  assert (E : day_round_trip d = true)
    by (apply (holds_from_spec day_round_trip 1 31); [reflexivity | lia]).
  unfold day_round_trip in E.
  destruct (parse_day (two_digits d)) as [x|]; [|discriminate].
  apply Z.eqb_eq in E. now subst.
Qed.

Lemma code_digit_char (d : Z) : Str.code (digit_char d) = 48 + d mod 10.
Proof.
  unfold Str.code, digit_char.
  rewrite N_ascii_embedding; Z.to_euclidean_division_equations; lia.
Qed.

Lemma is_digit_digit_char (d : Z) : Str.is_digit (digit_char d) = true.
Proof.
  unfold Str.is_digit. rewrite code_digit_char.
  apply andb_true_iff. split; apply Z.leb_le;
    Z.to_euclidean_division_equations; lia.
Qed.

Lemma digit_val_digit_char (d : Z) : digit_val (digit_char d) = d mod 10.
Proof. unfold digit_val. rewrite code_digit_char. lia. Qed.

Lemma digit_is_no_hyphen (c : ascii) :
  Str.is_digit c = true -> Ascii.eqb c "-" = false.
Proof.
  intros H. destruct (Ascii.eqb c "-") eqn:E; [|reflexivity].
  apply Ascii.eqb_eq in E. subst. discriminate.
Qed.

Lemma digit_is_no_newline (c : ascii) :
  Str.is_digit c = true -> Ascii.eqb c Str.newline = false.
Proof.
  intros H. destruct (Ascii.eqb c Str.newline) eqn:E; [|reflexivity].
  apply Ascii.eqb_eq in E. subst. discriminate.
Qed.

Lemma year_of_four_digits (y : Z) :
  0 <= y <= 9999 ->
  1000 * ((y / 1000) mod 10) + 100 * ((y / 100) mod 10)
  + 10 * ((y / 10) mod 10) + y mod 10 = y.
Proof. intros H. Z.to_euclidean_division_equations. lia. Qed.

(** The text of a date with its year in four digits, its month and its day
    in two, is read back by [strptime] as the midnight of that date, and
    the pattern of the endpoints accepts it. *)
Lemma strptime_of_date (y m d : Z) :
  1 <= y <= 9999 -> 1 <= m <= 12 -> 1 <= d <= days_in_month y m ->
  let s := (four_digits y ++ "-" ++ two_digits m ++ "-" ++ two_digits d)%string in
  strptime_ymd s = Some (midnight (ymd2ord y m d))
  /\ DATE_PATTERN_match s = true.
Proof.
  intros Hy Hm Hd s. subst s.
  pose proof (days_before_month_bounds y m Hm) as (_ & _ & Hdim).
  split.
  - unfold four_digits, two_digits. cbv [String.append].
    unfold strptime_ymd. rewrite !is_digit_digit_char. cbn [andb Ascii.eqb Bool.eqb].
    cbn [split_hyphen].
    rewrite !(digit_is_no_hyphen _ (is_digit_digit_char _)).
    cbn [Ascii.eqb Bool.eqb].
    change (String (digit_char (m / 10)) (String (digit_char m) ""))
      with (two_digits m).
    change (String (digit_char (d / 10)) (String (digit_char d) ""))
      with (two_digits d).
    rewrite parse_month_two_digits, parse_day_two_digits by lia.
    rewrite !digit_val_digit_char, year_of_four_digits by lia.
    replace (1 <=? y) with true by (symmetry; apply Z.leb_le; lia).
    replace (d <=? days_in_month y m) with true
      by (symmetry; apply Z.leb_le; lia).
    reflexivity.
  - unfold DATE_PATTERN_match, four_digits, two_digits.
    cbv [String.append]. cbn [Str.chomp].
    rewrite (digit_is_no_newline _ (is_digit_digit_char d)).
    now rewrite !is_digit_digit_char.
Qed.

End DateText.

(** The years 1000 to 9999 in ordinals. *)
Example ordinals_of_the_four_digit_years :
  Calendar.ymd2ord 1000 1 1 = 364878 /\ Calendar.ymd2ord 9999 12 31 = 3652059.
Proof. split; reflexivity. Qed.

(** Today's date as the handler writes it parses, to today's midnight. *)
Lemma today_parses (t : Calendar.datetime) :
  364878 <= Calendar.toordinal t <= 3652059 ->
  Calendar.strptime_ymd (Calendar.strftime_ymd t)
  = Some (Calendar.midnight (Calendar.toordinal t))
  /\ DATE_PATTERN_match (Calendar.strftime_ymd t) = true.
Proof.
  intros [Hlo Hhi].
  pose proof (CalendarFacts.ord2ymd_valid (Calendar.toordinal t) ltac:(lia)) as Hv.
  unfold Calendar.strftime_ymd.
  destruct (Calendar.ord2ymd (Calendar.toordinal t)) as [[y m] d].
  destruct Hv as (Hn & Hy & Hm & Hd).
  assert (Hy' : y <= 9999).
  { destruct (Z_le_gt_dec y 9999) as [L | G]; [exact L|].
    pose proof (CalendarFacts.ymd2ord_bounds y m d Hm Hd).
    pose proof (CalendarFacts.days_before_year_mono 10000 y).
    change (Calendar.days_before_year 10000) with 3652059 in *. lia. }
  destruct (DateText.strptime_of_date y m d) as [Hp Hpat]; try lia.
  rewrite Hn in Hp. split; [exact Hp | exact Hpat].
Qed.

(** X21. A prices request without an end date (the parameter absent, or
    the empty string) runs to today. With the clock in the years 1000 to
    9999, a start date that parses and a table that answers, the request
    never takes the way of a date that does not parse (the upstream fetch
    without coverage and without write-back): the cache is asked for the
    range from the start date to today's date, the coverage is evaluated
    over the days from the start date to today's midnight, a sufficient
    cache is served, and otherwise the fetched rows are written back and
    returned with the coverage that was found. *)
Theorem request_without_end_date_runs_to_today (env : Env)
  (ticker start_date : string) (end_date : option string) (st : State)
  (s : Calendar.datetime) :
  let today := Calendar.strftime_ymd (now (clock st)) in
  let e := Calendar.midnight (Calendar.toordinal (now (clock st))) in
  let items := table_query (Str.upper ticker) start_date today (table st) in
  let rate := cache_hit_rate (length items) (expected_for_range s e) in
  let st1 := after_call (EvQuery (Str.upper ticker) start_date today) st in
  end_date = None \/ end_date = Some ""%string ->
  364878 <= Calendar.toordinal (now (clock st)) <= 3652059 ->
  Calendar.strptime_ymd start_date = Some s ->
  store_fault env (length (trace st)) = None ->
  handle_prices_request env ticker start_date end_date st
  = if sufficient rate items then
      (st1, Ok {| data := FromCache (map cached_record (sort_by_date items));
                  cached := true; cacheHitRate := rate |})
    else
      match fetch_stock_prices env ticker start_date today st1 with
      | (st2, Ok df) =>
          let records := transform_history_to_tiingo df ticker in
          ((write_back env ticker records st2).1,
           Ok {| data := Fresh records; cached := false;
                 cacheHitRate := rate |})
      | (st2, Raise ex) => (st2, Raise ex)
      end.
Proof.
  intros today e items rate st1 Hend Hclock Hs Hq.
  destruct (today_parses (now (clock st)) Hclock) as [Hp _].
  assert (Heff : str_or end_date (Calendar.strftime_ymd (now (clock st)))
                 = today)
    by (destruct Hend as [-> | ->]; reflexivity).
  pose proof (handle_prices_request_queried env ticker start_date end_date st
                s e Hs) as H.
  cbv zeta in H. rewrite Heff in H.
  exact (H Hp Hq).
Qed.

Lemma request_without_end_date_runs_to_today_witness :
  exists st2,
    handle_prices_request env_all_up "AAPL" "2024-01-01" None st_empty
    = (st2, Ok {| data := Fresh (transform_history_to_tiingo frame_jan_15 "AAPL");
                  cached := false; cacheHitRate := (0 # 10)%Q |})
    /\ map ci_date (table st2) = ["2024-01-15"%string]
    /\ exists more,
         trace st2 = EvQuery "AAPL" "2024-01-01" "2024-01-15" :: more.
Proof.
  assert (Hclock : 364878 <= Calendar.toordinal (now (clock st_empty)) <= 3652059)
    by (vm_compute; split; discriminate).
  pose proof (request_without_end_date_runs_to_today env_all_up "AAPL"
                "2024-01-01" None st_empty (Calendar.midnight 738886)
                (or_introl eq_refl) Hclock eq_refl eq_refl) as H.
  cbv zeta in H. rewrite H.
  destruct (fetch_stock_prices env_all_up "AAPL" "2024-01-01"
              (Calendar.strftime_ymd (now (clock st_empty)))
              (after_call (EvQuery (Str.upper "AAPL") "2024-01-01"
                             (Calendar.strftime_ymd (now (clock st_empty))))
                 st_empty)) as [st2 [df|ex]] eqn:F;
    vm_compute in F; [|discriminate F].
  injection F as <- <-.
  eexists. split; [vm_compute; reflexivity|].
  split; [vm_compute; reflexivity|]. eexists. vm_compute. reflexivity.
Defined.
(** ** The order of dates, as text and on the calendar *)

Module DateOrder.
Import Calendar CalendarFacts DateText.









End DateOrder.


(** ** From the upstream to the cache and back *)

Lemma filter_comm {A} (p q : A -> bool) (l : list A) :
  List.filter p (List.filter q l) = List.filter q (List.filter p l).
Proof.
  induction l as [|x l IH]; [reflexivity|]. simpl.
  destruct (q x) eqn:Q; destruct (p x) eqn:P; simpl; rewrite ?Q, ?P, IH;
    reflexivity.
Qed.

Lemma filter_all {A} (p : A -> bool) (l : list A) :
  (forall x, In x l -> p x = true) -> List.filter p l = l.
Proof.
  induction l as [|x l IH]; intros H; [reflexivity|]. simpl.
  rewrite (H x (or_introl eq_refl)). f_equal. apply IH.
  intros y Hy. apply H. now right.
Qed.

Lemma same_key_iff (x y : CacheItem) :
  same_key x y = true <-> key_of x = key_of y.
Proof.
  unfold same_key, key_of. rewrite andb_true_iff, !String.eqb_eq.
  split; [intros [-> ->]; reflexivity | intros [= -> ->]; now split].
Qed.

(** Items with distinct keys, put into a table that holds none of their
    kind, are what a filter for their kind finds, the last one first. *)
Lemma filter_put_all_fresh (p : CacheItem -> bool) (l t : list CacheItem) :
  (forall x, In x l -> p x = true) ->
  keys_unique l ->
  List.filter p t = [] ->
  List.filter p (put_all l t) = rev l.
Proof.
  intros Hp Hu Ht. induction l as [|x l IH] using rev_ind; [exact Ht|].
  rewrite put_all_app. cbn [put_all fold_left]. unfold table_put.
  cbn [List.filter]. rewrite (Hp x) by (apply in_or_app; right; now left).
  rewrite rev_app_distr. cbn [rev app]. f_equal.
  rewrite filter_comm.
  unfold keys_unique in Hu. rewrite map_app in Hu.
  apply NoDup_app in Hu as (Hl & Hx & _).
  rewrite IH; [|intros y Hy; apply Hp, in_or_app; now left | exact Hl].
  apply filter_all. intros y Hy. apply negb_true_iff.
  destruct (same_key y x) eqn:E; [|reflexivity].
  apply same_key_iff in E. exfalso.
  apply (Hx (key_of y)).
  - apply list_elem_of_In, in_map, in_rev, Hy.
  - rewrite E. simpl. apply list_elem_of_here.
Qed.

Lemma string_ltb_trans (a b c : string) :
  String.ltb a b = true -> String.ltb b c = true -> String.ltb a c = true.
Proof.
  unfold String.ltb. intros H1 H2.
  destruct (String.compare a b) eqn:E1; try discriminate.
  destruct (String.compare b c) eqn:E2; try discriminate.
  now rewrite (string_compare_lt_trans a b c E1 E2).
Qed.

Lemma string_ltb_not_leb (a b : string) :
  String.ltb a b = true -> String.leb b a = false.
Proof.
  unfold String.ltb, String.leb. rewrite (String.compare_antisym a b).
  destruct (String.compare b a); simpl; congruence.
Qed.

(** A list sorted by date and a strictly sorted list with the same items
    are one list. *)
Lemma sorted_are_equal (l l' : list CacheItem) :
  Permutation l l' -> dates_nondecreasing l -> dates_increasing l' -> l = l'.
Proof.
  unfold dates_nondecreasing, dates_increasing.
  revert l. induction l' as [|x r IH]; intros l Hp Hl Hl'.
  - symmetry in Hp. now apply Permutation_nil in Hp.
  - destruct l as [|y m].
    { now apply Permutation_nil in Hp. }
    apply Sorted_StronglySorted in Hl;
      [|intros a b c; apply string_leb_trans].
    apply Sorted_StronglySorted in Hl';
      [|intros a b c; apply string_ltb_trans].
    inversion Hl as [|? ? Hm Hy]; subst.
    inversion Hl' as [|? ? Hr Hx]; subst.
    assert (E : y = x).
    { assert (Iy : In y (x :: r))
        by (apply (Permutation_in _ Hp); now left).
      assert (Ix : In x (y :: m))
        by (apply (Permutation_in _ (Permutation_sym Hp)); now left).
      destruct Iy as [-> | Iy]; [reflexivity|].
      destruct Ix as [-> | Ix]; [reflexivity|].
      rewrite List.Forall_forall in Hx, Hy.
      pose proof (string_ltb_not_leb _ _ (Hx y Iy)) as C.
      rewrite (Hy x Ix) in C. discriminate. }
    subst y. f_equal. apply IH.
    + now apply Permutation_cons_inv in Hp.
    + now apply StronglySorted_Sorted.
    + now apply StronglySorted_Sorted.
Qed.

Lemma sort_by_date_of_sorted (l l' : list CacheItem) :
  Permutation l l' -> dates_increasing l' -> sort_by_date l = l'.
Proof.
  intros Hp Hs. apply sorted_are_equal; [|apply sort_by_date_sorted | exact Hs].
  now rewrite sort_by_date_perm.
Qed.

Section CacheRoundTrip.

Variable env : Env.
Hypothesis store_up : forall i, store_fault env i = None.

Lemma batch_put_stocks_up (items : list Item) (st : State) :
  table (batch_put_stocks env items st).1
  = put_all (map (make_cache_item (clock st)) items) (table st).
Proof.
  destruct (batch_put_stocks env items st) as [st' [[]|e]] eqn:B.
  - now apply batch_put_stocks_ok in B as [H _].
  - exfalso. destruct items as [|i items]; [discriminate B|].
    unfold batch_put_stocks, log_and_reraise, batch_writer, try_except in B.
    unfold mbind at 1 in B. unfold M_bind at 1 in B.
    unfold get_state at 1 in B.
    destruct (flush_all env _ st) as [s2 [u|e2]] eqn:F; [discriminate B|].
    apply flush_all_run in F as (k & _ & _ & _ & _ & d & _ & Hf & _).
    now rewrite store_up in Hf.
Qed.

Lemma write_back_up (ticker : string) (records : list PriceRecord)
  (st : State) :
  table (write_back env ticker records st).1
  = put_all (map (make_cache_item (clock st))
               (map (cache_item_of ticker) records))
            (table st).
Proof.
  destruct records as [|r records]; [reflexivity|].
  unfold write_back, try_except.
  rewrite <- batch_put_stocks_up.
  now destruct (batch_put_stocks env _ st) as [st' [[]|e]].
Qed.

End CacheRoundTrip.

(** X23. What a prices request fetched and wrote back, the same request
    made again is served from the cache: when the table never fails, the
    cache held nothing of the range before, the fetched records lie in the
    range on strictly increasing days, and they cover more than 80% of the
    expected trading days, the second request makes no upstream call and
    answers [cached], with the records in their order, each with its date
    and its twelve values. *)
Theorem fetched_rows_are_served_from_cache (env : Env)
  (ticker start_date : string) (end_date : option string) (st st1 : State)
  (s e : Calendar.datetime) (records : list PriceRecord) (rate : Q) :
  let eff := str_or end_date (Calendar.strftime_ymd (now (clock st))) in
  let coverage := cache_hit_rate (length records) (expected_for_range s e) in
  (forall i, store_fault env i = None) ->
  Calendar.strptime_ymd start_date = Some s ->
  Calendar.strptime_ymd eff = Some e ->
  table_query (Str.upper ticker) start_date eff (table st) = [] ->
  handle_prices_request env ticker start_date end_date st
  = (st1, Ok {| data := Fresh records; cached := false; cacheHitRate := rate |}) ->
  days_increasing records ->
  Forall (fun r => String.leb start_date (Str.take 10 (date r)) = true
                   /\ String.leb (Str.take 10 (date r)) eff = true) records ->
  (8 # 10 < coverage)%Q ->
  str_or end_date (Calendar.strftime_ymd (now (clock st1))) = eff ->
  handle_prices_request env ticker start_date end_date st1
  = (after_call (EvQuery (Str.upper ticker) start_date eff) st1,
     Ok {| data := FromCache (map (served_from_cache ticker) records);
           cached := true; cacheHitRate := coverage |}).
Proof.
  intros eff coverage Hup Hs He Hempty Hrun Hsorted Hrange Hcov Heff.
  (* the first request *)
  rewrite (handle_prices_request_queried env ticker start_date end_date st s e
             Hs He (Hup _)) in Hrun.
  fold eff in Hrun. rewrite Hempty in Hrun.
  replace (sufficient _ []) with false in Hrun
    by (unfold sufficient; cbn [length Nat.eqb negb]; now rewrite andb_false_r).
  destruct (fetch_stock_prices env ticker start_date eff _)
    as [st2 [df|ex]] eqn:F; [|discriminate Hrun].
  apply fetch_stock_prices_spec in F as [Ht2 Hdf].
  cbv zeta in Hrun. injection Hrun as Hst1 Hrec _.
  rewrite Hrec in Hst1.
  assert (Htable : table st1
                   = put_all (map (make_cache_item (clock st2))
                                (map (cache_item_of ticker) records))
                       (table st)).
  { rewrite <- Hst1, write_back_up by exact Hup. now rewrite Ht2. }
  set (items := map (make_cache_item (clock st2))
                  (map (cache_item_of ticker) records)) in *.
  assert (Hdates : map ci_date items = map (fun r => Str.take 10 (date r)) records).
  { unfold items. rewrite !map_map. reflexivity. }
  assert (Hinc : dates_increasing items).
  { unfold dates_increasing, items. clear -Hsorted.
    induction Hsorted as [|r rs Hrs IH Hhd]; [constructor|].
    cbn [map]. constructor; [exact IH|].
    destruct Hhd as [|r' rs' Hlt]; constructor. exact Hlt. }
  assert (Hquery : table_query (Str.upper ticker) start_date eff (table st1)
                   = items).
  { unfold table_query. rewrite Htable, filter_put_all_fresh.
    - apply sort_by_date_of_sorted; [|exact Hinc].
      symmetry. apply Permutation_rev.
    - intros x Hx. unfold items in Hx. rewrite map_map in Hx.
      apply in_map_iff in Hx as (r & <- & Hr).
      rewrite List.Forall_forall in Hrange. destruct (Hrange r Hr) as [H1 H2].
      unfold key_condition. cbn [ci_ticker ci_date make_cache_item
                                  cache_item_of item_ticker item_date].
      now rewrite String.eqb_refl, H1, H2.
    - unfold keys_unique.
      apply (NoDup_fmap_1 snd). rewrite <- list_fmap_compose.
      change (snd ∘ key_of) with ci_date.
      clear -Hinc. unfold dates_increasing in Hinc.
      apply Sorted_StronglySorted in Hinc;
        [|intros a b c; apply string_ltb_trans].
      induction Hinc as [|x l Hl IH Hx]; [constructor|].
      cbn [fmap list_fmap]. apply NoDup_cons. split; [|exact IH].
      intros Hin. apply list_elem_of_In, in_map_iff in Hin as (y & Ey & Hy).
      rewrite List.Forall_forall in Hx. specialize (Hx y Hy).
      rewrite Ey in Hx. unfold String.ltb in Hx.
      now rewrite string_compare_refl in Hx.
    - unfold table_query in Hempty.
      destruct (List.filter _ (table st)) as [|x l] eqn:Ef; [reflexivity|].
      exfalso. pose proof (sort_by_date_perm (x :: l)) as P.
      rewrite Hempty in P. now apply Permutation_nil in P. }
  (* the second request *)
  rewrite (handle_prices_request_queried env ticker start_date end_date st1 s e
             Hs) by (rewrite ?Heff; auto).
  rewrite Heff, Hquery.
  assert (Hlen : length items = length records)
    by (unfold items; now rewrite !length_map).
  rewrite Hlen. fold coverage.
  replace (sufficient coverage items) with true.
  - rewrite (sort_by_date_of_sorted items items (Permutation_refl _) Hinc).
    assert (Hmap : map cached_record items
                   = map (served_from_cache ticker) records).
    { unfold items. rewrite !map_map.
      apply map_ext_in. intros r Hr.
      unfold cached_record, served_from_cache.
      cbn [ci_date priceData make_cache_item cache_item_of item_date
           item_priceData float_to_decimal].
      f_equal. subst records. rewrite transform_history_map in Hr.
      apply in_map_iff in Hr as ([idx row] & <- & _).
      cbn [fst snd transform_row date]. unfold transform_row. cbn [date].
      now rewrite take_10_strftime. }
    now rewrite Hmap.
  - symmetry. apply sufficient_iff. split; [exact Hcov|].
    rewrite Hlen. destruct records as [|r rs]; [|simpl; lia].
    exfalso. unfold coverage, cache_hit_rate in Hcov. cbn [length] in Hcov.
    destruct (0 <? expected_for_range s e); vm_compute in Hcov;
      discriminate Hcov.
Qed.

Lemma fetched_rows_are_served_from_cache_witness :
  let st1 := (handle_prices_request env_all_up "AAPL" "2024-01-15"
                (Some "2024-01-15"%string) st_empty).1 in
  (handle_prices_request env_all_up "AAPL" "2024-01-15"
     (Some "2024-01-15"%string) st1).2
  = Ok {| data := FromCache
                    (map (served_from_cache "AAPL")
                       (transform_history_to_tiingo frame_jan_15 "AAPL"));
          cached := true;
          cacheHitRate :=
            cache_hit_rate 1
              (expected_for_range (Calendar.midnight 738900)
                 (Calendar.midnight 738900)) |}.
Proof.
  intros st1.
  rewrite (fetched_rows_are_served_from_cache env_all_up "AAPL" "2024-01-15"
             (Some "2024-01-15"%string) st_empty st1
             (Calendar.midnight 738900) (Calendar.midnight 738900)
             (transform_history_to_tiingo frame_jan_15 "AAPL") (0 # 1)).
  - reflexivity.
  - intros i. reflexivity.
  - reflexivity.
  - reflexivity.
  - reflexivity.
  - subst st1. vm_compute. reflexivity.
  - repeat constructor.
  - repeat constructor.
  - reflexivity.
  - reflexivity.
Defined.
(** ** The holdings of an ETF *)

Section EtfFacts.

Variable ev : Etf.env.

Lemma get_cached_holdings_eq (etf : string) (s : Etf.state) :
  Etf.get_cached_holdings ev etf s
  = (etf_after (Etf.GetItem etf) s,
     Etf.Ok (match Etf.fault ev (length (Etf.calls s)) with
             | Some _ => None
             | None => etf_read (int_time (Etf.clock s)) (Etf.table s !! etf)
             end)).
Proof.
  unfold Etf.get_cached_holdings, Etf.try_except, mbind, Etf.M_bind, Etf.emit,
    Etf.raise, Etf.get_state, mret, Etf.M_ret, etf_after, etf_read.
  destruct (Etf.fault ev (length (Etf.calls s))); [reflexivity|].
  cbn [Etf.table Etf.clock].
  destruct (Etf.table s !! etf) as [item|]; [|reflexivity].
  destruct (default 0 (Etf.ttl item) <? int_time (Etf.clock s)); [reflexivity|].
  destruct (default (Etf.Encoded (JArr [])) (Etf.holdings item)) as [[]|];
    reflexivity.
Qed.

Lemma cache_holdings_eq (etf : string) (l : list string) (s : Etf.state) :
  Etf.cache_holdings ev etf l s
  = (match Etf.fault ev (length (Etf.calls s)) with
     | Some _ => etf_after (Etf.PutItem etf (etf_item s l)) s
     | None =>
         {| Etf.table := <[etf := etf_item s l]> (Etf.table s);
            Etf.clock := Etf.clock s;
            Etf.calls := Etf.calls s ++ [Etf.PutItem etf (etf_item s l)] |}
     end, Etf.Ok tt).
Proof.
  unfold Etf.cache_holdings, Etf.try_except, mbind, Etf.M_bind, Etf.emit,
    Etf.raise, Etf.get_state, Etf.set_table, mret, Etf.M_ret, etf_after.
  fold (etf_item s l).
  now destruct (Etf.fault ev (length (Etf.calls s))).
Qed.

Lemma firstn_etf_fetched (o : Etf.upstream) :
  firstn 10 (etf_fetched o) = etf_fetched o.
Proof.
  destruct o as [labels| | |]; try reflexivity.
  unfold etf_fetched. rewrite firstn_firstn. f_equal.
Qed.

Lemma static_of_length (etf : string) :
  (length (Etf.static_of etf Etf.ETF_TOP_HOLDINGS) <= 10)%nat.
Proof.
  unfold Etf.ETF_TOP_HOLDINGS. cbn [Etf.static_of].
  repeat match goal with
         | |- context [if ?c then _ else _] => destruct c; [simpl; lia|]
         end.
  simpl. lia.
Qed.

Lemma etf_answer_length (etf : string) (o : Etf.upstream) :
  (length (etf_answer etf o) <= 10)%nat.
Proof.
  unfold etf_answer. destruct (5 <=? length (etf_fetched o))%nat.
  - destruct o as [labels| | |]; simpl; try lia. rewrite length_firstn. lia.
  - apply static_of_length.
Qed.

(** [get_etf_holdings], path by path. *)
Lemma get_etf_holdings_eq (etf : string) (s : Etf.state) :
  Etf.get_etf_holdings ev etf s
  = let n := length (Etf.calls s) in
    let s1 := etf_after (Etf.GetItem etf) s in
    match (match Etf.fault ev n with
           | Some _ => None
           | None => etf_read (int_time (Etf.clock s)) (Etf.table s !! etf)
           end) with
    | Some value => (s1, Etf.Ok value)
    | None =>
        let s2 := etf_after (Etf.TopHoldings etf) s1 in
        let l := etf_answer etf (Etf.top_holdings ev (S n) etf) in
        (match l with
         | [] => s2
         | _ => (Etf.cache_holdings ev etf l s2).1
         end, Etf.Ok (Etf.symbols l))
    end.
Proof.
  cbv zeta. unfold Etf.get_etf_holdings.
  unfold mbind at 1. unfold Etf.M_bind at 1. rewrite get_cached_holdings_eq.
  destruct (match Etf.fault ev (length (Etf.calls s)) with
            | Some _ => None
            | None => etf_read (int_time (Etf.clock s)) (Etf.table s !! etf)
            end) as [value|]; [reflexivity|].
  unfold Etf.try_except, Etf.fetch_from_yfinance.
  unfold mbind, Etf.M_bind, Etf.emit, Etf.raise, mret, Etf.M_ret.
  cbn [Etf.calls etf_after Etf.table Etf.clock].
  rewrite length_app. cbn [length]. rewrite Nat.add_1_r.
  unfold etf_answer.
  destruct (Etf.top_holdings ev (S (length (Etf.calls s))) etf)
    as [labels| | |]; cbn [etf_fetched].
  - rewrite firstn_firstn. change (Init.Nat.min 10 10) with 10%nat.
    destruct (5 <=? length (firstn 10 labels))%nat eqn:E.
    + rewrite cache_holdings_eq.
      destruct (firstn 10 labels) as [|x l] eqn:F; [discriminate E|].
      rewrite cache_holdings_eq. reflexivity.
    + destruct (Etf.static_of etf Etf.ETF_TOP_HOLDINGS) as [|x l] eqn:S;
        [reflexivity|].
      now rewrite !cache_holdings_eq.
  - cbn [length Nat.leb].
    destruct (Etf.static_of etf Etf.ETF_TOP_HOLDINGS) as [|x l] eqn:S;
      [reflexivity|].
    now rewrite !cache_holdings_eq.
  - cbn [length Nat.leb].
    destruct (Etf.static_of etf Etf.ETF_TOP_HOLDINGS) as [|x l] eqn:S;
      [reflexivity|].
    now rewrite !cache_holdings_eq.
  - cbn [length Nat.leb].
    destruct (Etf.static_of etf Etf.ETF_TOP_HOLDINGS) as [|x l] eqn:S;
      [reflexivity|].
    now rewrite !cache_holdings_eq.
Qed.

End EtfFacts.

Lemma symbols_inj (a l : list string) :
  Etf.symbols a = Etf.symbols l -> a = l.
Proof.
  unfold Etf.symbols. intros [= H]. revert l H.
  induction a as [|x a IH]; intros [|y l]; try discriminate; [reflexivity|].
  intros [= -> H]. f_equal. now apply IH.
Qed.

(** [get_etf_holdings] returns, keeps the clock and the items of the other
    ETFs. *)
Lemma get_etf_holdings_total (ev : Etf.env) (etf : string) (s : Etf.state) :
  let run := Etf.get_etf_holdings ev etf s in
  exists v,
    run.2 = Etf.Ok v
    /\ Etf.clock run.1 = Etf.clock s
    /\ forall other, other <> etf ->
         Etf.table run.1 !! other = Etf.table s !! other.
Proof.
  intros run. subst run. rewrite get_etf_holdings_eq. cbv zeta.
  destruct (match Etf.fault ev (length (Etf.calls s)) with
            | Some _ => None
            | None => etf_read (int_time (Etf.clock s)) (Etf.table s !! etf)
            end) as [value|].
  { eexists. now repeat split. }
  destruct (etf_answer etf _) as [|x l].
  { eexists. now repeat split. }
  rewrite cache_holdings_eq.
  destruct (Etf.fault ev _); eexists; cbn; repeat split.
  intros other Hne. now apply lookup_insert_ne.
Qed.

(** X24. [get_etf_holdings] never raises. When the read of the cache
    succeeds and finds an item that has not expired and decodes to a value
    other than null, that value is the answer, and neither yfinance nor a
    write is called. Otherwise yfinance is asked once, and the answer is a
    list of at most ten symbols: the first ten fetched when there are five
    at least, the static list of the ETF otherwise. An empty answer is
    never written; any other answer is written with a time to live of
    seven days, and a failure of that write is dropped. No item of another
    ETF is touched. *)
Theorem etf_holdings_sources (ev : Etf.env) (etf : string) (s : Etf.state) :
  let n := length (Etf.calls s) in
  let cached :=
    match Etf.fault ev n with
    | Some _ => None
    | None => etf_read (int_time (Etf.clock s)) (Etf.table s !! etf)
    end in
  let run := Etf.get_etf_holdings ev etf s in
  match cached with
  | Some value => run = (etf_after (Etf.GetItem etf) s, Etf.Ok value)
  | None =>
      let l := etf_answer etf (Etf.top_holdings ev (S n) etf) in
      run.2 = Etf.Ok (Etf.symbols l)
      /\ (length l <= 10)%nat
      /\ Etf.calls run.1
         = Etf.calls s ++ [Etf.GetItem etf; Etf.TopHoldings etf]
           ++ match l with
              | [] => []
              | _ => [Etf.PutItem etf (etf_item s l)]
              end
      /\ Etf.table run.1
         = match l, Etf.fault ev (S (S n)) with
           | _ :: _, None => <[etf := etf_item s l]> (Etf.table s)
           | _, _ => Etf.table s
           end
  end
  /\ Etf.clock run.1 = Etf.clock s
  /\ forall other, other <> etf ->
       Etf.table run.1 !! other = Etf.table s !! other.
Proof.
  intros n cached run. subst run. rewrite get_etf_holdings_eq. cbv zeta.
  fold n. fold cached. destruct cached as [value|].
  { now repeat split. }
  set (l := etf_answer etf _).
  assert (Hl : (length l <= 10)%nat) by apply etf_answer_length.
  destruct l as [|x l].
  { cbn [fst snd etf_after Etf.calls Etf.table Etf.clock].
    repeat split; try exact Hl. now rewrite <- app_assoc. }
  rewrite cache_holdings_eq.
  cbn [etf_after Etf.calls Etf.table Etf.clock].
  rewrite !length_app. cbn [length].
  replace (length (Etf.calls s) + 1 + 1)%nat with (S (S n)) by (unfold n; lia).
  change (etf_item {| Etf.table := Etf.table s; Etf.clock := Etf.clock s;
                      Etf.calls := (Etf.calls s ++ [Etf.GetItem etf])
                                   ++ [Etf.TopHoldings etf] |} (x :: l))
    with (etf_item s (x :: l)).
  destruct (Etf.fault ev (S (S n)));
    cbn [fst snd etf_after Etf.calls Etf.table Etf.clock].
  - repeat split; try exact Hl. now rewrite <- !app_assoc.
  - repeat split; try exact Hl; [now rewrite <- !app_assoc|].
    intros other Hne. now apply lookup_insert_ne.
Qed.

(** X25. What a request wrote is served again: after a request that
    missed the cache, got a non-empty answer and whose write did not fail,
    a request for the same ETF within the next seven days whose read does
    not fail is answered from the cache with the same symbols, without a
    call to yfinance and without a write. *)
Theorem etf_answer_is_served_again (ev : Etf.env) (etf : string)
  (s s1 s2 : Etf.state) (l : list string) :
  let n := length (Etf.calls s) in
  match Etf.fault ev n with
  | Some _ => None
  | None => etf_read (int_time (Etf.clock s)) (Etf.table s !! etf)
  end = None ->
  Etf.get_etf_holdings ev etf s = (s1, Etf.Ok (Etf.symbols l)) ->
  l <> [] ->
  Etf.fault ev (S (S n)) = None ->
  Etf.table s2 = Etf.table s1 ->
  int_time (Etf.clock s2) <= int_time (Etf.clock s) + Etf.CACHE_TTL_SECONDS ->
  Etf.fault ev (length (Etf.calls s2)) = None ->
  Etf.get_etf_holdings ev etf s2
  = (etf_after (Etf.GetItem etf) s2, Etf.Ok (Etf.symbols l)).
Proof.
  intros n Hmiss Hrun Hl Hput Htab Hnow Hget.
  rewrite get_etf_holdings_eq in Hrun. cbv zeta in Hrun. fold n in Hrun.
  rewrite Hmiss in Hrun.
  set (a := etf_answer etf _) in Hrun.
  assert (Ha : a = l) by (apply symbols_inj; congruence).
  rewrite Ha in Hrun. destruct l as [|x l]; [now destruct Hl|].
  rewrite cache_holdings_eq in Hrun.
  cbn [etf_after Etf.calls] in Hrun. rewrite !length_app in Hrun.
  cbn [length] in Hrun.
  replace (length (Etf.calls s) + 1 + 1)%nat with (S (S n)) in Hrun
    by (unfold n; lia).
  rewrite Hput in Hrun. injection Hrun as Hs1.
  rewrite get_etf_holdings_eq. cbv zeta. rewrite Hget, Htab, <- Hs1.
  cbn [Etf.table]. rewrite lookup_insert_eq.
  unfold etf_read, etf_item. cbn [Etf.ttl Etf.holdings default].
  cbn [Etf.clock Etf.table Etf.calls].
  replace (_ <? _) with false by (symmetry; apply Z.ltb_ge; exact Hnow).
  reflexivity.
Qed.

Lemma etf_answer_is_served_again_witness :
  let s1 := (Etf.get_etf_holdings Etf.quiet "XLK" (Etf.start noon_2024_01_15)).1 in
  Etf.get_etf_holdings Etf.quiet "XLK" s1
  = (etf_after (Etf.GetItem "XLK") s1,
     Etf.Ok (Etf.symbols
               ["AAPL"; "MSFT"; "NVDA"; "AVGO"; "CRM"; "ADBE"; "AMD"; "CSCO";
                "ACN"; "ORCL"]%string)).
Proof.
  intros s1.
  apply (etf_answer_is_served_again Etf.quiet "XLK"
           (Etf.start noon_2024_01_15) s1 s1).
  - reflexivity.
  - reflexivity.
  - discriminate.
  - reflexivity.
  - reflexivity.
  - vm_compute. discriminate.
  - reflexivity.
Defined.

(** X26. [handle_etf_holdings] never raises and answers 200, 400 or 500.
    A parameter that is not one to six capital letters once put in
    capitals and stripped is answered 400, without any call. With the
    table configured, every other request is answered 200: no failure of
    the table or of yfinance shows, and 500 is answered only when the
    table cannot be set up, before any call. The clock is not changed and
    no item of another ETF is touched. *)
Theorem etf_request_responds (ev : Etf.env) (params : gmap string string)
  (s : Etf.state) :
  let etf := strip (Str.upper (default ""%string (params !! "etf"%string))) in
  let run := Etf.handle_etf_holdings ev params s in
  exists r,
    run.2 = Etf.Ok r
    /\ match r with
       | Etf.error_response _ status_code =>
           run.1 = s
           /\ (status_code = 400 /\ Etf.ETF_PATTERN_match etf = false
               \/ status_code = 500 /\ Etf.ETF_PATTERN_match etf = true
                  /\ Etf.table_handle ev <> None)
       | Etf.success_response e h =>
           e = etf /\ Etf.ETF_PATTERN_match etf = true
           /\ Etf.table_handle ev = None
           /\ (Etf.get_etf_holdings ev etf s).2 = Etf.Ok h
       end
    /\ Etf.clock run.1 = Etf.clock s
    /\ forall other, other <> etf ->
         Etf.table run.1 !! other = Etf.table s !! other.
Proof.
  intros etf run. subst run. unfold Etf.handle_etf_holdings. fold etf.
  destruct (Str.nonempty etf) eqn:Hne; cbn [negb].
  2: { eexists. split; [reflexivity|]. cbn. repeat split. left.
       split; [reflexivity|]. destruct etf; [reflexivity | discriminate]. }
  destruct (Etf.ETF_PATTERN_match etf) eqn:Hpat; cbn [negb].
  2: { eexists. split; [reflexivity|]. cbn. repeat split. now left. }
  unfold Etf.try_except.
  destruct (Etf.table_handle ev) as [detail|] eqn:Hh.
  { eexists. split; [reflexivity|]. cbn. repeat split. right.
    repeat split. discriminate. }
  unfold mbind, Etf.M_bind, mret, Etf.M_ret.
  pose proof (get_etf_holdings_total ev etf s) as (v & Hv & Hc & Ho).
  destruct (Etf.get_etf_holdings ev etf s) as [s' [h|e]]; cbn [fst snd] in *;
    [|discriminate Hv].
  eexists. split; [reflexivity|]. cbn. repeat split; assumption.
Qed.
